(** * mtn-momo: the Campay mobile-money client ([main.go])

    A shallow embedding of the validator, the gateway client, the status
    poller and the orchestrator of [main.go], with the properties of the
    design document proved over it.

    Go strings are byte strings: [string] of the Standard Library, whose
    [String.length] is Go's [len].  Go's [int] is [Z].  A Go [error] is
    [option Err], [None] being [nil].  Everything the program does to the
    outside (standard input and output, the process environment, the HTTP
    exchanges, the [select]s on the context) goes through a state monad
    over a [World] that logs each effect in a trace. *)

From Stdlib Require Import ZArith List Bool Ascii String Lia.
From Stdlib Require Import DecimalString.
From Stdlib Require Import SpecFloat.
Import ListNotations.

Local Open Scope string_scope.
Local Open Scope Z_scope.

(** * Go values *)

Module Go.

(** The error values the program builds: [errors.New]/[fmt.Errorf] without
    [%w] give an [errorString]; [fmt.Errorf] with [%w] gives a [wrapError]
    holding the formatted message and the wrapped error;
    [context.DeadlineExceeded] is a type of its own. *)
Inductive Err : Type :=
| errorString (msg : string)
| wrapError (msg : string) (err : Err)
| deadlineExceededError.

Definition error : Type := option Err.

Definition Error (e : Err) : string :=
  match e with
  | errorString msg => msg
  | wrapError msg _ => msg
  | deadlineExceededError => "context deadline exceeded"
  end.

(** [context.Canceled], [context.DeadlineExceeded] and [io.EOF]. *)
Definition Canceled : Err := errorString "context canceled".
Definition DeadlineExceeded : Err := deadlineExceededError.
Definition EOF : Err := errorString "EOF".

(** [%d] of an [int]. *)
Definition itoa (n : Z) : string := NilZero.string_of_int (Z.to_int n).

(** [fmt.Errorf(prefix + "%w", err)]. *)
Definition Errorf_w (prefix : string) (err : Err) : Err :=
  wrapError (prefix ++ Error err) err.

Definition len (s : string) : Z := Z.of_nat (String.length s).

(** The newline of the format strings. *)
Definition LF : string := String (ascii_of_nat 10) EmptyString.

(** [strings.HasPrefix]. *)
Definition HasPrefix (s prefix : string) : bool := String.prefix prefix s.

(** A UTF-8 continuation byte, 10xxxxxx. *)
Definition continuation (c : ascii) : bool :=
  let n := N_of_ascii c in ((128 <=? n) && (n <? 192))%N.

(** [strings.ReplaceAll s old new] for a non-empty [old]: the
    non-overlapping occurrences of [old], leftmost first.  [skip] counts the
    bytes of a matched occurrence still to be dropped. *)
Fixpoint replace_from (skip : nat) (s old new : string) : string :=
  match s with
  | EmptyString => EmptyString
  | String c s' =>
      match skip with
      | S k => replace_from k s' old new
      | O =>
          if String.prefix old s
          then new ++ replace_from (String.length old - 1) s' old new
          else String c (replace_from 0 s' old new)
      end
  end.

(** With an empty [old], Go puts [new] in front of every UTF-8 sequence and
    at the end (here: in front of every byte that is not a continuation
    byte, which is the same on valid UTF-8). *)
Fixpoint intersperse_runes (s new : string) : string :=
  match s with
  | EmptyString => new
  | String c s' =>
      if continuation c then String c (intersperse_runes s' new)
      else new ++ String c (intersperse_runes s' new)
  end.

Definition ReplaceAll (s old new : string) : string :=
  if String.eqb old "" then intersperse_runes s new
  else replace_from 0 s old new.

(** [float64] as the IEEE 754 binary64 values of [SpecFloat]; [<=] is the
    IEEE comparison, false on NaN. *)
Definition float64 : Type := spec_float.
Definition float64_le (x y : float64) : bool := SFleb x y.
Definition float64_lt (x y : float64) : bool := SFltb x y.

End Go.
Import Go.

(** * Constants and data ([main.go], lines 16-56) *)

Definition defaultBaseURL : string := "https://demo.campay.net/api".
(** [time.Duration] is an [int64] count of nanoseconds. *)
Definition Second : Z := 1000000000.
Definition pollInterval : Z := 3 * Second.
Definition maxPollAttempts : Z := 40.
Definition requestTimeout : Z := 10 * Second.
Definition minPhoneLength : Z := 9.
Definition minAmount : float64 := S754_zero false.

Record Config : Type := {
  BaseURL : string;
  APIKey : string;
  PollInterval : Z;
  MaxPollAttempts : Z
}.

Record PaymentRequest : Type := {
  Amount : string;
  From : string;
  Description : string
}.

Record InitResponse : Type := {
  Reference : string;
  Status : string;
  Message : string
}.

Record StatusResponse : Type := {
  StatusOf : string
}.

(** * Validator ([main.go], lines 190-254) *)

Section Validator.

(** [strconv.ParseFloat], of Go's standard library, is taken as given. *)
Variable ParseFloat : string -> Z -> float64 * error.

Definition validatePhoneNumber (phone : string) : error :=
  if String.eqb phone "" then
    Some (errorString "phone number cannot be empty")
  else
    let phone := ReplaceAll phone " " "" in
    let phone := ReplaceAll phone "-" "" in
    let phone := ReplaceAll phone "+" "" in
    if len phone <? minPhoneLength then
      Some (errorString ("phone number too short (minimum "
                         ++ itoa minPhoneLength ++ " digits)"))
    else if negb (HasPrefix phone "237") && negb (HasPrefix phone "6") then
      Some (errorString
              "invalid phone number format (should start with 237 or 6)")
    else None.

Definition validateAmount (amount : string) : error :=
  if String.eqb amount "" then
    Some (errorString "amount cannot be empty")
  else
    let '(val, err) := ParseFloat amount 64 in
    match err with
    | Some _ => Some (errorString "invalid amount format: must be a number")
    | None =>
        if float64_le val minAmount then
          (* [%.2f] of [minAmount] *)
          Some (errorString ("amount must be greater than " ++ "0.00"))
        else None
    end.

Definition validateDescription (description : string) : error :=
  if String.eqb description "" then
    Some (errorString "description cannot be empty")
  else if 200 <? len description then
    Some (errorString "description too long (maximum 200 characters)")
  else None.

Definition validatePaymentRequest (req : PaymentRequest) : error :=
  match validatePhoneNumber (From req) with
  | Some err => Some err
  | None =>
      match validateAmount (Amount req) with
      | Some err => Some err
      | None =>
          match validateDescription (Description req) with
          | Some err => Some err
          | None => None
          end
      end
  end.

End Validator.

(** The validator's rule for phone numbers in the words of the design
    document: the normalized form drops spaces, hyphens and plus signs. *)
Definition formatting_char (c : ascii) : bool :=
  Ascii.eqb c " " || Ascii.eqb c "-" || Ascii.eqb c "+".

Fixpoint normalize (phone : string) : string :=
  match phone with
  | EmptyString => EmptyString
  | String c s => if formatting_char c then normalize s
                  else String c (normalize s)
  end.


(** * The world outside the program *)

(** A request as the HTTP client sends it, and the response it hands back:
    the status code, the raw body ([resp.String()]) and, when the body is a
    JSON object under a JSON content type, its string members as the decoder
    resolves them to the [json] tags of the result struct. *)
Record Request : Type := {
  Method : string;
  URL : string;
  Header : list (string * string);
  Body : option PaymentRequest
}.

Record Response : Type := {
  StatusCode : Z;
  RawBody : string;
  Fields : option (list (string * string))
}.

(** The effects the program has, in the order it has them. *)
Inductive Event : Type :=
| Stdout (s : string)
| Stderr (s : string)
| Exchange (req : Request)
    (* a request made through the HTTP client: a network call *)
| SelectDefault (done : bool)
    (* select { case <-ctx.Done(): ...; default: } *)
| SelectAfter (d : Z) (done : bool).
    (* select { case <-ctx.Done(): ...; case <-time.After(d): } *)

(** - [environ]: the process environment;
    - [dotenv]: [None] when [os.Stat(".env")] fails, otherwise what
      [godotenv.Load] does: an error, or the pairs read from the file;
    - [stdin]: the bytes of standard input that the program's reader has
      not handed out yet (the [bufio.Reader] may hold some of them in its
      buffer already; what becomes of them when the reader is dropped is not
      part of the model);
    - [gateway n req]: what the HTTP client returns for [req] when it is the
      [n]-th request of the run (the client's own retries of a transport
      failure are inside one request);
    - [timer d n]: whether the deadline of a context made by
      [context.WithTimeout] with duration [d] is what the [n]-th [select] of
      the run sees first (time is not part of the world: that a deadline of
      [k] waits has fired by the end of the [k]-th wait is a matter for the
      hypotheses on [timer]);
    - [trace]: the effects so far, oldest first. *)
Record World : Type := {
  environ : string -> option string;
  dotenv : option (Err + list (string * string));
  stdin : string;
  gateway : nat -> Request -> Err + Response;
  timer : Z -> nat -> bool;
  trace : list Event
}.

Definition with_environ (env : string -> option string) (w : World) : World :=
  {| environ := env; dotenv := dotenv w; stdin := stdin w;
     gateway := gateway w; timer := timer w; trace := trace w |}.

Definition with_stdin (rest : string) (w : World) : World :=
  {| environ := environ w; dotenv := dotenv w; stdin := rest;
     gateway := gateway w; timer := timer w; trace := trace w |}.

(** A [context.Context] as the program can observe it: [Done n] tells
    whether the [Done] channel is the case taken by the [n]-th [select] of
    the run (closed already for a [select] with [default]; closed before the
    timer fires for a [select] against [time.After]); [CtxErr] is what
    [ctx.Err()] returns from then on. *)
Record Context : Type := {
  Done : nat -> bool;
  CtxErr : Err
}.

Definition is_exchange (e : Event) : bool :=
  match e with Exchange _ => true | _ => false end.

Definition is_select (e : Event) : bool :=
  match e with SelectDefault _ | SelectAfter _ _ => true | _ => false end.

Definition count (p : Event -> bool) (t : list Event) : nat :=
  List.length (List.filter p t).

Definition exchanges (t : list Event) : nat := count is_exchange t.
Definition selects (t : list Event) : nat := count is_select t.

Definition log (e : Event) (w : World) : World :=
  {| environ := environ w; dotenv := dotenv w; stdin := stdin w;
     gateway := gateway w; timer := timer w; trace := trace w ++ [e] |}.

(** ** The state monad of effects *)

Definition M (A : Type) : Type := World -> A * World.

Definition ret {A} (a : A) : M A := fun w => (a, w).

Definition bind {A B} (m : M A) (k : A -> M B) : M B :=
  fun w => let '(a, w') := m w in k a w'.

Declare Scope go_scope.
Delimit Scope go_scope with go.
Notation "x <- m ;; k" := (bind m (fun x => k))
  (at level 61, m at next level, right associativity) : go_scope.
Notation "' p <- m ;; k" := (bind m (fun x => match x with p => k end))
  (at level 61, p pattern, m at next level, right associativity) : go_scope.
Notation "m ;; k" := (bind m (fun _ => k))
  (at level 61, right associativity) : go_scope.
Local Open Scope go_scope.

Definition emit (e : Event) : M unit := fun w => (tt, log e w).

(** [fmt.Print] and friends on standard output, already formatted. *)
Definition Print (s : string) : M unit := emit (Stdout s).
Definition Println (s : string) : M unit := emit (Stdout (s ++ LF)).
Definition Eprint (s : string) : M unit := emit (Stderr s).

Definition Getenv (key : string) : M string :=
  fun w => (match environ w key with Some v => v | None => "" end, w).

(** [os.Stat(".env")]: the error. *)
Definition Stat_dotenv : M error :=
  fun w => (match dotenv w with
            | Some _ => None
            | None => Some (errorString "stat .env: no such file or directory")
            end, w).

(** The value the file gives to a key: of two assignments the later one. *)
Fixpoint dotenv_value (key : string) (kvs : list (string * string))
  : option string :=
  match kvs with
  | [] => None
  | (k, v) :: kvs' =>
      match dotenv_value key kvs' with
      | Some v' => Some v'
      | None => if String.eqb k key then Some v else None
      end
  end.

Definition setenv_missing (kvs : list (string * string))
    (env : string -> option string) : string -> option string :=
  fun x => match env x with
           | Some v => Some v
           | None => dotenv_value x kvs
           end.

(** [godotenv.Load()]: sets the variables of the file that the environment
    does not have yet. *)
Definition godotenv_Load : M error :=
  fun w =>
    match dotenv w with
    | None => (Some (errorString "open .env: no such file or directory"), w)
    | Some (inl e) => (Some e, w)
    | Some (inr kvs) =>
        (None, with_environ (setenv_missing kvs (environ w)) w)
    end.

(** The bytes up to and including the first [delim], and the rest. *)
Fixpoint split_after (delim : ascii) (s : string) : option (string * string) :=
  match s with
  | EmptyString => None
  | String c s' =>
      if Ascii.eqb c delim then Some (String c EmptyString, s')
      else match split_after delim s' with
           | Some (l, r) => Some (String c l, r)
           | None => None
           end
  end.

(** [reader.ReadString(delim)] for the one [bufio.Reader] the program makes
    on standard input: the bytes up to and including [delim]; at end of
    input, what was read and [io.EOF]. *)
Definition ReadString (delim : ascii) : M (string * error) :=
  fun w =>
    let '(line, rest, err) :=
      match split_after delim (stdin w) with
      | Some (l, r) => (l, r, None)
      | None => (stdin w, EmptyString, Some EOF)
      end in
    ((line, err), with_stdin rest w).

(** The two [select] statements of the poller. *)
Definition select_default (ctx : Context) : M bool :=
  fun w => let done := Done ctx (selects (trace w)) in
           (done, log (SelectDefault done) w).

Definition select_after (ctx : Context) (d : Z) : M bool :=
  fun w => let done := Done ctx (selects (trace w)) in
           (done, log (SelectAfter d done) w).

(** [context.WithTimeout(context.Background(), d)]. *)
Definition WithTimeout (d : Z) : M Context :=
  fun w => ({| Done := timer w d; CtxErr := DeadlineExceeded |}, w).

(** * The HTTP client (go-resty) *)

Module Resty.

Record Client : Type := {
  timeout : Z;
  retryCount : Z;
  retryWaitTime : Z;
  headers : list (string * string)
}.

Definition New : Client :=
  {| timeout := 0; retryCount := 0; retryWaitTime := 100000000;
     headers := [] |}.

Definition SetTimeout (d : Z) (c : Client) : Client :=
  {| timeout := d; retryCount := retryCount c;
     retryWaitTime := retryWaitTime c; headers := headers c |}.

Definition SetRetryCount (n : Z) (c : Client) : Client :=
  {| timeout := timeout c; retryCount := n;
     retryWaitTime := retryWaitTime c; headers := headers c |}.

Definition SetRetryWaitTime (d : Z) (c : Client) : Client :=
  {| timeout := timeout c; retryCount := retryCount c;
     retryWaitTime := d; headers := headers c |}.

Definition SetHeader (k v : string) (c : Client) : Client :=
  {| timeout := timeout c; retryCount := retryCount c;
     retryWaitTime := retryWaitTime c; headers := headers c ++ [(k, v)] |}.

Definition no_response : Response :=
  {| StatusCode := 0; RawBody := ""; Fields := None |}.

(** [c.R()...Execute(method, url)]: one network call, answered by the
    gateway of the world. *)
Definition Execute (c : Client) (method url : string)
    (body : option PaymentRequest) : M (Response * error) :=
  fun w =>
    let req := {| Method := method; URL := url; Header := headers c;
                  Body := body |} in
    match gateway w (exchanges (trace w)) req with
    | inl e => ((no_response, Some e), log (Exchange req) w)
    | inr resp => ((resp, None), log (Exchange req) w)
    end.

Definition Post (c : Client) (body : PaymentRequest) (url : string)
  : M (Response * error) := Execute c "POST" url (Some body).

Definition Get (c : Client) (url : string) : M (Response * error) :=
  Execute c "GET" url None.

(** [resp.IsSuccess()]: status code above 199 and below 300. *)
Definition IsSuccess (resp : Response) : bool :=
  (199 <? StatusCode resp) && (StatusCode resp <? 300).

(** What the client unmarshals into the object registered with
    [SetResult]: as documented for [Request.SetResult], the body, if the
    response status code is between 200 and 299 and the content type is JSON
    (or XML); nothing is parsed for 204 No Content.  An object left alone
    keeps its zero value. *)
Definition Result (resp : Response) : list (string * string) :=
  if IsSuccess resp && negb (StatusCode resp =? 204) then
    match Fields resp with
    | Some fs => fs
    | None => []
    end
  else [].

(** A string member of the unmarshalled object; the zero value when the
    object has no such member. *)
Fixpoint member (key : string) (fs : list (string * string)) : string :=
  match fs with
  | [] => ""
  | (k, v) :: fs' => if String.eqb k key then v else member key fs'
  end.

End Resty.

Definition unmarshal_InitResponse (fs : list (string * string))
  : InitResponse :=
  {| Reference := Resty.member "reference" fs;
     Status := Resty.member "status" fs;
     Message := Resty.member "message" fs |}.

Definition unmarshal_StatusResponse (fs : list (string * string))
  : StatusResponse :=
  {| StatusOf := Resty.member "status" fs |}.

(** * Gateway client ([main.go], lines 52-56, 143-156, 256-279, 318-336) *)

Record CampayClient : Type := {
  client : Resty.Client;
  config : Config
}.

Definition NewCampayClient (config : Config) : CampayClient :=
  let client :=
    Resty.SetHeader "Content-Type" "application/json"
      (Resty.SetHeader "Authorization" ("Token " ++ APIKey config)
         (Resty.SetRetryWaitTime (1 * Second)
            (Resty.SetRetryCount 2
               (Resty.SetTimeout requestTimeout Resty.New)))) in
  {| client := client; config := config |}.

Definition InitiatePayment (c : CampayClient) (req : PaymentRequest)
  : M (string * error) :=
  '(resp, err) <- Resty.Post (client c) req (BaseURL (config c) ++ "/collect/") ;;
  let initResp := unmarshal_InitResponse (Resty.Result resp) in
  match err with
  | Some err => ret ("", Some (Errorf_w "request failed: " err))
  | None =>
      if (StatusCode resp <? 200) || (300 <=? StatusCode resp) then
        ret ("", Some (errorString ("API error (status "
                                    ++ itoa (StatusCode resp) ++ "): "
                                    ++ Message initResp)))
      else if String.eqb (Reference initResp) "" then
        ret ("", Some (errorString ("no reference returned: "
                                    ++ Message initResp)))
      else ret (Reference initResp, None)
  end.

Definition CheckTransactionStatus (c : CampayClient) (reference : string)
  : M (string * error) :=
  '(resp, err) <- Resty.Get (client c)
                    (BaseURL (config c) ++ "/transaction/" ++ reference ++ "/") ;;
  let statusResp := unmarshal_StatusResponse (Resty.Result resp) in
  match err with
  | Some err => ret ("", Some (Errorf_w "request failed: " err))
  | None =>
      if (StatusCode resp <? 200) || (300 <=? StatusCode resp) then
        ret ("", Some (errorString ("API error (status "
                                    ++ itoa (StatusCode resp) ++ "): "
                                    ++ RawBody resp)))
      else ret (StatusOf statusResp, None)
  end.

(** * Poller ([main.go], lines 281-316) *)

(** One turn of the [for] loop: either the loop goes on with the new value
    of [attempts], or the function returns. *)
Definition poll_body (c : CampayClient) (ctx : Context) (reference : string)
    (attempts : Z) : M (Z + string * error) :=
  done <- select_default ctx ;;
  if (done : bool) then
    ret (inr ("", Some (Errorf_w "transaction status check cancelled: "
                                 (CtxErr ctx))))
  else
    '(status, err) <- CheckTransactionStatus c reference ;;
    match err with
    | Some err => ret (inr ("", Some (Errorf_w "failed to check status: " err)))
    | None =>
        if String.eqb status "SUCCESSFUL" then
          ret (inr ("✓ Transaction Successful", None))
        else if String.eqb status "FAILED" then
          ret (inr ("✗ Transaction Failed", None))
        else
          let attempts := attempts + 1 in
          Print ("Status: PENDING... (attempt " ++ itoa attempts ++ "/"
                 ++ itoa (MaxPollAttempts (config c)) ++ ")" ++ LF) ;;
          done <- select_after ctx (PollInterval (config c)) ;;
          if (done : bool) then
            ret (inr ("", Some (Errorf_w "transaction timeout: " (CtxErr ctx))))
          else ret (inl attempts)
    end.

(** The loop [for attempts < c.config.MaxPollAttempts { ... }] and the
    return after it; [None] when [fuel] turns do not finish the loop. *)
Fixpoint poll_loop (fuel : nat) (c : CampayClient) (ctx : Context)
    (reference : string) (attempts : Z) : M (option (string * error)) :=
  if attempts <? MaxPollAttempts (config c) then
    match fuel with
    | O => ret None
    | S fuel' =>
        r <- poll_body c ctx reference attempts ;;
        match r with
        | inl attempts' => poll_loop fuel' c ctx reference attempts'
        | inr result => ret (Some result)
        end
    end
  else
    ret (Some ("", Some (errorString
                           ("transaction timeout after "
                            ++ itoa (MaxPollAttempts (config c))
                            ++ " attempts")))).

(** [attempts] starts at 0 and grows by one each turn, so
    [MaxPollAttempts] turns are all the loop can take
    ([PollTransactionStatus_returns] below). *)
Definition PollTransactionStatus (c : CampayClient) (ctx : Context)
    (reference : string) : M (option (string * error)) :=
  poll_loop (Z.to_nat (MaxPollAttempts (config c))) c ctx reference 0.

(** * Orchestrator ([main.go], lines 58-188) *)

Section Orchestrator.

Variable ParseFloat : string -> Z -> float64 * error.
(** [strings.TrimSpace], of Go's standard library, is taken as given. *)
Variable TrimSpace : string -> string.

Definition loadConfig : M (option Config * error) :=
  staterr <- Stat_dotenv ;;
  loaderr <- match staterr with
             | None => godotenv_Load
             | Some _ => ret None
             end ;;
  match loaderr with
  | Some err => ret (None, Some (Errorf_w "failed to load .env: " err))
  | None =>
      apiKey <- Getenv "API_KEY" ;;
      if String.eqb apiKey "" then
        ret (None, Some (errorString
                           "API_KEY environment variable is required"))
      else
        baseURL <- Getenv "BASE_URL" ;;
        let baseURL := if String.eqb baseURL "" then defaultBaseURL
                       else baseURL in
        ret (Some {| BaseURL := baseURL; APIKey := apiKey;
                     PollInterval := pollInterval;
                     MaxPollAttempts := maxPollAttempts |}, None)
  end.

Definition newline : ascii := ascii_of_nat 10.

Definition getUserInput : M (option PaymentRequest * error) :=
  Print "Enter mobile money number: " ;;
  '(momoNumber, err) <- ReadString newline ;;
  match err with
  | Some err =>
      ret (None, Some (Errorf_w "failed to read mobile number: " err))
  | None =>
      let momoNumber := TrimSpace momoNumber in
      Print "Enter amount: " ;;
      '(amount, err) <- ReadString newline ;;
      match err with
      | Some err => ret (None, Some (Errorf_w "failed to read amount: " err))
      | None =>
          let amount := TrimSpace amount in
          Print "Enter description: " ;;
          '(description, err) <- ReadString newline ;;
          match err with
          | Some err =>
              ret (None, Some (Errorf_w "failed to read description: " err))
          | None =>
              let description := TrimSpace description in
              ret (Some {| Amount := amount; From := momoNumber;
                           Description := description |}, None)
          end
      end
  end.

(** [run]; the result is [None] when the poller's loop is cut short by its
    fuel, which never happens ([PollTransactionStatus_returns]). *)
Definition run : M (option error) :=
  '(config, err) <- loadConfig ;;
  match config, err with
  | _, Some err =>
      ret (Some (Some (Errorf_w "failed to load configuration: " err)))
  | None, None => ret (Some None) (* not reached: no config without an error *)
  | Some config, None =>
      let client := NewCampayClient config in
      '(paymentReq, err) <- getUserInput ;;
      match paymentReq, err with
      | _, Some err =>
          ret (Some (Some (Errorf_w "failed to get user input: " err)))
      | None, None => ret (Some None) (* not reached *)
      | Some paymentReq, None =>
          match validatePaymentRequest ParseFloat paymentReq with
          | Some err => ret (Some (Some (Errorf_w "validation error: " err)))
          | None =>
              Println (LF ++ "=== Payment Details ===") ;;
              Print ("Number: " ++ From paymentReq ++ LF
                     ++ "Amount: " ++ Amount paymentReq ++ LF
                     ++ "Description: " ++ Description paymentReq ++ LF) ;;
              Println (LF ++ "Sending payment request to Campay...") ;;
              '(reference, err) <- InitiatePayment client paymentReq ;;
              match err with
              | Some err =>
                  ret (Some (Some (Errorf_w "failed to initiate payment: "
                                            err)))
              | None =>
                  Print (LF ++ "✓ Transaction initialized" ++ LF
                         ++ "Reference: " ++ reference ++ LF) ;;
                  Println "Waiting for MTN Mobile Money confirmation..." ;;
                  ctx <- WithTimeout (MaxPollAttempts config
                                      * PollInterval config) ;;
                  polled <- PollTransactionStatus client ctx reference ;;
                  match polled with
                  | None => ret None
                  | Some (status, Some err) =>
                      ret (Some (Some
                        (Errorf_w "failed to get transaction status: " err)))
                  | Some (status, None) =>
                      Println (LF ++ "=== FINAL TRANSACTION STATUS ===") ;;
                      Println status ;;
                      ret (Some None)
                  end
              end
          end
      end
  end.

(** [main]: the exit status of the process, 1 through [os.Exit(1)] and 0
    when [main] returns. *)
Definition main : M (option Z) :=
  r <- run ;;
  match r with
  | None => ret None
  | Some (Some err) =>
      Eprint ("Error: " ++ Error err ++ LF) ;;
      ret (Some 1)
  | Some None => ret (Some 0)
  end.

End Orchestrator.

(** * Observations on a run *)

(** The number of network calls that [m] makes when run from [w]. *)
Definition calls_during {A} (m : M A) (w : World) : nat :=
  exchanges (trace (snd (m w))) - exchanges (trace w).

(** The effects of [m] run from [w]: what it adds to the trace. *)
Definition events_during {A} (m : M A) (w : World) : list Event :=
  skipn (List.length (trace w)) (trace (snd (m w))).

(** The request of [CheckTransactionStatus], and what the function makes of
    the client's answer to it. *)
Definition status_request (c : CampayClient) (reference : string) : Request :=
  {| Method := "GET";
     URL := BaseURL (config c) ++ "/transaction/" ++ reference ++ "/";
     Header := Resty.headers (client c);
     Body := None |}.

Definition status_of (answer : Err + Response) : string * error :=
  match answer with
  | inl err => ("", Some (Errorf_w "request failed: " err))
  | inr resp =>
      if (StatusCode resp <? 200) || (300 <=? StatusCode resp) then
        ("", Some (errorString ("API error (status "
                                ++ itoa (StatusCode resp) ++ "): "
                                ++ RawBody resp)))
      else (Resty.member "status" (Resty.Result resp), None)
  end.

(** The result of the [n]-th network call of the run when it is a status
    check of [reference]: the gateway as the poller sees it. *)
Definition checkStatus (w : World) (c : CampayClient) (reference : string)
    (n : nat) : string * error :=
  status_of (gateway w n (status_request c reference)).

Definition collect_request (c : CampayClient) (req : PaymentRequest)
  : Request :=
  {| Method := "POST";
     URL := BaseURL (config c) ++ "/collect/";
     Header := Resty.headers (client c);
     Body := Some req |}.

(** The string members of the response body, none when it is not a JSON
    object. *)
Definition body_fields (resp : Response) : list (string * string) :=
  match Fields resp with
  | Some fs => fs
  | None => []
  end.

(** The rule for phone numbers in the words of the design document. *)
Definition phone_rejected (phone : string) : Prop :=
  phone = "" \/
  (String.length (normalize phone) < 9)%nat \/
  (HasPrefix (normalize phone) "237" = false /\
   HasPrefix (normalize phone) "6" = false).

(** ** Stand-ins used to run the program on concrete inputs *)

(** The value of a string of decimal digits. *)
Fixpoint digits_value (acc : Z) (s : string) : option Z :=
  match s with
  | EmptyString => Some acc
  | String c s' =>
      let n := Z.of_N (N_of_ascii c) in
      if (48 <=? n) && (n <=? 57) then digits_value (10 * acc + (n - 48)) s'
      else None
  end.

(** [strconv.ParseFloat] on the unsigned decimal integers, a fragment of
    its syntax; every other string is refused here.  A value beyond the
    range of [float64] is infinity with the error "value out of range". *)
Definition ParseFloat_digits (s : string) (bitSize : Z) : float64 * error :=
  match s with
  | EmptyString =>
      (S754_zero false, Some (errorString "invalid syntax"))
  | _ =>
      match digits_value 0 s with
      | Some n =>
          match binary_normalize 53 1024 n 0 false with
          | S754_infinity _ =>
              (S754_infinity false, Some (errorString "value out of range"))
          | val => (val, None)
          end
      | None => (S754_zero false, Some (errorString "invalid syntax"))
      end
  end.

(** [strings.TrimSpace] on strings whose only white space is a final line
    feed or carriage return and line feed, as [ReadString] leaves them. *)
Fixpoint TrimSpace_eol (s : string) : string :=
  match s with
  | EmptyString => EmptyString
  | String c s' =>
      let n := N_of_ascii c in
      if ((n =? 10) || (n =? 13))%N then
        match TrimSpace_eol s' with
        | EmptyString => EmptyString
        | rest => String c rest
        end
      else String c (TrimSpace_eol s')
  end.

(** A world for examples: an environment with [API_KEY], no [.env] file,
    the given input and gateway, and a deadline that never fires. *)
Definition example_world (input : string)
    (gw : nat -> Request -> Err + Response) : World :=
  {| environ := fun k => if String.eqb k "API_KEY" then Some "key" else None;
     dotenv := None;
     stdin := input;
     gateway := gw;
     timer := fun _ _ => false;
     trace := [] |}.

Definition never : Context :=
  {| Done := fun _ => false; CtxErr := Canceled |}.

Definition json_response (code : Z) (raw : string)
    (fs : list (string * string)) : Response :=
  {| StatusCode := code; RawBody := raw; Fields := Some fs |}.

(** A gateway whose every answer is HTTP 200 with the given status. *)
Definition answering (status : string) : nat -> Request -> Err + Response :=
  fun _ _ => inr (json_response 200 "" [("status", status)]).

(** A gateway whose status checks answer PENDING forever. *)
Definition always_pending : nat -> Request -> Err + Response :=
  answering "PENDING".

(** A gateway that answers PENDING to the first [k] calls and SUCCESSFUL
    from then on. *)
Definition pending_then_successful (k : nat)
  : nat -> Request -> Err + Response :=
  fun n req =>
    if (n <? k)%nat then answering "PENDING" n req
    else answering "SUCCESSFUL" n req.

(** The gateway of the scenario of the design document: HTTP 400 with a
    JSON body holding a message. *)
Definition invalid_credentials : nat -> Request -> Err + Response :=
  fun _ _ =>
    inr (json_response 400 "{message:invalid credentials}"
           [("message", "invalid credentials")]).

Definition example_config (max : Z) : Config :=
  {| BaseURL := defaultBaseURL; APIKey := "key";
     PollInterval := pollInterval; MaxPollAttempts := max |}.


(** Dropping every occurrence of one byte. *)
Fixpoint drop_byte (c : ascii) (s : string) : string :=
  match s with
  | EmptyString => EmptyString
  | String a s' => if Ascii.eqb c a then drop_byte c s'
                   else String a (drop_byte c s')
  end.

(** ** The runs of the poller *)

(** A world with more effects logged. *)
Definition extend (t : list Event) (w : World) : World :=
  {| environ := environ w; dotenv := dotenv w; stdin := stdin w;
     gateway := gateway w; timer := timer w; trace := trace w ++ t |}.

(** The progress line of the poller. *)
Definition progress (c : CampayClient) (attempts : Z) : string :=
  "Status: PENDING... (attempt " ++ itoa attempts ++ "/"
  ++ itoa (MaxPollAttempts (config c)) ++ ")" ++ LF.

(** The four ways the poller returns an error of its own. *)
Definition cancelled (ctx : Context) : string * error :=
  ("", Some (Errorf_w "transaction status check cancelled: " (CtxErr ctx))).

Definition wait_timeout (ctx : Context) : string * error :=
  ("", Some (Errorf_w "transaction timeout: " (CtxErr ctx))).

Definition attempts_timeout (c : CampayClient) : string * error :=
  ("", Some (errorString ("transaction timeout after "
                          ++ itoa (MaxPollAttempts (config c))
                          ++ " attempts"))).

Definition check_failed (err : Err) : string * error :=
  ("", Some (Errorf_w "failed to check status: " err)).

(** The terminal outcome for a status, if it is terminal. *)
Definition terminal (status : string) : option (string * error) :=
  if String.eqb status "SUCCESSFUL" then
    Some ("✓ Transaction Successful", None)
  else if String.eqb status "FAILED" then
    Some ("✗ Transaction Failed", None)
  else None.

(** [poll_run c ctx reference n attempts t result]: from the head of the
    loop with [attempts], when [n] [select]s have been made so far, the
    poller has the effects [t] and returns [result].  One rule per way
    through the loop of [PollTransactionStatus]. *)
Inductive poll_run (c : CampayClient) (ctx : Context) (reference : string)
  : nat -> Z -> list Event -> string * error -> Prop :=
| run_exhausted n attempts :
    MaxPollAttempts (config c) <= attempts ->
    poll_run c ctx reference n attempts [] (attempts_timeout c)
| run_cancelled n attempts :
    attempts < MaxPollAttempts (config c) ->
    Done ctx n = true ->
    poll_run c ctx reference n attempts [SelectDefault true] (cancelled ctx)
| run_check_failed n attempts err :
    attempts < MaxPollAttempts (config c) ->
    Done ctx n = false ->
    poll_run c ctx reference n attempts
      [SelectDefault false; Exchange (status_request c reference)]
      (check_failed err)
| run_terminal n attempts status outcome :
    attempts < MaxPollAttempts (config c) ->
    Done ctx n = false ->
    terminal status = Some outcome ->
    poll_run c ctx reference n attempts
      [SelectDefault false; Exchange (status_request c reference)]
      outcome
| run_wait_done n attempts status :
    attempts < MaxPollAttempts (config c) ->
    Done ctx n = false ->
    terminal status = None ->
    Done ctx (S n) = true ->
    poll_run c ctx reference n attempts
      [SelectDefault false; Exchange (status_request c reference);
       Stdout (progress c (attempts + 1));
       SelectAfter (PollInterval (config c)) true]
      (wait_timeout ctx)
| run_pending n attempts status t result :
    attempts < MaxPollAttempts (config c) ->
    Done ctx n = false ->
    terminal status = None ->
    Done ctx (S n) = false ->
    poll_run c ctx reference (S (S n)) (attempts + 1) t result ->
    poll_run c ctx reference n attempts
      (SelectDefault false :: Exchange (status_request c reference)
       :: Stdout (progress c (attempts + 1))
       :: SelectAfter (PollInterval (config c)) false :: t)
      result.

(** What [InitiatePayment] makes of the client's answer to its request. *)
Definition reference_of (answer : Err + Response) : string * error :=
  match answer with
  | inl err => ("", Some (Errorf_w "request failed: " err))
  | inr resp =>
      let initResp := unmarshal_InitResponse (Resty.Result resp) in
      if (StatusCode resp <? 200) || (300 <=? StatusCode resp) then
        ("", Some (errorString ("API error (status "
                                ++ itoa (StatusCode resp) ++ "): "
                                ++ Message initResp)))
      else if String.eqb (Reference initResp) "" then
        ("", Some (errorString ("no reference returned: "
                                ++ Message initResp)))
      else (Reference initResp, None)
  end.

(** The prompts of [getUserInput]. *)
Definition prompts : list Event :=
  [Stdout "Enter mobile money number: "; Stdout "Enter amount: ";
   Stdout "Enter description: "].

(** A context cancelled from outside, found done from the [n]-th [select]
    on. *)
Definition cancelled_at (n : nat) : Context :=
  {| Done := fun k => (n <=? k)%nat; CtxErr := Canceled |}.

(** ** Further observations on traces *)

(** The waits of the poller: its [select]s against [time.After]. *)
Definition is_wait (e : Event) : bool :=
  match e with SelectAfter _ _ => true | _ => false end.

Definition waits (t : list Event) : nat := count is_wait t.

(** What a run printed on standard output, in order. *)
Fixpoint stdout_lines (t : list Event) : list string :=
  match t with
  | [] => []
  | Stdout s :: t' => s :: stdout_lines t'
  | _ :: t' => stdout_lines t'
  end.

(** The requests a run made, in order. *)
Fixpoint requests (t : list Event) : list Request :=
  match t with
  | [] => []
  | Exchange req :: t' => req :: requests t'
  | _ :: t' => requests t'
  end.

(** What a run printed on standard error, in order. *)
Fixpoint stderr_lines (t : list Event) : list string :=
  match t with
  | [] => []
  | Stderr s :: t' => s :: stderr_lines t'
  | _ :: t' => stderr_lines t'
  end.

(** The number of line feeds in a string. *)
Fixpoint line_feeds (s : string) : nat :=
  match s with
  | EmptyString => 0%nat
  | String c s' =>
      if Ascii.eqb c (ascii_of_nat 10) then S (line_feeds s')
      else line_feeds s'
  end.

(** ** The paths through [run] *)

(** What [run] prints once the request is validated, once the transaction
    is initiated, and at the end. *)
Definition details (req : PaymentRequest) : list Event :=
  [Stdout (LF ++ "=== Payment Details ===" ++ LF);
   Stdout ("Number: " ++ From req ++ LF
           ++ "Amount: " ++ Amount req ++ LF
           ++ "Description: " ++ Description req ++ LF);
   Stdout (LF ++ "Sending payment request to Campay..." ++ LF)].

Definition waiting (reference : string) : list Event :=
  [Stdout (LF ++ "✓ Transaction initialized" ++ LF
           ++ "Reference: " ++ reference ++ LF);
   Stdout ("Waiting for MTN Mobile Money confirmation..." ++ LF)].

Definition final (status : string) : list Event :=
  [Stdout (LF ++ "=== FINAL TRANSACTION STATUS ===" ++ LF);
   Stdout (status ++ LF)].

(** The context [run] polls under: the deadline of the whole budget. *)
Definition poll_context (w : World) (cfg : Config) : Context :=
  {| Done := timer w (MaxPollAttempts cfg * PollInterval cfg);
     CtxErr := DeadlineExceeded |}.

(** [run_path w t err]: started in [w], [run] has the effects [t] and
    returns [err].  One rule per [return] of [run]. *)
Inductive run_path (ParseFloat : string -> Z -> float64 * error)
    (TrimSpace : string -> string) (w : World)
  : list Event -> error -> Prop :=
| path_config_error err :
    fst (loadConfig w) = (None, Some err) ->
    run_path ParseFloat TrimSpace w []
      (Some (Errorf_w "failed to load configuration: " err))
| path_input_error cfg err t :
    fst (loadConfig w) = (Some cfg, None) ->
    fst (getUserInput TrimSpace (snd (loadConfig w))) = (None, Some err) ->
    t = [Stdout "Enter mobile money number: "] \/
    t = [Stdout "Enter mobile money number: "; Stdout "Enter amount: "] \/
    t = prompts ->
    run_path ParseFloat TrimSpace w t
      (Some (Errorf_w "failed to get user input: " err))
| path_validation_error cfg req err :
    fst (loadConfig w) = (Some cfg, None) ->
    fst (getUserInput TrimSpace (snd (loadConfig w))) = (Some req, None) ->
    validatePaymentRequest ParseFloat req = Some err ->
    run_path ParseFloat TrimSpace w prompts
      (Some (Errorf_w "validation error: " err))
| path_initiate_error cfg req reference err :
    fst (loadConfig w) = (Some cfg, None) ->
    fst (getUserInput TrimSpace (snd (loadConfig w))) = (Some req, None) ->
    validatePaymentRequest ParseFloat req = None ->
    reference_of (gateway w (exchanges (trace w))
                    (collect_request (NewCampayClient cfg) req))
    = (reference, Some err) ->
    run_path ParseFloat TrimSpace w
      (prompts ++ details req
       ++ [Exchange (collect_request (NewCampayClient cfg) req)])
      (Some (Errorf_w "failed to initiate payment: " err))
| path_poll_error cfg req reference tp status err :
    fst (loadConfig w) = (Some cfg, None) ->
    fst (getUserInput TrimSpace (snd (loadConfig w))) = (Some req, None) ->
    validatePaymentRequest ParseFloat req = None ->
    reference_of (gateway w (exchanges (trace w))
                    (collect_request (NewCampayClient cfg) req))
    = (reference, None) ->
    poll_run (NewCampayClient cfg) (poll_context w cfg) reference
      (selects (trace w)) 0 tp (status, Some err) ->
    run_path ParseFloat TrimSpace w
      (prompts ++ details req
       ++ [Exchange (collect_request (NewCampayClient cfg) req)]
       ++ waiting reference ++ tp)
      (Some (Errorf_w "failed to get transaction status: " err))
| path_reported cfg req reference tp status :
    fst (loadConfig w) = (Some cfg, None) ->
    fst (getUserInput TrimSpace (snd (loadConfig w))) = (Some req, None) ->
    validatePaymentRequest ParseFloat req = None ->
    reference_of (gateway w (exchanges (trace w))
                    (collect_request (NewCampayClient cfg) req))
    = (reference, None) ->
    poll_run (NewCampayClient cfg) (poll_context w cfg) reference
      (selects (trace w)) 0 tp (status, None) ->
    run_path ParseFloat TrimSpace w
      (prompts ++ details req
       ++ [Exchange (collect_request (NewCampayClient cfg) req)]
       ++ waiting reference ++ tp ++ final status)
      None.

(** The end of [run], from the result of the poller on. *)
Definition report (polled : option (string * error)) : M (option error) :=
  match polled with
  | None => ret None
  | Some (status, Some err) =>
      ret (Some (Some (Errorf_w "failed to get transaction status: " err)))
  | Some (status, None) =>
      Println (LF ++ "=== FINAL TRANSACTION STATUS ===") ;;
      Println status ;;
      ret (Some None)
  end.

(** The gateway of the scenario of the design document: the initiation
    answers with the reference "abc123", the first status check with
    PENDING and the later ones with SUCCESSFUL. *)
Definition scenario_gateway : nat -> Request -> Err + Response :=
  fun n req =>
    match n with
    | O => inr (json_response 200 "" [("reference", "abc123")])
    | _ => pending_then_successful 2 n req
    end.

(** * The first version of the program ([main.go], second file) *)

Module Legacy.

Definition baseURL : string := "https://demo.campay.net/api".

(** A request through [client] with headers set on the request itself
    ([client.R().SetHeader(...)]). *)
Definition Execute (client : Resty.Client) (hdrs : list (string * string))
    (method url : string) (body : option PaymentRequest)
  : M (Response * error) :=
  Resty.Execute
    {| Resty.timeout := Resty.timeout client;
       Resty.retryCount := Resty.retryCount client;
       Resty.retryWaitTime := Resty.retryWaitTime client;
       Resty.headers := Resty.headers client ++ hdrs |}
    method url body.

(** A string member of the unmarshalled object, if it has one. *)
Fixpoint find (key : string) (fs : list (string * string)) : option string :=
  match fs with
  | [] => None
  | (k, v) :: fs' => if String.eqb k key then Some v else find key fs'
  end.

(** Unmarshalling into a struct that already holds a value sets the fields
    the object has and leaves the others as they are. *)
Definition unmarshal_status (fs : list (string * string))
    (statusResp : StatusResponse) : StatusResponse :=
  match find "status" fs with
  | Some v => {| StatusOf := v |}
  | None => statusResp
  end.

(** [time.Sleep]: time is not part of the world, a sleep has no effect that
    the trace records. *)
Definition Sleep (d : Z) : M unit := ret tt.

Definition status_request (apiKey ref : string) : Request :=
  {| Method := "GET";
     URL := baseURL ++ "/transaction/" ++ ref ++ "/";
     Header := [("Authorization", "Token " ++ apiKey)];
     Body := None |}.

(** The loop [for { ... }] of [pollTransactionStatus]; [statusResp] is
    declared outside the loop and lives across its turns.  [None] when
    [fuel] turns do not finish the loop. *)
Fixpoint poll_loop (fuel : nat) (client : Resty.Client) (apiKey ref : string)
    (statusResp : StatusResponse) : M (option (string * error)) :=
  match fuel with
  | O => ret None
  | S fuel' =>
      '(resp, err) <- Execute client [("Authorization", "Token " ++ apiKey)]
                        "GET" (baseURL ++ "/transaction/" ++ ref ++ "/")
                        None ;;
      let statusResp := unmarshal_status (Resty.Result resp) statusResp in
      match err with
      | Some err =>
          ret (Some ("", Some (Errorf_w
                                 "failed to check transaction status: " err)))
      | None =>
          if String.eqb (StatusOf statusResp) "SUCCESSFUL" then
            ret (Some ("Transaction Successful ✓", None))
          else if String.eqb (StatusOf statusResp) "FAILED" then
            ret (Some ("Transaction Failed ✗", None))
          else
            Println "Still pending... waiting 3 seconds..." ;;
            Sleep (3 * Second) ;;
            poll_loop fuel' client apiKey ref statusResp
      end
  end.

Definition pollTransactionStatus (fuel : nat) (client : Resty.Client)
    (apiKey ref : string) : M (option (string * error)) :=
  poll_loop fuel client apiKey ref {| StatusOf := "" |}.

Section Run.

Variable TrimSpace : string -> string.

(** [run]; the errors of [ReadString] are dropped, as in the source. *)
Definition run (fuel : nat) : M (option error) :=
  staterr <- Stat_dotenv ;;
  loaderr <- match staterr with
             | None => godotenv_Load
             | Some _ => ret None
             end ;;
  match loaderr with
  | Some err => ret (Some (Some (Errorf_w "failed to load .env: " err)))
  | None =>
      apiKey <- Getenv "API_KEY" ;;
      if String.eqb apiKey "" then
        ret (Some (Some (errorString "API_KEY is not set in .env")))
      else
        let client := Resty.New in
        Print "Enter mobile money number: " ;;
        '(momoNumber, _) <- ReadString (ascii_of_nat 10) ;;
        let momoNumber := TrimSpace momoNumber in
        Print "Enter amount: " ;;
        '(amount, _) <- ReadString (ascii_of_nat 10) ;;
        let amount := TrimSpace amount in
        Print "Enter description: " ;;
        '(description, _) <- ReadString (ascii_of_nat 10) ;;
        let description := TrimSpace description in
        Println (LF ++ "Sending payment request to Campay...") ;;
        Print ("Number: " ++ momoNumber ++ LF
               ++ "Amount: " ++ amount ++ LF
               ++ "Description: " ++ description ++ LF) ;;
        '(resp, err) <- Execute client
                          [("Authorization", "Token " ++ apiKey);
                           ("Content-Type", "application/json")]
                          "POST" (baseURL ++ "/collect/")
                          (Some {| Amount := amount; From := momoNumber;
                                   Description := description |}) ;;
        let initResp := unmarshal_InitResponse (Resty.Result resp) in
        match err with
        | Some err => ret (Some (Some (Errorf_w "failed to send request: " err)))
        | None =>
            if String.eqb (Reference initResp) "" then
              ret (Some (Some (errorString ("failed to start transaction: "
                                            ++ Message initResp))))
            else
              Println "Transaction initialized. Waiting for MTN Mobile Money confirmation..." ;;
              Println ("Reference: " ++ Reference initResp) ;;
              polled <- pollTransactionStatus fuel client apiKey
                          (Reference initResp) ;;
              match polled with
              | None => ret None
              | Some (_, Some err) => ret (Some (Some err))
              | Some (finalStatus, None) =>
                  Println (LF ++ "=== FINAL TRANSACTION STATUS ===") ;;
                  Println finalStatus ;;
                  ret (Some None)
              end
        end
  end.

(** [main]: the exit status, 1 through [os.Exit(1)]. *)
Definition main (fuel : nat) : M (option Z) :=
  r <- run fuel ;;
  match r with
  | None => ret None
  | Some (Some err) =>
      Println ("error: " ++ Error err) ;;
      ret (Some 1)
  | Some None => ret (Some 0)
  end.

End Run.

End Legacy.

(** A gateway whose every answer is the given HTTP status with a JSON body
    that holds only a message. *)
Definition refusing (code : Z) : nat -> Request -> Err + Response :=
  fun _ _ => inr (json_response code "" [("message", "refused")]).

(** [strconv.ParseFloat] on the special values it recognizes, "NaN" and
    "Inf", and on the unsigned decimal integers; every other string is
    refused here. *)
Definition ParseFloat_special (s : string) (bitSize : Z) : float64 * error :=
  if String.eqb s "NaN" then (S754_nan, None)
  else if String.eqb s "Inf" then (S754_infinity false, None)
  else ParseFloat_digits s bitSize.

(** A gateway that initiates with the reference "abc123" and answers
    PENDING to every status check. *)
Definition never_confirmed : nat -> Request -> Err + Response :=
  fun n req =>
    match n with
    | O => inr (json_response 200 "" [("reference", "abc123")])
    | _ => answering "PENDING" n req
    end.

(** ** Characters and readings *)

(** The number of characters of a UTF-8 string, as
    [utf8.RuneCountInString] counts them on valid UTF-8: the bytes that
    start a sequence, that is the bytes that are not continuation bytes. *)
Fixpoint characters (s : string) : nat :=
  match s with
  | EmptyString => 0%nat
  | String c s' => if continuation c then characters s'
                   else S (characters s')
  end.

(** A description of [n] times the letter e with an acute accent, two bytes
    in UTF-8. *)
Definition accented (n : nat) : string :=
  String.concat "" (List.repeat "é" n).

(** What [ReadString] with a line feed as delimiter returns from an input,
    and what it leaves of it: the bytes up to and including the first line
    feed, or the whole input when it has none. *)
Definition reading (input : string) : string * string :=
  match split_after (ascii_of_nat 10) input with
  | Some (line, rest) => (line, rest)
  | None => (input, EmptyString)
  end.

(** A world like [example_world] whose deadline is found fired from the
    [n]-th [select] of the run on. *)
Definition deadline_world (input : string)
    (gw : nat -> Request -> Err + Response) (n : nat) : World :=
  {| environ := fun k => if String.eqb k "API_KEY" then Some "key" else None;
     dotenv := None;
     stdin := input;
     gateway := gw;
     timer := fun _ k => (n <=? k)%nat;
     trace := [] |}.

(** * Properties of the validator *)

Lemma prefix_byte (c a : ascii) (s : string) :
  String.prefix (String c EmptyString) (String a s) = Ascii.eqb c a.
Proof.
  simpl. destruct (ascii_dec c a) as [->|Hne].
  - rewrite Ascii.eqb_refl. now destruct s.
  - symmetry. now apply Ascii.eqb_neq.
Qed.

Lemma ReplaceAll_byte (c : ascii) (s : string) :
  ReplaceAll s (String c EmptyString) "" = drop_byte c s.
Proof.
  unfold ReplaceAll. cbn [String.eqb].
  induction s as [|a s IH]; [reflexivity|].
  cbn [replace_from drop_byte]. rewrite prefix_byte.
  destruct (Ascii.eqb c a); cbn [String.length Nat.sub append];
    now rewrite IH.
Qed.

Lemma normalize_drop (s : string) :
  drop_byte "+" (drop_byte "-" (drop_byte " " s)) = normalize s.
Proof.
  induction s as [|a s IH]; [reflexivity|].
  cbn [drop_byte normalize]. unfold formatting_char.
  rewrite (Ascii.eqb_sym a " "), (Ascii.eqb_sym a "-"), (Ascii.eqb_sym a "+").
  destruct (Ascii.eqb " " a); cbn [orb]; [exact IH|].
  cbn [drop_byte].
  destruct (Ascii.eqb "-" a); cbn [orb]; [exact IH|].
  cbn [drop_byte].
  destruct (Ascii.eqb "+" a); [exact IH|].
  now rewrite IH.
Qed.

(** What [validatePhoneNumber] computes, on the normalized form. *)
Lemma validatePhoneNumber_normalize (phone : string) :
  validatePhoneNumber phone =
  if String.eqb phone "" then
    Some (errorString "phone number cannot be empty")
  else if len (normalize phone) <? minPhoneLength then
    Some (errorString "phone number too short (minimum 9 digits)")
  else if negb (HasPrefix (normalize phone) "237")
          && negb (HasPrefix (normalize phone) "6") then
    Some (errorString
            "invalid phone number format (should start with 237 or 6)")
  else None.
Proof.
  unfold validatePhoneNumber.
  rewrite !(ReplaceAll_byte _ : forall s, ReplaceAll s " " "" = _).
  rewrite !(ReplaceAll_byte _ : forall s, ReplaceAll s "-" "" = _).
  rewrite !(ReplaceAll_byte _ : forall s, ReplaceAll s "+" "" = _).
  rewrite normalize_drop. reflexivity.
Qed.

(** C3.  [validatePhoneNumber] rejects a phone string if and only if it is
    empty, or its normalized form (spaces, hyphens and plus signs removed)
    is shorter than 9, or its normalized form starts with neither "237" nor
    "6"; every other phone string is accepted. *)
Theorem validatePhoneNumber_rejects_iff (phone : string) :
  (validatePhoneNumber phone <> None <-> phone_rejected phone) /\
  (validatePhoneNumber phone = None <-> ~ phone_rejected phone).
Proof.
  rewrite validatePhoneNumber_normalize. unfold phone_rejected, len, minPhoneLength.
  destruct (String.eqb_spec phone "") as [He|Hne].
  { split; split; intros H; try discriminate; auto.
    exfalso; apply H; auto. }
  destruct (Z.ltb_spec (Z.of_nat (String.length (normalize phone))) 9)
    as [Hlt|Hge].
  { split; split; intros H; try discriminate.
    - right; left; lia.
    - exfalso; apply H; right; left; lia. }
  destruct (HasPrefix (normalize phone) "237") eqn:H237;
    destruct (HasPrefix (normalize phone) "6") eqn:H6; cbn [negb andb];
    split; split; intros H; try discriminate; try congruence; auto;
    try (intros [?|[?|[? ?]]]; try congruence; lia);
    try (exfalso; apply H; auto);
    try (exfalso; destruct H as [?|[?|[? ?]]]; try congruence; lia).
Qed.

(** The rule of [validateDescription] with the length as the code measures
    it, [len], the number of bytes: a description is rejected if and only if
    it is empty or longer than 200 bytes; every description of 1 to 200
    bytes is accepted. *)
Theorem validateDescription_rejects_iff (description : string) :
  (validateDescription description <> None <->
   description = "" \/ (200 < String.length description)%nat) /\
  ((1 <= String.length description <= 200)%nat ->
   validateDescription description = None).
Proof.
  unfold validateDescription, len.
  destruct (String.eqb_spec description "") as [->|Hne].
  { cbn [String.length]. split; [|lia].
    split; intros H; [now left|discriminate]. }
  destruct (Z.ltb_spec 200 (Z.of_nat (String.length description)))
    as [Hlt|Hge].
  - split; [|lia]. split; intros H; [right; lia|discriminate].
  - split; [|reflexivity].
    split; intros H; [congruence|destruct H; [contradiction|lia]].
Qed.

Lemma validateDescription_rejects_iff_witness :
  (1 <= String.length "Payment test" <= 200)%nat /\
  validateDescription "Payment test" = None.
Proof.
  split; [cbn; lia|].
  apply (proj2 (validateDescription_rejects_iff "Payment test")).
  cbn; lia.
Defined.

(** C5.  The limit of [validateDescription] is 200 bytes, not 200
    characters: a description of 101 characters of two bytes each, well
    within 1 to 200 characters, is rejected, and with the message that says
    "maximum 200 characters". *)
Theorem validateDescription_rejects_101_characters :
  characters (accented 101) = 101%nat /\
  String.length (accented 101) = 202%nat /\
  validateDescription (accented 101)
  = Some (errorString "description too long (maximum 200 characters)").
Proof.
  split; [|split].
  - vm_compute. reflexivity.
  - vm_compute. reflexivity.
  - unfold validateDescription, len.
    replace (String.eqb (accented 101) "") with false
      by (vm_compute; reflexivity).
    replace (String.length (accented 101)) with 202%nat
      by (vm_compute; reflexivity).
    reflexivity.
Qed.

Lemma positive_not_le_minAmount (val : float64) :
  float64_lt minAmount val = true -> float64_le val minAmount = false.
Proof.
  unfold float64_lt, float64_le, SFltb, SFleb, minAmount.
  destruct val as [s|s| |s m e]; cbn [SFcompare];
    try destruct s; (discriminate || reflexivity).
Qed.

(** C4.  [validateAmount] rejects an amount string that is empty, that
    [strconv.ParseFloat] fails to parse, or that parses to a value <= 0, and
    only those; every other amount string is accepted, in particular every
    non-empty string that parses to a positive number. *)
Theorem validateAmount_rejects_iff
    (ParseFloat : string -> Z -> float64 * error) (amount : string) :
  (validateAmount ParseFloat amount <> None <->
   amount = "" \/
   snd (ParseFloat amount 64) <> None \/
   float64_le (fst (ParseFloat amount 64)) minAmount = true) /\
  (amount <> "" ->
   snd (ParseFloat amount 64) = None ->
   float64_lt minAmount (fst (ParseFloat amount 64)) = true ->
   validateAmount ParseFloat amount = None).
Proof.
  unfold validateAmount.
  destruct (String.eqb_spec amount "") as [He|Hne].
  { split; [|contradiction]. split; intros _; [now left|discriminate]. }
  destruct (ParseFloat amount 64) as [val [err|]]; cbn [fst snd].
  { split; [|discriminate].
    split; intros _; [right; left|]; discriminate. }
  destruct (float64_le val minAmount) eqn:Hle.
  - split.
    + split; intros _; [now right; right|discriminate].
    + intros _ _ Hpos. apply positive_not_le_minAmount in Hpos. congruence.
  - split; [|reflexivity].
    split; intros H; [congruence|].
    destruct H as [?|[?|?]]; congruence.
Qed.

Lemma validateAmount_rejects_iff_witness :
  "500" <> "" /\
  snd (ParseFloat_digits "500" 64) = None /\
  float64_lt minAmount (fst (ParseFloat_digits "500" 64)) = true /\
  validateAmount ParseFloat_digits "500" = None.
Proof.
  assert (H1 : "500" <> "") by discriminate.
  assert (H2 : snd (ParseFloat_digits "500" 64) = None) by reflexivity.
  assert (H3 : float64_lt minAmount (fst (ParseFloat_digits "500" 64)) = true)
    by (vm_compute; reflexivity).
  split; [exact H1|]. split; [exact H2|]. split; [exact H3|].
  exact (proj2 (validateAmount_rejects_iff ParseFloat_digits "500") H1 H2 H3).
Defined.

(** * Properties of the poller *)

Lemma count_app (p : Event -> bool) (t1 t2 : list Event) :
  count p (t1 ++ t2) = (count p t1 + count p t2)%nat.
Proof. unfold count. now rewrite filter_app, length_app. Qed.

Lemma log_extend (e : Event) (t : list Event) (w : World) :
  log e (extend t w) = extend (t ++ [e]) w.
Proof. unfold log, extend; cbn. now rewrite app_assoc. Qed.

Lemma extend_extend (t1 t2 : list Event) (w : World) :
  extend t2 (extend t1 w) = extend (t1 ++ t2) w.
Proof. unfold extend; cbn. now rewrite app_assoc. Qed.

Lemma extend_nil (w : World) : extend [] w = w.
Proof. destruct w; unfold extend; cbn. now rewrite app_nil_r. Qed.

Lemma exchanges_extend (t : list Event) (w : World) :
  exchanges (trace (extend t w)) = (exchanges (trace w) + exchanges t)%nat.
Proof. unfold exchanges. cbn [trace extend]. apply count_app. Qed.

Lemma selects_extend (t : list Event) (w : World) :
  selects (trace (extend t w)) = (selects (trace w) + selects t)%nat.
Proof. unfold selects. cbn [trace extend]. apply count_app. Qed.

Lemma CheckTransactionStatus_eq (c : CampayClient) (reference : string)
    (w : World) :
  CheckTransactionStatus c reference w =
  (checkStatus w c reference (exchanges (trace w)),
   extend [Exchange (status_request c reference)] w).
Proof.
  unfold CheckTransactionStatus, checkStatus, status_of, bind, Resty.Get,
    Resty.Execute, unmarshal_StatusResponse.
  fold (status_request c reference).
  destruct (gateway w (exchanges (trace w)) (status_request c reference))
    as [err|resp]; [reflexivity|].
  cbn [StatusOf].
  now destruct ((StatusCode resp <? 200) || (300 <=? StatusCode resp)).
Qed.

(** One turn of the loop, case by case. *)
Lemma poll_body_eq (c : CampayClient) (ctx : Context) (reference : string)
    (attempts : Z) (w : World) :
  let sd := SelectDefault false in
  let ex := Exchange (status_request c reference) in
  let pr := Stdout (progress c (attempts + 1)) in
  let sa := SelectAfter (PollInterval (config c)) in
  poll_body c ctx reference attempts w =
  if Done ctx (selects (trace w)) then
    (inr (cancelled ctx), extend [SelectDefault true] w)
  else
    match checkStatus w c reference (exchanges (trace w)) with
    | (_, Some err) => (inr (check_failed err), extend [sd; ex] w)
    | (status, None) =>
        match terminal status with
        | Some outcome => (inr outcome, extend [sd; ex] w)
        | None =>
            if Done ctx (S (selects (trace w))) then
              (inr (wait_timeout ctx), extend [sd; ex; pr; sa true] w)
            else (inl (attempts + 1), extend [sd; ex; pr; sa false] w)
        end
    end.
Proof.
  intros sd ex pr sa.
  unfold poll_body, bind, select_default.
  destruct (Done ctx (selects (trace w))) eqn:Hd; [reflexivity|].
  rewrite CheckTransactionStatus_eq.
  change (log (SelectDefault false) w) with (extend [sd] w).
  rewrite extend_extend.
  assert (He : exchanges (trace (extend [sd] w)) = exchanges (trace w)).
  { unfold exchanges. cbn [trace extend]. rewrite count_app. cbn. lia. }
  rewrite He.
  change (checkStatus (extend [sd] w)) with (checkStatus w).
  destruct (checkStatus w c reference (exchanges (trace w)))
    as [status [err|]]; [reflexivity|].
  unfold terminal.
  destruct (String.eqb status "SUCCESSFUL"); [reflexivity|].
  destruct (String.eqb status "FAILED"); [reflexivity|].
  unfold Print, emit, select_after. rewrite !log_extend.
  assert (Hs : selects (trace (extend (([sd] ++ [ex]) ++ [pr]) w))
               = S (selects (trace w))).
  { unfold selects. cbn [trace extend]. rewrite count_app. cbn. lia. }
  fold (progress c (attempts + 1)). fold pr. fold ex.
  rewrite Hs.
  destruct (Done ctx (S (selects (trace w)))); reflexivity.
Qed.

(** With fuel for the attempts that remain, the loop returns, and the way
    it gets there is a [poll_run]. *)
Lemma poll_loop_run (fuel : nat) :
  forall (c : CampayClient) (ctx : Context) (reference : string)
         (attempts : Z) (w : World),
    (Z.to_nat (MaxPollAttempts (config c) - attempts) <= fuel)%nat ->
    exists t result,
      poll_loop fuel c ctx reference attempts w = (Some result, extend t w) /\
      poll_run c ctx reference (selects (trace w)) attempts t result.
Proof.
  induction fuel as [|fuel IH]; intros c ctx reference attempts w Hfuel.
  - exists [], (attempts_timeout c). cbn [poll_loop].
    destruct (Z.ltb_spec attempts (MaxPollAttempts (config c))) as [Hlt|Hge];
      [lia|].
    rewrite extend_nil. split; [reflexivity|now constructor].
  - cbn [poll_loop].
    destruct (Z.ltb_spec attempts (MaxPollAttempts (config c))) as [Hlt|Hge].
    2:{ exists [], (attempts_timeout c). rewrite extend_nil.
        split; [reflexivity|now constructor]. }
    unfold bind. rewrite poll_body_eq.
    destruct (Done ctx (selects (trace w))) eqn:Hd.
    { eexists _, _. split; [reflexivity|now constructor]. }
    destruct (checkStatus w c reference (exchanges (trace w)))
      as [status [err|]].
    { eexists _, _. split; [reflexivity|now constructor]. }
    destruct (terminal status) as [outcome|] eqn:Hterm.
    { eexists _, _. split; [reflexivity|now apply run_terminal with status]. }
    destruct (Done ctx (S (selects (trace w)))) eqn:Hd'.
    { eexists _, _. split; [reflexivity|now apply run_wait_done with status]. }
    match goal with
    | |- context [poll_loop fuel c ctx reference ?a ?w1] =>
        destruct (IH c ctx reference a w1) as (t & result & Heq & Hrun);
          [lia|]
    end.
    rewrite Heq, extend_extend.
    eexists _, _. split; [reflexivity|].
    apply run_pending with status; try assumption.
    rewrite selects_extend in Hrun.
    replace (S (S (selects (trace w)))) with (selects (trace w) + 2)%nat
      by lia.
    exact Hrun.
Qed.

(** [PollTransactionStatus] always returns: its fuel is never used up. *)
Lemma PollTransactionStatus_run (c : CampayClient) (ctx : Context)
    (reference : string) (w : World) :
  exists t result,
    PollTransactionStatus c ctx reference w = (Some result, extend t w) /\
    poll_run c ctx reference (selects (trace w)) 0 t result.
Proof.
  unfold PollTransactionStatus. apply poll_loop_run.
  rewrite Z.sub_0_r. lia.
Qed.

Lemma PollTransactionStatus_returns (c : CampayClient) (ctx : Context)
    (reference : string) (w : World) :
  exists result w',
    PollTransactionStatus c ctx reference w = (Some result, w').
Proof.
  destruct (PollTransactionStatus_run c ctx reference w) as (t & r & H & _).
  now exists r, (extend t w).
Qed.

Lemma calls_during_extend {A} (m : M A) (w : World) (a : A)
    (t : list Event) :
  m w = (a, extend t w) -> calls_during m w = exchanges t.
Proof.
  intros H. unfold calls_during. rewrite H. cbn [snd extend trace].
  unfold exchanges. rewrite count_app. lia.
Qed.

Lemma events_during_extend {A} (m : M A) (w : World) (a : A)
    (t : list Event) :
  m w = (a, extend t w) -> events_during m w = t.
Proof.
  intros H. unfold events_during. rewrite H. cbn [snd extend trace].
  rewrite skipn_app, skipn_all, Nat.sub_diag. reflexivity.
Qed.

(** A run from [attempts] makes at most [MaxPollAttempts - attempts] status
    checks. *)
Lemma poll_run_calls (c : CampayClient) (ctx : Context) (reference : string)
    (n : nat) (attempts : Z) (t : list Event) (result : string * error) :
  poll_run c ctx reference n attempts t result ->
  Z.of_nat (exchanges t) <= Z.max 0 (MaxPollAttempts (config c) - attempts).
Proof.
  induction 1; unfold exchanges, count in *; cbn [filter is_exchange List.length];
    lia.
Qed.

(** While the context is not done and the gateway answers with statuses
    that are not terminal, each turn of the loop makes one status check and
    goes on to the next turn. *)
Lemma poll_loop_pending (k : nat) :
  forall (fuel : nat) (c : CampayClient) (ctx : Context)
         (reference : string) (attempts : Z) (w : World),
    (forall n, Done ctx n = false) ->
    (forall i, (i < k)%nat ->
       exists status,
         checkStatus w c reference (exchanges (trace w) + i)
         = (status, None) /\ terminal status = None) ->
    attempts + Z.of_nat k <= MaxPollAttempts (config c) ->
    (k <= fuel)%nat ->
    exists t,
      poll_loop fuel c ctx reference attempts w
      = poll_loop (fuel - k) c ctx reference (attempts + Z.of_nat k)
          (extend t w) /\
      exchanges t = k.
Proof.
  induction k as [|k IH]; intros fuel c ctx reference attempts w Hctx Hgw Hmax Hfuel.
  - exists []. rewrite extend_nil, Nat.sub_0_r, Z.add_0_r. now split.
  - destruct fuel as [|fuel]; [lia|].
    cbn [poll_loop Nat.sub].
    destruct (Z.ltb_spec attempts (MaxPollAttempts (config c))) as [Hlt|Hge];
      [|lia].
    unfold bind. rewrite poll_body_eq, !Hctx.
    destruct (Hgw 0%nat) as (status & Hst & Hterm); [lia|].
    rewrite Nat.add_0_r in Hst. rewrite Hst, Hterm.
    match goal with
    | |- context [poll_loop fuel c ctx reference ?a (extend ?t1 w)] =>
        destruct (IH fuel c ctx reference a (extend t1 w)) as (t & Heq & Hn);
          [assumption| |lia|lia|];
          [|exists (t1 ++ t)%list; rewrite Heq, extend_extend; split;
            [f_equal; lia|]]
    end.
    + intros i Hi. rewrite exchanges_extend.
      destruct (Hgw (S i)) as (s & Hs & Ht); [lia|].
      exists s. split; [|assumption].
      change (checkStatus (extend ?t w)) with (checkStatus w).
      rewrite <- Hs. f_equal. unfold exchanges, count. cbn. lia.
    + unfold exchanges in *. rewrite count_app, Hn. reflexivity.
Qed.

(** C1.  The poller makes at most [MaxPollAttempts] status checks, whatever
    the gateway and the context do; and with a gateway that always answers
    PENDING, [MaxPollAttempts = 3] and a context that is never done, it
    makes exactly 3 status checks and then returns the error "transaction
    timeout after 3 attempts". *)
Theorem PollTransactionStatus_calls_bounded :
  (forall (c : CampayClient) (ctx : Context) (reference : string) (w : World),
     0 <= MaxPollAttempts (config c) ->
     Z.of_nat (calls_during (PollTransactionStatus c ctx reference) w)
     <= MaxPollAttempts (config c)) /\
  (forall (c : CampayClient) (ctx : Context) (reference : string) (w : World),
     MaxPollAttempts (config c) = 3 ->
     (forall n, Done ctx n = false) ->
     (forall n, checkStatus w c reference n = ("PENDING", None)) ->
     fst (PollTransactionStatus c ctx reference w)
     = Some ("", Some (errorString "transaction timeout after 3 attempts")) /\
     calls_during (PollTransactionStatus c ctx reference) w = 3%nat).
Proof.
  split.
  - intros c ctx reference w Hmax.
    destruct (PollTransactionStatus_run c ctx reference w)
      as (t & result & Heq & Hrun).
    rewrite (calls_during_extend _ _ _ _ Heq).
    apply poll_run_calls in Hrun. lia.
  - intros c ctx reference w Hmax Hctx Hgw.
    destruct (poll_loop_pending 3 3 c ctx reference 0 w Hctx) as (t & Heq & Hn).
    + intros i _. exists "PENDING". now rewrite Hgw.
    + rewrite Hmax. cbn. lia.
    + lia.
    + assert (Hpoll : PollTransactionStatus c ctx reference w
                      = (Some ("", Some (errorString
                                 "transaction timeout after 3 attempts")),
                         extend t w)).
      { unfold PollTransactionStatus. rewrite Hmax.
        change (Z.to_nat 3) with 3%nat. rewrite Heq.
        cbn [Nat.sub poll_loop]. rewrite Hmax. reflexivity. }
      rewrite (calls_during_extend _ _ _ _ Hpoll), Hpoll. now split.
Qed.

Lemma PollTransactionStatus_calls_bounded_witness :
  let c := NewCampayClient (example_config 3) in
  let w := example_world "" always_pending in
  Z.of_nat (calls_during (PollTransactionStatus c never "abc123") w) <= 3 /\
  fst (PollTransactionStatus c never "abc123" w)
  = Some ("", Some (errorString "transaction timeout after 3 attempts")) /\
  calls_during (PollTransactionStatus c never "abc123") w = 3%nat.
Proof.
  intros c w. split.
  - apply (proj1 PollTransactionStatus_calls_bounded c never "abc123" w).
    cbn. lia.
  - apply (proj2 PollTransactionStatus_calls_bounded c never "abc123" w).
    + reflexivity.
    + intros n. reflexivity.
    + intros n. reflexivity.
Defined.

(** C2.  For every [k] below [MaxPollAttempts], when the first [k] status
    checks answer PENDING and the next one SUCCESSFUL (and the context is
    not done), the poller makes exactly [k + 1] status checks and returns
    the successful outcome; the last thing it does is the check that
    answered SUCCESSFUL. *)
Theorem PollTransactionStatus_pending_then_successful
    (c : CampayClient) (ctx : Context) (reference : string) (w : World)
    (k : nat) :
  Z.of_nat k < MaxPollAttempts (config c) ->
  (forall n, Done ctx n = false) ->
  (forall i, (i < k)%nat ->
     checkStatus w c reference (exchanges (trace w) + i) = ("PENDING", None)) ->
  checkStatus w c reference (exchanges (trace w) + k) = ("SUCCESSFUL", None) ->
  fst (PollTransactionStatus c ctx reference w)
  = Some ("✓ Transaction Successful", None) /\
  calls_during (PollTransactionStatus c ctx reference) w = S k /\
  exists t,
    events_during (PollTransactionStatus c ctx reference) w
    = (t ++ [SelectDefault false; Exchange (status_request c reference)])%list.
Proof.
  intros Hk Hctx Hpending Hsucc.
  destruct (poll_loop_pending k (Z.to_nat (MaxPollAttempts (config c)))
              c ctx reference 0 w Hctx) as (t & Heq & Hn).
  { intros i Hi. exists "PENDING". now rewrite Hpending. }
  { lia. }
  { lia. }
  assert (Hpoll : PollTransactionStatus c ctx reference w
                  = (Some ("✓ Transaction Successful", None),
                     extend (t ++ [SelectDefault false;
                                   Exchange (status_request c reference)])%list
                       w)).
  { unfold PollTransactionStatus. rewrite Heq.
    destruct (Z.to_nat (MaxPollAttempts (config c)) - k)%nat
      as [|fuel] eqn:Hfuel; [lia|].
    cbn [poll_loop].
    destruct (Z.ltb_spec (0 + Z.of_nat k) (MaxPollAttempts (config c)));
      [|lia].
    unfold bind. rewrite poll_body_eq, Hctx, exchanges_extend, Hn.
    change (checkStatus (extend t w)) with (checkStatus w).
    rewrite Hsucc. cbn [terminal String.eqb Ascii.eqb Bool.eqb].
    rewrite extend_extend. reflexivity. }
  rewrite (calls_during_extend _ _ _ _ Hpoll),
          (events_during_extend _ _ _ _ Hpoll), Hpoll.
  split; [reflexivity|]. split.
  - unfold exchanges in *. rewrite count_app, Hn. cbn. lia.
  - now exists t.
Qed.

Lemma PollTransactionStatus_pending_then_successful_witness :
  let c := NewCampayClient (example_config 40) in
  let w := example_world "" (pending_then_successful 2) in
  fst (PollTransactionStatus c never "abc123" w)
  = Some ("✓ Transaction Successful", None) /\
  calls_during (PollTransactionStatus c never "abc123") w = 3%nat.
Proof.
  intros c w.
  destruct (PollTransactionStatus_pending_then_successful
              c never "abc123" w 2) as (Hres & Hcalls & _).
  - cbn. lia.
  - intros n. reflexivity.
  - intros i Hi. destruct i as [|[|i]]; [reflexivity|reflexivity|lia].
  - reflexivity.
  - split; assumption.
Defined.

(** ** Cancellation *)

Lemma nil_eq_app_cons {A} (pre : list A) (e : A) (post : list A) :
  [] = (pre ++ e :: post)%list -> False.
Proof. destruct pre; discriminate. Qed.

Lemma cons_eq_app_cons {A} (x : A) (l pre : list A) (e : A) (post : list A) :
  x :: l = (pre ++ e :: post)%list ->
  (pre = [] /\ x = e /\ l = post) \/
  (exists pre', pre = x :: pre' /\ l = (pre' ++ e :: post)%list).
Proof.
  destruct pre as [|y pre]; cbn [app]; intros H; injection H as -> ->.
  - now left.
  - right. now exists pre.
Qed.

(** Peels the first event off an equation [x :: l = pre ++ e :: post]:
    either [e] is that event, or it lies further on. *)
Ltac peel H :=
  first
    [ apply nil_eq_app_cons in H; contradiction
    | let Hx := fresh "Hx" in
      let Hl := fresh "Hl" in
      apply cons_eq_app_cons in H;
      destruct H as [(-> & Hx & Hl) | (? & -> & H)] ].

(** Every status check comes right after a [select] that found the context
    not done. *)
Lemma poll_run_checked_before_call (c : CampayClient) (ctx : Context)
    (reference : string) (n : nat) (attempts : Z) (t : list Event)
    (result : string * error) :
  poll_run c ctx reference n attempts t result ->
  forall pre req post,
    t = (pre ++ Exchange req :: post)%list ->
    exists pre', pre = (pre' ++ [SelectDefault false])%list.
Proof.
  induction 1 as [| | | | |n attempts status t result Hlt Hd Hterm Hd' Hrun IH];
    intros pre req post Heq.
  - peel Heq.
  - peel Heq; [discriminate Hx|]. peel Heq.
  - peel Heq; [discriminate Hx|]. peel Heq; [now exists []|]. peel Heq.
  - peel Heq; [discriminate Hx|]. peel Heq; [now exists []|]. peel Heq.
  - peel Heq; [discriminate Hx|]. peel Heq; [now exists []|].
    peel Heq; [discriminate Hx|]. peel Heq; [discriminate Hx|]. peel Heq.
  - peel Heq; [discriminate Hx|]. peel Heq; [now exists []|].
    peel Heq; [discriminate Hx|]. peel Heq; [discriminate Hx|].
    destruct (IH _ _ _ Heq) as (pre' & ->).
    now exists (SelectDefault false :: Exchange (status_request c reference)
                :: Stdout (progress c (attempts + 1))
                :: SelectAfter (PollInterval (config c)) false :: pre').
Qed.

(** A [select] made when the context is done is the last effect of the
    run, and the run returns the cancellation error of that [select]. *)
Lemma poll_run_done_last (c : CampayClient) (ctx : Context)
    (reference : string) (n : nat) (attempts : Z) (t : list Event)
    (result : string * error) :
  poll_run c ctx reference n attempts t result ->
  forall pre e post,
    t = (pre ++ e :: post)%list ->
    is_select e = true ->
    Done ctx (n + selects pre) = true ->
    post = [] /\
    result = match e with
             | SelectDefault _ => cancelled ctx
             | _ => wait_timeout ctx
             end.
Proof.
  induction 1 as [| | | |n attempts status Hlt Hd Hterm Hd'
                  |n attempts status t result Hlt Hd Hterm Hd' Hrun IH];
    intros pre e post Heq Hsel Hdone.
  - peel Heq.
  - peel Heq; [now subst|]. peel Heq.
  - peel Heq.
    { rewrite Nat.add_0_r in Hdone. congruence. }
    peel Heq; [now subst|]. peel Heq.
  - peel Heq.
    { rewrite Nat.add_0_r in Hdone. congruence. }
    peel Heq; [now subst|]. peel Heq.
  - peel Heq.
    { rewrite Nat.add_0_r in Hdone. congruence. }
    peel Heq; [now subst|]. peel Heq; [now subst|].
    peel Heq; [now subst|]. peel Heq.
  - peel Heq.
    { rewrite Nat.add_0_r in Hdone. congruence. }
    peel Heq; [now subst|]. peel Heq; [now subst|].
    peel Heq.
    { replace (n + _)%nat with (S n) in Hdone
        by (unfold selects, count; cbn; lia).
      congruence. }
    apply (IH _ _ _ Heq Hsel).
    rewrite <- Hdone. f_equal. unfold selects, count. cbn. lia.
Qed.

(** C6.  The poller checks the context before each status check: every
    status check comes right after a [select] that found it not done.  And
    once a [select] of the poller, at the head of a turn or during the wait,
    is made with the context done, the poller does nothing more: no further
    status check, no further attempt, and it returns the cancellation error
    that wraps [ctx.Err()].  In particular a context done from the start
    gives the error with no status check at all. *)
Theorem PollTransactionStatus_cancellation
    (c : CampayClient) (ctx : Context) (reference : string) (w : World) :
  let poll := PollTransactionStatus c ctx reference in
  (forall pre req post,
     events_during poll w = (pre ++ Exchange req :: post)%list ->
     exists pre', pre = (pre' ++ [SelectDefault false])%list) /\
  (forall pre e post,
     events_during poll w = (pre ++ e :: post)%list ->
     is_select e = true ->
     Done ctx (selects (trace w) + selects pre) = true ->
     post = [] /\
     calls_during poll w = exchanges pre /\
     fst (poll w) = Some match e with
                         | SelectDefault _ => cancelled ctx
                         | _ => wait_timeout ctx
                         end) /\
  (0 < MaxPollAttempts (config c) ->
   Done ctx (selects (trace w)) = true ->
   events_during poll w = [SelectDefault true] /\
   calls_during poll w = 0%nat /\
   fst (poll w) = Some (cancelled ctx)).
Proof.
  intros poll.
  destruct (PollTransactionStatus_run c ctx reference w)
    as (t & result & Heq & Hrun).
  fold poll in Heq.
  rewrite (events_during_extend _ _ _ _ Heq),
          (calls_during_extend _ _ _ _ Heq), Heq.
  cbn [fst].
  split; [|split].
  - exact (poll_run_checked_before_call _ _ _ _ _ _ _ Hrun).
  - intros pre e post Ht Hsel Hdone.
    destruct (poll_run_done_last _ _ _ _ _ _ _ Hrun pre e post Ht Hsel Hdone)
      as (-> & ->).
    split; [reflexivity|]. split; [|reflexivity].
    unfold exchanges. rewrite Ht, count_app.
    destruct e; try discriminate; cbn; lia.
  - intros Hmax Hdone.
    inversion Hrun; subst; try lia; try congruence.
    now repeat split.
Qed.

Lemma PollTransactionStatus_cancellation_witness :
  let c := NewCampayClient (example_config 40) in
  let w := example_world "" always_pending in
  let ctx := cancelled_at 2 in
  let poll := PollTransactionStatus c ctx "abc123" in
  let pre := [SelectDefault false; Exchange (status_request c "abc123");
              Stdout (progress c 1); SelectAfter pollInterval false] in
  events_during poll w = (pre ++ [SelectDefault true])%list /\
  calls_during poll w = 1%nat /\
  fst (poll w) = Some (cancelled ctx).
Proof.
  intros c w ctx poll pre.
  assert (Hev : events_during poll w
                = (pre ++ SelectDefault true :: [])%list)
    by (vm_compute; reflexivity).
  split; [exact Hev|].
  destruct (proj1 (proj2 (PollTransactionStatus_cancellation
                            c ctx "abc123" w))
              pre (SelectDefault true) [] Hev)
    as (_ & Hcalls & Hres).
  - reflexivity.
  - reflexivity.
  - split; [exact Hcalls|exact Hres].
Defined.

(** ** Statuses that are not terminal *)

Lemma terminal_none (status : string) :
  status <> "SUCCESSFUL" -> status <> "FAILED" -> terminal status = None.
Proof.
  intros Hs Hf. unfold terminal.
  destruct (String.eqb_spec status "SUCCESSFUL"); [contradiction|].
  destruct (String.eqb_spec status "FAILED"); [contradiction|].
  reflexivity.
Qed.

(** C10.  A status other than exactly "SUCCESSFUL" or "FAILED" (an
    unrecognized value, the empty string, a lowercase variant) is not
    terminal: in a turn of the loop whose status check returns it, the
    poller adds one to [attempts], prints the PENDING progress line for the
    new count and waits; the turn ends in the next turn of the loop with the
    new count, or in the timeout error of the context when the context is
    done during the wait, never in an error about the status. *)
Theorem poll_unrecognized_status_is_pending
    (c : CampayClient) (ctx : Context) (reference : string)
    (attempts : Z) (w : World) (status : string) (fuel : nat) :
  attempts < MaxPollAttempts (config c) ->
  Done ctx (selects (trace w)) = false ->
  checkStatus w c reference (exchanges (trace w)) = (status, None) ->
  status <> "SUCCESSFUL" ->
  status <> "FAILED" ->
  let done := Done ctx (S (selects (trace w))) in
  let w' :=
    extend [SelectDefault false; Exchange (status_request c reference);
            Stdout ("Status: PENDING... (attempt " ++ itoa (attempts + 1)
                    ++ "/" ++ itoa (MaxPollAttempts (config c)) ++ ")" ++ LF);
            SelectAfter (PollInterval (config c)) done] w in
  poll_body c ctx reference attempts w
  = (if done then inr (wait_timeout ctx) else inl (attempts + 1), w') /\
  poll_loop (S fuel) c ctx reference attempts w
  = if done then (Some (wait_timeout ctx), w')
    else poll_loop fuel c ctx reference (attempts + 1) w'.
Proof.
  intros Hlt Hd Hst Hs Hf done w'.
  assert (Hbody : poll_body c ctx reference attempts w
                  = (if done then inr (wait_timeout ctx)
                     else inl (attempts + 1), w')).
  { rewrite poll_body_eq, Hd, Hst, (terminal_none _ Hs Hf).
    subst w' done. now destruct (Done ctx (S (selects (trace w)))). }
  split; [exact Hbody|].
  cbn [poll_loop].
  destruct (Z.ltb_spec attempts (MaxPollAttempts (config c))); [|lia].
  unfold bind. rewrite Hbody. now destruct done.
Qed.

Lemma poll_unrecognized_status_is_pending_witness :
  let c := NewCampayClient (example_config 40) in
  let w := example_world "" (answering "successful") in
  poll_body c never "abc123" 0 w
  = (inl 1,
     extend [SelectDefault false; Exchange (status_request c "abc123");
             Stdout ("Status: PENDING... (attempt 1/40)" ++ LF);
             SelectAfter pollInterval false] w).
Proof.
  intros c w.
  refine (proj1 (poll_unrecognized_status_is_pending
                   c never "abc123" 0 w "successful" 0 _ _ _ _ _)).
  - cbn. lia.
  - reflexivity.
  - reflexivity.
  - discriminate.
  - discriminate.
Defined.

(** * Properties of the gateway client *)

Lemma InitiatePayment_eq (c : CampayClient) (req : PaymentRequest)
    (w : World) :
  InitiatePayment c req w =
  (reference_of (gateway w (exchanges (trace w)) (collect_request c req)),
   extend [Exchange (collect_request c req)] w).
Proof.
  unfold InitiatePayment, reference_of, bind, Resty.Post, Resty.Execute.
  fold (collect_request c req).
  destruct (gateway w (exchanges (trace w)) (collect_request c req))
    as [err|resp]; [reflexivity|].
  cbv zeta.
  destruct ((StatusCode resp <? 200) || (300 <=? StatusCode resp));
    [reflexivity|].
  now destruct (String.eqb _ "").
Qed.

Lemma Result_outside_2xx (resp : Response) :
  StatusCode resp < 200 \/ 300 <= StatusCode resp ->
  Resty.Result resp = [].
Proof.
  intros H. unfold Resty.Result, Resty.IsSuccess.
  destruct (Z.ltb_spec 199 (StatusCode resp));
    destruct (Z.ltb_spec (StatusCode resp) 300); cbn [andb]; try reflexivity.
  lia.
Qed.

(** C7.  For a response whose status code is outside 200-299,
    [InitiatePayment] returns an error that carries the status code, but
    the message in it is always empty: the client fills [initResp] from the
    body of a 2xx response only, so [initResp.Message] is still the zero
    value when the error is formatted. *)
Theorem InitiatePayment_error_status_without_message
    (c : CampayClient) (req : PaymentRequest) (w : World) (resp : Response) :
  gateway w (exchanges (trace w)) (collect_request c req) = inr resp ->
  StatusCode resp < 200 \/ 300 <= StatusCode resp ->
  fst (InitiatePayment c req w)
  = ("", Some (errorString ("API error (status "
                            ++ itoa (StatusCode resp) ++ "): "))).
Proof.
  intros Hgw Hcode.
  rewrite InitiatePayment_eq, Hgw. cbn [fst reference_of].
  rewrite (Result_outside_2xx _ Hcode).
  destruct (Z.ltb_spec (StatusCode resp) 200);
    destruct (Z.leb_spec 300 (StatusCode resp)); cbn [orb]; try lia;
    reflexivity.
Qed.

Lemma InitiatePayment_error_status_without_message_witness :
  let c := NewCampayClient (example_config 40) in
  let req := {| Amount := "500"; From := "677123456";
                Description := "Payment test" |} in
  fst (InitiatePayment c req (example_world "" invalid_credentials))
  = ("", Some (errorString "API error (status 400): ")).
Proof.
  intros c req.
  apply (InitiatePayment_error_status_without_message c req
           (example_world "" invalid_credentials)
           (json_response 400 "{message:invalid credentials}"
              [("message", "invalid credentials")])).
  - reflexivity.
  - right. cbn. lia.
Defined.

Lemma member_Result (key : string) (resp : Response) :
  Resty.member key (body_fields resp) = "" ->
  Resty.member key (Resty.Result resp) = "".
Proof.
  unfold Resty.Result, body_fields.
  destruct (Resty.IsSuccess resp && negb (StatusCode resp =? 204));
    [|reflexivity].
  now destruct (Fields resp).
Qed.

(** C8.  When the response has a 2xx status code but its body has no
    non-empty reference member, [InitiatePayment] returns the error "no
    reference returned: ..." and no reference; and whenever
    [InitiatePayment] returns a reference without an error, the reference is
    not empty. *)
Theorem InitiatePayment_requires_reference
    (c : CampayClient) (req : PaymentRequest) (w : World) :
  (forall resp,
     gateway w (exchanges (trace w)) (collect_request c req) = inr resp ->
     200 <= StatusCode resp < 300 ->
     Resty.member "reference" (body_fields resp) = "" ->
     exists message,
       fst (InitiatePayment c req w)
       = ("", Some (errorString ("no reference returned: " ++ message)))) /\
  (forall reference,
     fst (InitiatePayment c req w) = (reference, None) ->
     reference <> "").
Proof.
  rewrite InitiatePayment_eq. cbn [fst]. split.
  - intros resp Hgw Hcode Href. rewrite Hgw. cbn [reference_of].
    destruct (Z.ltb_spec (StatusCode resp) 200);
      destruct (Z.leb_spec 300 (StatusCode resp)); cbn [orb]; try lia.
    cbn [unmarshal_InitResponse Reference Message].
    rewrite (member_Result _ _ Href). cbn [String.eqb].
    now eexists.
  - intros reference.
    destruct (gateway w (exchanges (trace w)) (collect_request c req))
      as [err|resp]; cbn [reference_of]; [discriminate|].
    destruct ((StatusCode resp <? 200) || (300 <=? StatusCode resp));
      [discriminate|].
    destruct (String.eqb_spec
                (Reference (unmarshal_InitResponse (Resty.Result resp))) "")
      as [He|Hne]; [discriminate|].
    intros H; injection H as <-. exact Hne.
Qed.

Lemma InitiatePayment_requires_reference_witness :
  let c := NewCampayClient (example_config 40) in
  let req := {| Amount := "500"; From := "677123456";
                Description := "Payment test" |} in
  exists message,
    fst (InitiatePayment c req (example_world "" (answering "PENDING")))
    = ("", Some (errorString ("no reference returned: " ++ message))).
Proof.
  intros c req.
  apply (proj1 (InitiatePayment_requires_reference c req
                  (example_world "" (answering "PENDING")))
           (json_response 200 "" [("status", "PENDING")])).
  - reflexivity.
  - cbn. lia.
  - reflexivity.
Defined.

(** * Properties of the orchestrator *)

Lemma calls_during_trace {A} (m : M A) (w : World) (t : list Event) :
  trace (snd (m w)) = (trace w ++ t)%list ->
  calls_during m w = exchanges t.
Proof.
  intros H. unfold calls_during, exchanges. rewrite H, count_app. lia.
Qed.

Lemma events_during_trace {A} (m : M A) (w : World) (t : list Event) :
  trace (snd (m w)) = (trace w ++ t)%list ->
  events_during m w = t.
Proof.
  intros H. unfold events_during.
  rewrite H, skipn_app, skipn_all, Nat.sub_diag. reflexivity.
Qed.

(** [loadConfig] has no effect that the trace records. *)
Lemma loadConfig_trace (w w1 : World) (r : option Config * error) :
  loadConfig w = (r, w1) -> trace w1 = trace w.
Proof.
  intros H. apply (f_equal snd) in H. cbn [snd] in H. subst w1.
  unfold loadConfig, bind, Stat_dotenv, godotenv_Load, Getenv, ret.
  destruct w as [env [[e|kvs]|] input gw tm tr];
    cbn [dotenv environ with_environ trace snd]; try reflexivity;
    match goal with
    | |- context [String.eqb ?k ""] => now destruct (String.eqb k "")
    end.
Qed.

(** When [getUserInput] returns a request, its effects are the three
    prompts. *)
Lemma getUserInput_trace (TrimSpace : string -> string) (w1 w2 : World)
    (req : PaymentRequest) :
  getUserInput TrimSpace w1 = ((Some req, None), w2) ->
  trace w2 = (trace w1 ++ prompts)%list.
Proof.
  unfold getUserInput, bind, Print, emit, ReadString, ret.
  cbn [stdin log with_stdin].
  destruct (split_after newline (stdin w1)) as [[l1 r1]|];
    cbn [stdin log with_stdin]; [|discriminate].
  destruct (split_after newline r1) as [[l2 r2]|];
    cbn [stdin log with_stdin]; [|discriminate].
  destruct (split_after newline r2) as [[l3 r3]|];
    cbn [stdin log with_stdin]; [|discriminate].
  intros H. apply (f_equal snd) in H. cbn [snd] in H. subst w2.
  cbn [trace log with_stdin].
  rewrite <- !app_assoc. reflexivity.
Qed.

(** C9.  When the request read from the user fails validation, [run]
    returns the validation error, wrapped, having done nothing but print the
    three prompts: no network call is made, so neither [InitiatePayment] nor
    [CheckTransactionStatus] has run; and [main] prints the error on
    standard error and exits with status 1. *)
Theorem run_validation_error_before_network
    (ParseFloat : string -> Z -> float64 * error)
    (TrimSpace : string -> string)
    (w w1 w2 : World) (cfg : Config) (req : PaymentRequest) (err : Err) :
  loadConfig w = ((Some cfg, None), w1) ->
  getUserInput TrimSpace w1 = ((Some req, None), w2) ->
  validatePaymentRequest ParseFloat req = Some err ->
  (fst (run ParseFloat TrimSpace w)
   = Some (Some (Errorf_w "validation error: " err)) /\
   events_during (run ParseFloat TrimSpace) w = prompts /\
   calls_during (run ParseFloat TrimSpace) w = 0%nat) /\
  (fst (main ParseFloat TrimSpace w) = Some 1 /\
   events_during (main ParseFloat TrimSpace) w
   = (prompts ++ [Stderr ("Error: validation error: " ++ Error err ++ LF)])%list /\
   calls_during (main ParseFloat TrimSpace) w = 0%nat).
Proof.
  intros Hcfg Hin Hval.
  assert (Hrun : run ParseFloat TrimSpace w
                 = (Some (Some (Errorf_w "validation error: " err)), w2)).
  { unfold run, bind. rewrite Hcfg, Hin, Hval. reflexivity. }
  assert (Ht : trace w2 = (trace w ++ prompts)%list).
  { rewrite (getUserInput_trace _ _ _ _ Hin), (loadConfig_trace _ _ _ Hcfg).
    reflexivity. }
  split.
  - rewrite Hrun. cbn [fst]. split; [reflexivity|].
    split.
    + apply events_during_trace. now rewrite Hrun.
    + rewrite (calls_during_trace _ _ prompts) by now rewrite Hrun.
      reflexivity.
  - assert (Hmain : main ParseFloat TrimSpace w
                    = (Some 1,
                       log (Stderr ("Error: validation error: "
                                    ++ Error err ++ LF)) w2)).
    { unfold main, bind. rewrite Hrun. reflexivity. }
    assert (Ht' : trace (snd (main ParseFloat TrimSpace w))
                  = (trace w ++ prompts
                     ++ [Stderr ("Error: validation error: "
                                 ++ Error err ++ LF)])%list).
    { rewrite Hmain. cbn [snd log trace]. rewrite Ht, app_assoc.
      reflexivity. }
    rewrite Hmain at 1. cbn [fst]. split; [reflexivity|].
    split.
    + now apply events_during_trace.
    + rewrite (calls_during_trace _ _ _ Ht').
      unfold exchanges. rewrite count_app. reflexivity.
Qed.

Lemma run_validation_error_before_network_witness :
  let w := example_world
             (String.concat LF ["677123456"; "0"; "Payment test"; ""])
             always_pending in
  fst (run ParseFloat_digits TrimSpace_eol w)
  = Some (Some (Errorf_w "validation error: "
                  (errorString "amount must be greater than 0.00"))) /\
  calls_during (run ParseFloat_digits TrimSpace_eol) w = 0%nat /\
  fst (main ParseFloat_digits TrimSpace_eol w) = Some 1 /\
  calls_during (main ParseFloat_digits TrimSpace_eol) w = 0%nat.
Proof.
  intros w.
  destruct (run_validation_error_before_network
              ParseFloat_digits TrimSpace_eol w w
              (snd (getUserInput TrimSpace_eol w))
              {| BaseURL := defaultBaseURL; APIKey := "key";
                 PollInterval := pollInterval;
                 MaxPollAttempts := maxPollAttempts |}
              {| Amount := "0"; From := "677123456";
                 Description := "Payment test" |}
              (errorString "amount must be greater than 0.00"))
    as ((Hrun & _ & Hcalls) & (Hmain & _ & Hcalls')).
  - reflexivity.
  - reflexivity.
  - reflexivity.
  - repeat split; assumption.
Defined.

(** * Further properties of the validator *)

Lemma validatePhoneNumber_accepts (phone : string) :
  validatePhoneNumber phone = None <-> ~ phone_rejected phone.
Proof.
  rewrite validatePhoneNumber_normalize.
  unfold phone_rejected, len, minPhoneLength.
  destruct (String.eqb_spec phone "") as [He|Hne].
  { split; [discriminate|]. intros H. exfalso. apply H. now left. }
  destruct (Z.ltb_spec (Z.of_nat (String.length (normalize phone))) 9)
    as [Hlt|Hge].
  { split; [discriminate|]. intros H. exfalso. apply H. right; left. lia. }
  destruct (HasPrefix (normalize phone) "237") eqn:H237;
    destruct (HasPrefix (normalize phone) "6") eqn:H6; cbn [negb andb].
  4:{ split; [discriminate|]. intros H. exfalso. apply H. auto. }
  all: split; [intros _|reflexivity];
    intros [?|[?|[? ?]]]; try contradiction; try lia; congruence.
Qed.

Lemma validateDescription_accepts (description : string) :
  validateDescription description = None <->
  (1 <= String.length description <= 200)%nat.
Proof.
  unfold validateDescription, len.
  destruct (String.eqb_spec description "") as [->|Hne].
  { cbn [String.length]. split; [discriminate|lia]. }
  assert (String.length description <> 0)%nat
    by (destruct description; [contradiction|discriminate]).
  destruct (Z.ltb_spec 200 (Z.of_nat (String.length description)));
    split; try discriminate; try reflexivity; lia.
Qed.

Lemma validateAmount_accepts
    (ParseFloat : string -> Z -> float64 * error) (amount : string) :
  validateAmount ParseFloat amount = None <->
  amount <> "" /\
  snd (ParseFloat amount 64) = None /\
  float64_le (fst (ParseFloat amount 64)) minAmount = false.
Proof.
  unfold validateAmount.
  destruct (String.eqb_spec amount "") as [He|Hne].
  { split; [discriminate|]. now intros [? _]. }
  destruct (ParseFloat amount 64) as [val [err|]]; cbn [fst snd].
  { split; [discriminate|]. now intros (_ & ? & _). }
  destruct (float64_le val minAmount).
  - split; [discriminate|]. now intros (_ & _ & ?).
  - split; [now intros _|reflexivity].
Qed.

(** X1.  [validatePaymentRequest] accepts a request exactly when the phone
    number passes the phone rule, the amount is non-empty, parses and is not
    <= 0, and the description has 1 to 200 bytes.  The checks run in the
    order phone, amount, description and the first failure is the error
    returned: a bad phone number hides a bad amount, and a bad amount hides
    a bad description. *)
Theorem validatePaymentRequest_accepts_iff
    (ParseFloat : string -> Z -> float64 * error) (req : PaymentRequest) :
  (validatePaymentRequest ParseFloat req = None <->
   ~ phone_rejected (From req) /\
   (Amount req <> "" /\
    snd (ParseFloat (Amount req) 64) = None /\
    float64_le (fst (ParseFloat (Amount req) 64)) minAmount = false) /\
   (1 <= String.length (Description req) <= 200)%nat) /\
  (forall err,
     validatePhoneNumber (From req) = Some err ->
     validatePaymentRequest ParseFloat req = Some err) /\
  (forall err,
     validatePhoneNumber (From req) = None ->
     validateAmount ParseFloat (Amount req) = Some err ->
     validatePaymentRequest ParseFloat req = Some err) /\
  (forall err,
     validatePhoneNumber (From req) = None ->
     validateAmount ParseFloat (Amount req) = None ->
     validateDescription (Description req) = Some err ->
     validatePaymentRequest ParseFloat req = Some err).
Proof.
  rewrite <- validatePhoneNumber_accepts, <- validateAmount_accepts,
          <- validateDescription_accepts.
  unfold validatePaymentRequest.
  destruct (validatePhoneNumber (From req)) as [e1|];
    [|destruct (validateAmount ParseFloat (Amount req)) as [e2|];
      [|destruct (validateDescription (Description req)) as [e3|]]].
  all: repeat split; try discriminate; try congruence; try tauto.
  all: try (intros (? & ? & ?); discriminate).
Qed.

Lemma validatePaymentRequest_accepts_iff_witness :
  let req := {| Amount := "abc"; From := "12345"; Description := "" |} in
  validatePhoneNumber (From req)
  = Some (errorString "phone number too short (minimum 9 digits)") /\
  validatePaymentRequest ParseFloat_digits req
  = Some (errorString "phone number too short (minimum 9 digits)").
Proof.
  intros req.
  assert (H : validatePhoneNumber (From req)
              = Some (errorString "phone number too short (minimum 9 digits)"))
    by reflexivity.
  split; [exact H|].
  exact (proj1 (proj2 (validatePaymentRequest_accepts_iff
                         ParseFloat_digits req)) _ H).
Defined.

(** X2.  The verdict on a phone number does not depend on its formatting:
    two non-empty phone strings that differ only in spaces, hyphens and plus
    signs get the same result, error message included. *)
Theorem validatePhoneNumber_formatting_insensitive (p q : string) :
  p <> "" -> q <> "" -> normalize p = normalize q ->
  validatePhoneNumber p = validatePhoneNumber q.
Proof.
  intros Hp Hq Hn. rewrite !validatePhoneNumber_normalize, Hn.
  destruct (String.eqb_spec p ""); [contradiction|].
  destruct (String.eqb_spec q ""); [contradiction|].
  reflexivity.
Qed.

Lemma validatePhoneNumber_formatting_insensitive_witness :
  validatePhoneNumber "+237 677-123-456" = validatePhoneNumber "237677123456".
Proof.
  apply validatePhoneNumber_formatting_insensitive.
  - discriminate.
  - discriminate.
  - reflexivity.
Defined.

(** X3.  Beyond the prefix and the length, [validatePhoneNumber] looks at
    nothing: "6" followed by any 8 or more bytes that are not formatting
    characters is accepted, digits or not. *)
Theorem validatePhoneNumber_checks_prefix_only (rest : string) :
  normalize rest = rest -> (8 <= String.length rest)%nat ->
  validatePhoneNumber (String "6" rest) = None.
Proof.
  intros Hn Hlen. apply validatePhoneNumber_accepts.
  unfold phone_rejected. cbn [normalize formatting_char Ascii.eqb Bool.eqb orb].
  rewrite Hn. intros [H|[H|[_ H]]].
  - discriminate.
  - cbn [String.length] in H. lia.
  - unfold HasPrefix in H. cbn in H. destruct rest; discriminate.
Qed.

Lemma validatePhoneNumber_checks_prefix_only_witness :
  validatePhoneNumber "6abcdefgh" = None.
Proof.
  apply (validatePhoneNumber_checks_prefix_only "abcdefgh").
  - reflexivity.
  - cbn. lia.
Defined.

(** * Further properties of the poller *)

Lemma poll_run_effects (c : CampayClient) (ctx : Context)
    (reference : string) (n : nat) (attempts : Z) (t : list Event)
    (result : string * error) :
  poll_run c ctx reference n attempts t result ->
  Z.of_nat (List.length t)
  <= 4 * Z.max 0 (MaxPollAttempts (config c) - attempts) /\
  Z.of_nat (waits t) <= Z.max 0 (MaxPollAttempts (config c) - attempts) /\
  (forall d done, In (SelectAfter d done) t -> d = PollInterval (config c)) /\
  requests t = repeat (status_request c reference) (exchanges t) /\
  stdout_lines t
  = map (fun i => progress c (attempts + Z.of_nat i)) (seq 1 (waits t)).
Proof.
  induction 1 as [| | | | |n attempts status t result Hlt Hd Hterm Hd' Hrun IH];
    unfold waits, exchanges, count in *;
    cbn [List.length filter is_wait is_exchange requests stdout_lines
         repeat seq map In].
  1-5: repeat split; try lia; try reflexivity;
    intros d done Hin; repeat destruct Hin as [Hin|Hin];
    try discriminate; try contradiction; now injection Hin as <- _.
  destruct IH as (Hlen & Hw & Hd'' & Hreq & Hout).
  repeat split; try lia.
  - intros d done [Hin|[Hin|[Hin|[Hin|Hin]]]]; try discriminate.
    + now injection Hin as <- _.
    + now apply Hd'' with done.
  - now rewrite Hreq.
  - rewrite Hout, <- (seq_shift _ 1), map_map.
    f_equal.
    apply map_ext. intros i. f_equal. lia.
Qed.

(** X4.  [PollTransactionStatus] returns, whatever the gateway and the
    context do: it has at most [4 * MaxPollAttempts] effects, among them at
    most [MaxPollAttempts] waits, each of them of [PollInterval]; apart from
    the trace it leaves the world as it was. *)
Theorem PollTransactionStatus_terminates
    (c : CampayClient) (ctx : Context) (reference : string) (w : World) :
  exists result t,
    PollTransactionStatus c ctx reference w = (Some result, extend t w) /\
    Z.of_nat (List.length t) <= 4 * Z.max 0 (MaxPollAttempts (config c)) /\
    Z.of_nat (waits t) <= Z.max 0 (MaxPollAttempts (config c)) /\
    (forall d done, In (SelectAfter d done) t -> d = PollInterval (config c)).
Proof.
  destruct (PollTransactionStatus_run c ctx reference w)
    as (t & result & Heq & Hrun).
  exists result, t. split; [exact Heq|].
  destruct (poll_run_effects _ _ _ _ _ _ _ Hrun) as (Hlen & Hw & Hd & _).
  rewrite Z.sub_0_r in Hlen, Hw. now repeat split.
Qed.

(** X5.  The progress lines of a run of the poller count the attempts from
    1 upwards without a gap, one line for each wait, and nothing else is
    printed. *)
Theorem PollTransactionStatus_progress_lines
    (c : CampayClient) (ctx : Context) (reference : string) (w : World) :
  let t := events_during (PollTransactionStatus c ctx reference) w in
  stdout_lines t = map (fun i => progress c (Z.of_nat i)) (seq 1 (waits t)) /\
  stderr_lines t = [].
Proof.
  destruct (PollTransactionStatus_run c ctx reference w)
    as (t & result & Heq & Hrun).
  rewrite (events_during_extend _ _ _ _ Heq). cbv zeta.
  split.
  - now destruct (poll_run_effects _ _ _ _ _ _ _ Hrun) as (_ & _ & _ & _ & ->).
  - clear Heq. induction Hrun; cbn [stderr_lines]; auto.
Qed.

(** X6.  Every request the poller makes is the same one: a GET of
    [BaseURL/transaction/<reference>/] without a body; with a client made
    by [NewCampayClient] it carries the [Authorization: Token <APIKey>] and
    [Content-Type: application/json] headers. *)
Theorem PollTransactionStatus_requests
    (cfg : Config) (ctx : Context) (reference : string) (w : World)
    (req : Request) :
  In req (requests (events_during
                      (PollTransactionStatus (NewCampayClient cfg) ctx
                         reference) w)) ->
  req = {| Method := "GET";
           URL := BaseURL cfg ++ "/transaction/" ++ reference ++ "/";
           Header := [("Authorization", "Token " ++ APIKey cfg);
                      ("Content-Type", "application/json")];
           Body := None |}.
Proof.
  destruct (PollTransactionStatus_run (NewCampayClient cfg) ctx reference w)
    as (t & result & Heq & Hrun).
  rewrite (events_during_extend _ _ _ _ Heq).
  destruct (poll_run_effects _ _ _ _ _ _ _ Hrun) as (_ & _ & _ & -> & _).
  intros Hin. apply repeat_spec in Hin. subst req. reflexivity.
Qed.

Lemma PollTransactionStatus_requests_witness :
  let cfg := example_config 3 in
  let w := example_world "" always_pending in
  let req := status_request (NewCampayClient cfg) "abc123" in
  In req (requests (events_during
                      (PollTransactionStatus (NewCampayClient cfg) never
                         "abc123") w)) /\
  req = {| Method := "GET";
           URL := BaseURL cfg ++ "/transaction/" ++ "abc123" ++ "/";
           Header := [("Authorization", "Token " ++ APIKey cfg);
                      ("Content-Type", "application/json")];
           Body := None |}.
Proof.
  intros cfg w req.
  assert (Hin : In req (requests (events_during
                                    (PollTransactionStatus
                                       (NewCampayClient cfg) never "abc123")
                                    w)))
    by (left; reflexivity).
  split; [exact Hin|].
  exact (PollTransactionStatus_requests cfg never "abc123" w req Hin).
Defined.

Lemma terminal_outcome (status : string) (outcome : string * error) :
  terminal status = Some outcome ->
  (status = "SUCCESSFUL" /\ outcome = ("✓ Transaction Successful", None)) \/
  (status = "FAILED" /\ outcome = ("✗ Transaction Failed", None)).
Proof.
  unfold terminal.
  destruct (String.eqb_spec status "SUCCESSFUL") as [->|_].
  { intros H; injection H as <-. now left. }
  destruct (String.eqb_spec status "FAILED") as [->|_]; [|discriminate].
  intros H; injection H as <-. now right.
Qed.

Lemma poll_run_result (c : CampayClient) (ctx : Context)
    (reference : string) (n : nat) (attempts : Z) (t : list Event)
    (result : string * error) :
  poll_run c ctx reference n attempts t result ->
  result = ("✓ Transaction Successful", None) \/
  result = ("✗ Transaction Failed", None) \/
  result = cancelled ctx \/
  result = wait_timeout ctx \/
  result = attempts_timeout c \/
  exists err, result = check_failed err.
Proof.
  induction 1; auto 10.
  - right; right; right; right; right. now eexists.
  - match goal with
    | H : terminal _ = Some _ |- _ =>
        destruct (terminal_outcome _ _ H) as [[_ ->]|[_ ->]]; auto
    end.
Qed.

(** X7.  What [PollTransactionStatus] returns is one of six things: one of
    the two outcome strings with a nil error, or an empty string with one of
    four errors (cancelled before a check, context done during a wait,
    attempts used up, status check failed).  So the string is empty exactly
    when there is an error. *)
Theorem PollTransactionStatus_results
    (c : CampayClient) (ctx : Context) (reference : string) (w : World) :
  exists result,
    fst (PollTransactionStatus c ctx reference w) = Some result /\
    (result = ("✓ Transaction Successful", None) \/
     result = ("✗ Transaction Failed", None) \/
     result = ("", Some (Errorf_w "transaction status check cancelled: "
                                  (CtxErr ctx))) \/
     result = ("", Some (Errorf_w "transaction timeout: " (CtxErr ctx))) \/
     result = ("", Some (errorString
                           ("transaction timeout after "
                            ++ itoa (MaxPollAttempts (config c))
                            ++ " attempts"))) \/
     exists err,
       result = ("", Some (Errorf_w "failed to check status: " err))) /\
    (fst result = "" <-> snd result <> None).
Proof.
  destruct (PollTransactionStatus_run c ctx reference w)
    as (t & result & Heq & Hrun).
  exists result. rewrite Heq. split; [reflexivity|].
  pose proof (poll_run_result _ _ _ _ _ _ _ Hrun) as Hres.
  split; [exact Hres|].
  destruct Hres as [->|[->|[->|[->|[->|[err ->]]]]]]; cbn [fst snd];
    split; intros H; try discriminate; try reflexivity;
    try (exfalso; now apply H).
Qed.

(** X8.  The poller stops at the first status check that is not pending:
    after [k] checks with statuses that are not terminal, a check that
    answers FAILED makes it return the failed outcome with a nil error, and
    a check that fails (transport error or response outside 200-299) makes
    it return that error wrapped, without a retry; either way it has made
    exactly [k + 1] checks. *)
Theorem PollTransactionStatus_stops_at_failed_or_error
    (c : CampayClient) (ctx : Context) (reference : string) (w : World)
    (k : nat) :
  Z.of_nat k < MaxPollAttempts (config c) ->
  (forall n, Done ctx n = false) ->
  (forall i, (i < k)%nat ->
     exists status,
       checkStatus w c reference (exchanges (trace w) + i) = (status, None) /\
       status <> "SUCCESSFUL" /\ status <> "FAILED") ->
  (checkStatus w c reference (exchanges (trace w) + k) = ("FAILED", None) ->
   fst (PollTransactionStatus c ctx reference w)
   = Some ("✗ Transaction Failed", None) /\
   calls_during (PollTransactionStatus c ctx reference) w = S k) /\
  (forall status err,
     checkStatus w c reference (exchanges (trace w) + k)
     = (status, Some err) ->
     fst (PollTransactionStatus c ctx reference w)
     = Some ("", Some (Errorf_w "failed to check status: " err)) /\
     calls_during (PollTransactionStatus c ctx reference) w = S k).
Proof.
  intros Hk Hctx Hpending.
  destruct (poll_loop_pending k (Z.to_nat (MaxPollAttempts (config c)))
              c ctx reference 0 w Hctx) as (t & Heq & Hn).
  { intros i Hi. destruct (Hpending i Hi) as (s & Hs & H1 & H2).
    exists s. split; [exact Hs|now apply terminal_none]. }
  { lia. }
  { lia. }
  assert (Hlast : forall r,
             (let (status, err) :=
                checkStatus w c reference (exchanges (trace w) + k) in
              match err with
              | Some e => Some (check_failed e)
              | None => terminal status
              end) = Some r ->
             PollTransactionStatus c ctx reference w
             = (Some r,
                extend (t ++ [SelectDefault false;
                              Exchange (status_request c reference)])%list
                  w)).
  { intros r Hr. unfold PollTransactionStatus. rewrite Heq.
    destruct (Z.to_nat (MaxPollAttempts (config c)) - k)%nat
      as [|fuel] eqn:Hfuel; [lia|].
    cbn [poll_loop].
    destruct (Z.ltb_spec (0 + Z.of_nat k) (MaxPollAttempts (config c)));
      [|lia].
    unfold bind. rewrite poll_body_eq, Hctx, exchanges_extend, Hn.
    change (checkStatus (extend t w)) with (checkStatus w).
    destruct (checkStatus w c reference (exchanges (trace w) + k))
      as [status [e|]].
    - injection Hr as <-. now rewrite extend_extend.
    - rewrite Hr, extend_extend. reflexivity. }
  assert (Hcalls : exchanges (t ++ [SelectDefault false;
                                   Exchange (status_request c reference)])
                   = S k).
  { unfold exchanges in *. rewrite count_app, Hn. cbn. lia. }
  split.
  - intros Hst. rewrite Hst in Hlast.
    specialize (Hlast _ eq_refl).
    now rewrite (calls_during_extend _ _ _ _ Hlast), Hlast.
  - intros status err Hst. rewrite Hst in Hlast.
    specialize (Hlast _ eq_refl).
    now rewrite (calls_during_extend _ _ _ _ Hlast), Hlast.
Qed.

Lemma PollTransactionStatus_stops_at_failed_or_error_witness :
  let c := NewCampayClient (example_config 40) in
  let w := example_world ""
             (fun n req => if (n <? 2)%nat then answering "PENDING" n req
                           else answering "FAILED" n req) in
  fst (PollTransactionStatus c never "abc123" w)
  = Some ("✗ Transaction Failed", None) /\
  calls_during (PollTransactionStatus c never "abc123") w = 3%nat.
Proof.
  intros c w.
  refine (proj1 (PollTransactionStatus_stops_at_failed_or_error
                   c never "abc123" w 2 _ _ _) _).
  - cbn. lia.
  - intros n. reflexivity.
  - intros i Hi. exists "PENDING".
    destruct i as [|[|i]]; [| |lia]; (split; [reflexivity|split; discriminate]).
  - reflexivity.
Defined.

Lemma poll_run_exhausted (c : CampayClient) (ctx : Context)
    (reference : string) (n : nat) (attempts : Z) (t : list Event)
    (result : string * error) :
  poll_run c ctx reference n attempts t result ->
  result = attempts_timeout c ->
  exchanges t = Z.to_nat (MaxPollAttempts (config c) - attempts) /\
  waits t = exchanges t /\
  (forall d, ~ In (SelectAfter d true) t) /\
  (t = [] \/
   exists t', t = (t' ++ [SelectAfter (PollInterval (config c)) false])%list).
Proof.
  induction 1 as [n attempts Hge| | |n attempts status outcome Hlt Hd Hterm|
                  |n attempts status t result Hlt Hd Hterm Hd' Hrun IH];
    intros Hres; try discriminate Hres.
  - unfold exchanges, waits, count. cbn.
    repeat split; try lia; auto.
  - destruct (terminal_outcome _ _ Hterm) as [[_ ->]|[_ ->]];
      discriminate Hres.
  - destruct (IH Hres) as (Hex & Hw & Hno & Hlast).
    unfold exchanges, waits, count in *.
    cbn [filter is_exchange is_wait List.length].
    repeat split; try lia.
    + intros d [H|[H|[H|[H|H]]]]; try discriminate. now apply (Hno d).
    + right. destruct Hlast as [->|(t' & ->)].
      * now exists [SelectDefault false; Exchange (status_request c reference);
                    Stdout (progress c (attempts + 1))].
      * now exists (SelectDefault false :: Exchange (status_request c reference)
                    :: Stdout (progress c (attempts + 1))
                    :: SelectAfter (PollInterval (config c)) false :: t').
Qed.

(** X9.  The error "transaction timeout after N attempts" is returned only
    after exactly [MaxPollAttempts] status checks, each followed by a wait
    that ran its full [PollInterval]: the poller also waits after the last
    check, and that wait is the last thing it does before it gives up. *)
Theorem PollTransactionStatus_attempts_timeout
    (c : CampayClient) (ctx : Context) (reference : string) (w : World) :
  0 < MaxPollAttempts (config c) ->
  fst (PollTransactionStatus c ctx reference w)
  = Some ("", Some (errorString
                      ("transaction timeout after "
                       ++ itoa (MaxPollAttempts (config c)) ++ " attempts"))) ->
  let t := events_during (PollTransactionStatus c ctx reference) w in
  Z.of_nat (calls_during (PollTransactionStatus c ctx reference) w)
  = MaxPollAttempts (config c) /\
  Z.of_nat (waits t) = MaxPollAttempts (config c) /\
  (forall d, ~ In (SelectAfter d true) t) /\
  exists t', t = (t' ++ [SelectAfter (PollInterval (config c)) false])%list.
Proof.
  intros Hmax Hres.
  destruct (PollTransactionStatus_run c ctx reference w)
    as (t & result & Heq & Hrun).
  rewrite Heq in Hres. cbn [fst] in Hres. injection Hres as Hres.
  rewrite (events_during_extend _ _ _ _ Heq),
          (calls_during_extend _ _ _ _ Heq). cbv zeta.
  destruct (poll_run_exhausted _ _ _ _ _ _ _ Hrun Hres)
    as (Hex & Hw & Hno & Hlast).
  rewrite Z.sub_0_r in Hex.
  repeat split; try lia; try exact Hno.
  destruct Hlast as [->|Hlast]; [|exact Hlast].
  unfold exchanges, count in Hex. cbn in Hex. lia.
Qed.

Lemma PollTransactionStatus_attempts_timeout_witness :
  let c := NewCampayClient (example_config 3) in
  let w := example_world "" always_pending in
  let t := events_during (PollTransactionStatus c never "abc123") w in
  Z.of_nat (calls_during (PollTransactionStatus c never "abc123") w) = 3 /\
  Z.of_nat (waits t) = 3 /\
  exists t', t = (t' ++ [SelectAfter pollInterval false])%list.
Proof.
  intros c w t.
  destruct (PollTransactionStatus_attempts_timeout c never "abc123" w)
    as (Hcalls & Hwaits & _ & Hlast).
  - cbn. lia.
  - reflexivity.
  - split; [exact Hcalls|]. split; [exact Hwaits|exact Hlast].
Defined.

(** * Further properties of the gateway client *)

(** X10.  [InitiatePayment] returns a reference without an error exactly
    when the client answers with a response whose status code is in 200-299
    and whose unmarshalled result has a non-empty reference, which is the
    one returned.  In every other case the reference returned is empty: the
    reference is non-empty exactly when the error is nil. *)
Theorem InitiatePayment_succeeds_iff
    (c : CampayClient) (req : PaymentRequest) (w : World) :
  (forall reference,
     fst (InitiatePayment c req w) = (reference, None) <->
     exists resp,
       gateway w (exchanges (trace w)) (collect_request c req) = inr resp /\
       200 <= StatusCode resp < 300 /\
       Resty.member "reference" (Resty.Result resp) = reference /\
       reference <> "") /\
  (fst (fst (InitiatePayment c req w)) <> "" <->
   snd (fst (InitiatePayment c req w)) = None).
Proof.
  rewrite InitiatePayment_eq. cbn [fst].
  destruct (gateway w (exchanges (trace w)) (collect_request c req))
    as [err|resp]; cbn [reference_of].
  { split.
    - intros reference. split; [discriminate|].
      intros (resp & H & _). discriminate.
    - cbn [fst snd]. split; [intros H; now contradiction H|discriminate]. }
  cbn [unmarshal_InitResponse Reference Message].
  destruct (Z.ltb_spec (StatusCode resp) 200);
    destruct (Z.leb_spec 300 (StatusCode resp)); cbn [orb]; try lia.
  1-2: split;
    [intros reference; split; [discriminate|];
     intros (resp' & H' & Hc & _); injection H' as <-; lia
    |cbn [fst snd]; split; [intros H'; now contradiction H'|discriminate]].
  destruct (String.eqb_spec (Resty.member "reference" (Resty.Result resp)) "")
    as [He|Hne].
  - split.
    + intros reference. split; [discriminate|].
      intros (resp' & H' & _ & Hr & Hn). injection H' as <-. congruence.
    + cbn [fst snd]. split; [intros H'; now contradiction H'|discriminate].
  - split.
    + intros reference. split.
      * intros H'; injection H' as <-. exists resp. repeat split; auto; lia.
      * intros (resp' & H' & _ & Hr & _). injection H' as <-. now rewrite Hr.
    + cbn [fst snd]. split; [reflexivity|intros _; exact Hne].
Qed.

(** X11.  [InitiatePayment] makes exactly one request whatever the answer
    (the function itself never sends the payment twice): with a client made
    by [NewCampayClient], a POST of the payment request to
    [BaseURL/collect/] with the [Authorization: Token <APIKey>] and
    [Content-Type: application/json] headers. *)
Theorem InitiatePayment_one_request
    (cfg : Config) (req : PaymentRequest) (w : World) :
  events_during (InitiatePayment (NewCampayClient cfg) req) w
  = [Exchange {| Method := "POST";
                 URL := BaseURL cfg ++ "/collect/";
                 Header := [("Authorization", "Token " ++ APIKey cfg);
                            ("Content-Type", "application/json")];
                 Body := Some req |}] /\
  calls_during (InitiatePayment (NewCampayClient cfg) req) w = 1%nat.
Proof.
  pose proof (InitiatePayment_eq (NewCampayClient cfg) req w) as Heq.
  rewrite (events_during_extend _ _ _ _ Heq),
          (calls_during_extend _ _ _ _ Heq).
  split; reflexivity.
Qed.

(** X12.  [CheckTransactionStatus] makes exactly one request.  It returns a
    status without an error exactly when the response has a status code in
    200-299, and the status is then the one of the unmarshalled result,
    empty when the body has none.  A response outside 200-299 gives an error
    that holds the status code and the whole body; a failed request gives
    its error wrapped. *)
Theorem CheckTransactionStatus_result
    (c : CampayClient) (reference : string) (w : World) :
  calls_during (CheckTransactionStatus c reference) w = 1%nat /\
  (forall status,
     fst (CheckTransactionStatus c reference w) = (status, None) <->
     exists resp,
       gateway w (exchanges (trace w)) (status_request c reference)
       = inr resp /\
       200 <= StatusCode resp < 300 /\
       status = Resty.member "status" (Resty.Result resp)) /\
  (forall resp,
     gateway w (exchanges (trace w)) (status_request c reference)
     = inr resp ->
     StatusCode resp < 200 \/ 300 <= StatusCode resp ->
     fst (CheckTransactionStatus c reference w)
     = ("", Some (errorString ("API error (status "
                               ++ itoa (StatusCode resp) ++ "): "
                               ++ RawBody resp)))) /\
  (forall err,
     gateway w (exchanges (trace w)) (status_request c reference)
     = inl err ->
     fst (CheckTransactionStatus c reference w)
     = ("", Some (wrapError ("request failed: " ++ Error err) err))).
Proof.
  pose proof (CheckTransactionStatus_eq c reference w) as Heq.
  rewrite (calls_during_extend _ _ _ _ Heq), Heq. cbn [fst].
  unfold checkStatus, status_of.
  split; [reflexivity|].
  destruct (gateway w (exchanges (trace w)) (status_request c reference))
    as [err|resp].
  { split; [|split].
    - intros status. split; [discriminate|]. intros (r & H & _). discriminate.
    - discriminate.
    - intros e H. now injection H as <-. }
  destruct (Z.ltb_spec (StatusCode resp) 200);
    destruct (Z.leb_spec 300 (StatusCode resp)); cbn [orb]; try lia.
  1-2: split; [|split];
    [intros status; split; [discriminate|];
     intros (r & H' & Hc & _); injection H' as <-; lia
    |intros r H' _; now injection H' as <-
    |discriminate].
  split; [|split].
  - intros status. split.
    + intros H'; injection H' as <-. exists resp. repeat split; auto; lia.
    + intros (r & H' & _ & ->). now injection H' as <-.
  - intros r H' Hc. injection H' as <-. lia.
  - discriminate.
Qed.

Lemma CheckTransactionStatus_result_witness :
  let c := NewCampayClient (example_config 40) in
  let w := example_world "" invalid_credentials in
  fst (CheckTransactionStatus c "abc123" w)
  = ("", Some (errorString
                 "API error (status 400): {message:invalid credentials}")).
Proof.
  intros c w.
  refine (proj1 (proj2 (proj2 (CheckTransactionStatus_result c "abc123" w)))
            (json_response 400 "{message:invalid credentials}"
               [("message", "invalid credentials")]) _ _).
  - reflexivity.
  - right. cbn. lia.
Defined.

(** * Further properties of the orchestrator *)

Lemma with_environ_same (w : World) : with_environ (environ w) w = w.
Proof. now destruct w. Qed.

(** [loadConfig] changes nothing in the world but the environment. *)
Lemma loadConfig_world (w : World) :
  exists env, snd (loadConfig w) = with_environ env w.
Proof.
  unfold loadConfig, bind, Stat_dotenv, godotenv_Load, Getenv, ret.
  destruct w as [env [[e|kvs]|] input gw tm tr];
    cbn [dotenv environ with_environ snd].
  - now exists env.
  - exists (setenv_missing kvs env).
    match goal with
    | |- context [String.eqb ?k ""] => now destruct (String.eqb k "")
    end.
  - exists env.
    match goal with
    | |- context [String.eqb ?k ""] => now destruct (String.eqb k "")
    end.
Qed.

Lemma loadConfig_shape (w : World) :
  (exists cfg,
     fst (loadConfig w) = (Some cfg, None) /\
     APIKey cfg <> "" /\ BaseURL cfg <> "" /\
     PollInterval cfg = pollInterval /\
     MaxPollAttempts cfg = maxPollAttempts) \/
  (exists err, fst (loadConfig w) = (None, Some err)).
Proof.
  unfold loadConfig, bind, Stat_dotenv, godotenv_Load, Getenv, ret.
  destruct w as [env [[e|kvs]|] input gw tm tr];
    cbn [dotenv environ with_environ fst].
  - right. now eexists.
  - set (env' := setenv_missing kvs env).
    destruct (String.eqb_spec
                match env' "API_KEY" with Some v => v | None => "" end "")
      as [He|Hne].
    + right. now eexists.
    + left. eexists. split; [reflexivity|].
      cbn [APIKey BaseURL PollInterval MaxPollAttempts].
      repeat split; try assumption.
      cbn [environ with_environ].
      destruct (String.eqb_spec
                  match env' "BASE_URL" with Some v => v | None => "" end "");
        [discriminate|assumption].
  - destruct (String.eqb_spec
                match env "API_KEY" with Some v => v | None => "" end "")
      as [He|Hne].
    + right. now eexists.
    + left. eexists. split; [reflexivity|].
      cbn [APIKey BaseURL PollInterval MaxPollAttempts].
      repeat split; try assumption.
      cbn [environ with_environ].
      destruct (String.eqb_spec
                  match env "BASE_URL" with Some v => v | None => "" end "");
        [discriminate|assumption].
Qed.

(** X13.  [loadConfig] returns either a configuration or an error, never
    both and never neither.  A configuration it returns has a non-empty API
    key and base URL and the fixed polling budget of 40 attempts 3 seconds
    apart, 120 seconds in all.  It prints nothing and makes no request. *)
Theorem loadConfig_result (w : World) :
  ((exists cfg,
      fst (loadConfig w) = (Some cfg, None) /\
      APIKey cfg <> "" /\ BaseURL cfg <> "" /\
      PollInterval cfg = 3 * Second /\
      MaxPollAttempts cfg = 40 /\
      MaxPollAttempts cfg * PollInterval cfg = 120 * Second) \/
   (exists err, fst (loadConfig w) = (None, Some err))) /\
  events_during loadConfig w = [].
Proof.
  split.
  - destruct (loadConfig_shape w) as [(cfg & H & Hk & Hb & Hi & Hm)|H];
      [left|now right].
    exists cfg. rewrite Hi, Hm. now repeat split.
  - apply events_during_trace.
    destruct (loadConfig_world w) as (env & ->).
    cbn [trace with_environ]. now rewrite app_nil_r.
Qed.

(** X14.  Without a [.env] file the configuration comes from the
    environment alone: an [API_KEY] that is unset or empty is the error
    "API_KEY environment variable is required"; otherwise the key is used as
    it is, with [BASE_URL] as the base URL, or the demo gateway when
    [BASE_URL] is unset or empty. *)
Theorem loadConfig_from_environment (w : World) :
  dotenv w = None ->
  let getenv k := match environ w k with Some v => v | None => "" end in
  (getenv "API_KEY" = "" ->
   fst (loadConfig w)
   = (None, Some (errorString "API_KEY environment variable is required"))) /\
  (getenv "API_KEY" <> "" ->
   fst (loadConfig w)
   = (Some {| BaseURL := if String.eqb (getenv "BASE_URL") ""
                         then "https://demo.campay.net/api"
                         else getenv "BASE_URL";
              APIKey := getenv "API_KEY";
              PollInterval := pollInterval;
              MaxPollAttempts := maxPollAttempts |}, None)).
Proof.
  intros Hd getenv. subst getenv.
  unfold loadConfig, bind, Stat_dotenv, godotenv_Load, Getenv, ret.
  rewrite Hd. cbn [fst].
  destruct (String.eqb_spec
              match environ w "API_KEY" with Some v => v | None => "" end "")
    as [He|Hne]; split; intros H; try reflexivity; contradiction.
Qed.

Lemma loadConfig_from_environment_witness :
  let w := example_world "" always_pending in
  fst (loadConfig w)
  = (Some {| BaseURL := "https://demo.campay.net/api"; APIKey := "key";
             PollInterval := pollInterval;
             MaxPollAttempts := maxPollAttempts |}, None).
Proof.
  intros w.
  refine (proj2 (loadConfig_from_environment w _) _).
  - reflexivity.
  - discriminate.
Defined.

Lemma split_after_line (l rest : string) :
  line_feeds l = 0%nat ->
  split_after newline (l ++ LF ++ rest) = Some (l ++ LF, rest).
Proof.
  induction l as [|c l IH]; cbn [line_feeds append split_after];
    [reflexivity|].
  unfold newline in *.
  destruct (Ascii.eqb c (ascii_of_nat 10)); [discriminate|].
  intros H. now rewrite (IH H).
Qed.

Lemma split_after_none (s : string) :
  line_feeds s = 0%nat -> split_after newline s = None.
Proof.
  induction s as [|c s IH]; cbn [line_feeds split_after]; [reflexivity|].
  unfold newline in *.
  destruct (Ascii.eqb c (ascii_of_nat 10)); [discriminate|].
  intros H. now rewrite (IH H).
Qed.

Lemma split_after_some (s : string) :
  line_feeds s <> 0%nat ->
  exists l r, split_after newline s = Some (l, r) /\
              line_feeds s = S (line_feeds r).
Proof.
  induction s as [|c s IH]; cbn [line_feeds split_after];
    [intros H; now contradiction H|].
  unfold newline in *.
  destruct (Ascii.eqb c (ascii_of_nat 10)).
  - intros _. now eexists _, _.
  - intros H. destruct (IH H) as (l & r & -> & Hr). now eexists _, _.
Qed.

(** X15.  [getUserInput] reads three lines from standard input, each up to
    and including its line feed: the first is the phone number, the second
    the amount, the third the description, each passed through
    [strings.TrimSpace]; what follows the third line has no part in the
    request.  Its effects are the three prompts. *)
Theorem getUserInput_reads_three_lines
    (TrimSpace : string -> string) (w : World) (l1 l2 l3 rest : string) :
  line_feeds l1 = 0%nat -> line_feeds l2 = 0%nat -> line_feeds l3 = 0%nat ->
  stdin w = l1 ++ LF ++ l2 ++ LF ++ l3 ++ LF ++ rest ->
  fst (getUserInput TrimSpace w)
  = (Some {| Amount := TrimSpace (l2 ++ LF);
             From := TrimSpace (l1 ++ LF);
             Description := TrimSpace (l3 ++ LF) |}, None) /\
  events_during (getUserInput TrimSpace) w = prompts.
Proof.
  intros H1 H2 H3 Hin.
  assert (Heq : getUserInput TrimSpace w
                = ((Some {| Amount := TrimSpace (l2 ++ LF);
                            From := TrimSpace (l1 ++ LF);
                            Description := TrimSpace (l3 ++ LF) |}, None),
                   with_stdin rest (extend prompts w))).
  { unfold getUserInput, bind, Print, emit, ReadString, ret.
    cbn [stdin log with_stdin]. rewrite Hin, (split_after_line _ _ H1).
    cbn [stdin log with_stdin]. rewrite (split_after_line _ _ H2).
    cbn [stdin log with_stdin]. rewrite (split_after_line _ _ H3).
    f_equal. unfold with_stdin, log, extend, prompts.
    cbn [environ dotenv stdin gateway timer trace].
    now rewrite <- !app_assoc. }
  rewrite Heq. cbn [fst].
  split; [reflexivity|].
  apply events_during_trace. now rewrite Heq.
Qed.

Lemma getUserInput_reads_three_lines_witness :
  let w := example_world
             (String.concat LF ["677123456"; "500"; "Payment test"; "more"])
             always_pending in
  fst (getUserInput TrimSpace_eol w)
  = (Some {| Amount := "500"; From := "677123456";
             Description := "Payment test" |}, None) /\
  events_during (getUserInput TrimSpace_eol) w = prompts.
Proof.
  intros w.
  destruct (getUserInput_reads_three_lines TrimSpace_eol w
              "677123456" "500" "Payment test" "more")
    as (Hreq & Hev); try reflexivity.
  split; [exact Hreq|exact Hev].
Defined.

(** X16.  With fewer than three line feeds on standard input
    [getUserInput] returns no request but the error of the first read that
    hit the end of input, wrapping [io.EOF], and has consumed all the input.
    In particular a last line without its line feed is an error, although
    all three values were given. *)
Theorem getUserInput_short_input
    (TrimSpace : string -> string) (w : World) :
  (line_feeds (stdin w) < 3)%nat ->
  fst (getUserInput TrimSpace w)
  = (None,
     Some (wrapError
             (match line_feeds (stdin w) with
              | 0%nat => "failed to read mobile number: "
              | 1%nat => "failed to read amount: "
              | _ => "failed to read description: "
              end ++ "EOF")
             EOF)) /\
  stdin (snd (getUserInput TrimSpace w)) = "".
Proof.
  intros Hlt.
  unfold getUserInput, bind, Print, emit, ReadString, ret.
  cbn [stdin log with_stdin].
  destruct (line_feeds (stdin w)) as [|n1] eqn:Hn1.
  { rewrite (split_after_none _ Hn1). now split. }
  destruct (split_after_some (stdin w)) as (l1 & r1 & -> & Hr1); [lia|].
  cbn [stdin log with_stdin].
  destruct (line_feeds r1) as [|n2] eqn:Hn2.
  { rewrite (split_after_none _ Hn2).
    replace n1 with 0%nat by lia. now split. }
  destruct (split_after_some r1) as (l2 & r2 & -> & Hr2); [lia|].
  cbn [stdin log with_stdin].
  destruct (line_feeds r2) as [|n3] eqn:Hn3; [|lia].
  rewrite (split_after_none _ Hn3).
  replace n1 with 1%nat by lia. now split.
Qed.

Lemma getUserInput_short_input_witness :
  let w := example_world
             (String.concat LF ["677123456"; "500"; "Payment test"])
             always_pending in
  fst (getUserInput TrimSpace_eol w)
  = (None, Some (wrapError "failed to read description: EOF" EOF)).
Proof.
  intros w.
  refine (proj1 (getUserInput_short_input TrimSpace_eol w _)).
  cbn. lia.
Defined.

Lemma getUserInput_cases (TrimSpace : string -> string) (w : World) :
  (exists req rest,
     getUserInput TrimSpace w
     = ((Some req, None), with_stdin rest (extend prompts w))) \/
  (exists err t rest,
     getUserInput TrimSpace w
     = ((None, Some err), with_stdin rest (extend t w)) /\
     (t = [Stdout "Enter mobile money number: "] \/
      t = [Stdout "Enter mobile money number: "; Stdout "Enter amount: "] \/
      t = prompts)).
Proof.
  unfold getUserInput, bind, Print, emit, ReadString, ret.
  cbn [stdin log with_stdin].
  destruct (split_after newline (stdin w)) as [[l1 r1]|];
    cbn [stdin log with_stdin].
  2:{ right. eexists _, _, _. split; [reflexivity|]. now left. }
  destruct (split_after newline r1) as [[l2 r2]|];
    cbn [stdin log with_stdin].
  2:{ right. eexists _, [_; _], _. split; [|right; now left].
      f_equal. unfold with_stdin, log, extend.
      cbn [environ dotenv stdin gateway timer trace].
      now repeat rewrite <- app_assoc. }
  destruct (split_after newline r2) as [[l3 r3]|];
    cbn [stdin log with_stdin].
  2:{ right. eexists _, prompts, _. split; [|right; now right].
      f_equal. unfold with_stdin, log, extend, prompts.
      cbn [environ dotenv stdin gateway timer trace].
      now repeat rewrite <- app_assoc. }
  left. eexists _, _. f_equal. unfold with_stdin, log, extend, prompts.
  cbn [environ dotenv stdin gateway timer trace].
  now repeat rewrite <- app_assoc.
Qed.

Lemma count_prompts (p : Event -> bool) (t : list Event) :
  (forall s, p (Stdout s) = false) ->
  t = [Stdout "Enter mobile money number: "] \/
  t = [Stdout "Enter mobile money number: "; Stdout "Enter amount: "] \/
  t = prompts ->
  count p t = 0%nat.
Proof.
  intros Hp [ -> | [ -> | -> ] ]; unfold count, prompts; cbn [filter];
    now rewrite !Hp.
Qed.

(** Every run of [run] follows one of the six paths. *)
Lemma run_follows_path (ParseFloat : string -> Z -> float64 * error)
    (TrimSpace : string -> string) (w : World) :
  exists t err,
    fst (run ParseFloat TrimSpace w) = Some err /\
    trace (snd (run ParseFloat TrimSpace w)) = (trace w ++ t)%list /\
    run_path ParseFloat TrimSpace w t err.
Proof.
  unfold run, bind.
  destruct (loadConfig w) as [[cfg cerr] w1] eqn:Hcfg.
  destruct (loadConfig_world w) as (env & Hw1).
  rewrite Hcfg in Hw1. cbn [snd] in Hw1. subst w1.
  destruct (loadConfig_shape w) as [(cfg0 & Hshape & _)|(err & Hshape)];
    rewrite Hcfg in Hshape; cbn [fst] in Hshape;
    injection Hshape as -> ->.
  2:{ exists [], (Some (Errorf_w "failed to load configuration: " err)).
      cbn [fst snd trace with_environ]. rewrite app_nil_r.
      repeat split. constructor. now rewrite Hcfg. }
  destruct (getUserInput_cases TrimSpace (with_environ env w))
    as [(req & rest & Hin)|(err & t & rest & Hin & Ht)]; rewrite Hin.
  2:{ exists t, (Some (Errorf_w "failed to get user input: " err)).
      cbn [fst snd trace with_environ with_stdin extend].
      repeat split.
      apply path_input_error with cfg0; [now rewrite Hcfg| |exact Ht].
      rewrite Hcfg. cbn [snd]. now rewrite Hin. }
  destruct (validatePaymentRequest ParseFloat req) as [err|] eqn:Hval.
  { exists prompts, (Some (Errorf_w "validation error: " err)).
    cbn [fst snd trace with_environ with_stdin extend].
    repeat split.
    apply path_validation_error with cfg0 req; [now rewrite Hcfg| |exact Hval].
    rewrite Hcfg. cbn [snd]. now rewrite Hin. }
  unfold Println, Print, emit. rewrite InitiatePayment_eq.
  match goal with
  | |- context [gateway ?x (exchanges (trace ?x)) _] =>
      assert (Hex : exchanges (trace x) = exchanges (trace w))
        by (cbn [trace log with_stdin extend with_environ];
            unfold exchanges; rewrite !count_app; cbn; lia);
      rewrite Hex; change (gateway x) with (gateway w)
  end.
  destruct (reference_of
              (gateway w (exchanges (trace w))
                 (collect_request (NewCampayClient cfg0) req)))
    as [reference [err|]] eqn:Href.
  { exists (prompts ++ details req
             ++ [Exchange (collect_request (NewCampayClient cfg0) req)])%list,
           (Some (Errorf_w "failed to initiate payment: " err)).
    unfold ret. cbn [fst snd trace log with_environ with_stdin extend].
    split; [reflexivity|]. split.
    - repeat rewrite <- app_assoc. reflexivity.
    - apply path_initiate_error with reference; try assumption;
        [now rewrite Hcfg|].
      rewrite Hcfg. cbn [snd]. now rewrite Hin. }
  unfold WithTimeout.
  match goal with
  | |- context [PollTransactionStatus ?c ?ctx reference ?x] =>
      change ctx with (poll_context w cfg0);
      destruct (PollTransactionStatus_run c (poll_context w cfg0) reference x)
        as (tp & result & Heq & Hrun);
      assert (Hsel : selects (trace x) = selects (trace w))
        by (cbn [trace log with_stdin extend with_environ];
            unfold selects; rewrite !count_app; cbn; lia);
      rewrite Hsel in Hrun; rewrite Heq
  end.
  destruct result as [status [err|]].
  - exists (prompts ++ details req
            ++ [Exchange (collect_request (NewCampayClient cfg0) req)]
            ++ waiting reference ++ tp)%list,
           (Some (Errorf_w "failed to get transaction status: " err)).
    unfold ret. cbn [fst snd trace log with_environ with_stdin extend].
    split; [reflexivity|]. split.
    + repeat rewrite <- app_assoc. reflexivity.
    + apply (path_poll_error _ _ _ cfg0 req reference tp status err);
        try assumption;
        [now rewrite Hcfg|].
      rewrite Hcfg. cbn [snd]. now rewrite Hin.
  - exists (prompts ++ details req
            ++ [Exchange (collect_request (NewCampayClient cfg0) req)]
            ++ waiting reference ++ tp ++ final status)%list, None.
    unfold ret. cbn [fst snd trace log with_environ with_stdin extend].
    split; [reflexivity|]. split.
    + repeat rewrite <- app_assoc. reflexivity.
    + apply (path_reported _ _ _ cfg0 req reference tp status);
        try assumption;
        [now rewrite Hcfg|].
      rewrite Hcfg. cbn [snd]. now rewrite Hin.
Qed.

Lemma stderr_lines_app (t1 t2 : list Event) :
  stderr_lines (t1 ++ t2) = (stderr_lines t1 ++ stderr_lines t2)%list.
Proof.
  induction t1 as [|[] t1 IH]; cbn [app stderr_lines]; now rewrite ?IH.
Qed.

Lemma stdout_lines_app (t1 t2 : list Event) :
  stdout_lines (t1 ++ t2) = (stdout_lines t1 ++ stdout_lines t2)%list.
Proof.
  induction t1 as [|[] t1 IH]; cbn [app stdout_lines]; now rewrite ?IH.
Qed.

Lemma requests_app (t1 t2 : list Event) :
  requests (t1 ++ t2) = (requests t1 ++ requests t2)%list.
Proof.
  induction t1 as [|[] t1 IH]; cbn [app requests]; now rewrite ?IH.
Qed.

Lemma exchanges_requests (t : list Event) :
  exchanges t = List.length (requests t).
Proof.
  unfold exchanges, count.
  induction t as [|[] t IH]; cbn [filter is_exchange requests List.length];
    now rewrite ?IH.
Qed.

Lemma poll_run_no_stderr (c : CampayClient) (ctx : Context)
    (reference : string) (n : nat) (attempts : Z) (t : list Event)
    (result : string * error) :
  poll_run c ctx reference n attempts t result -> stderr_lines t = [].
Proof. induction 1; cbn [stderr_lines]; auto. Qed.

Lemma prompts_prefix_quiet (t : list Event) :
  t = [Stdout "Enter mobile money number: "] \/
  t = [Stdout "Enter mobile money number: "; Stdout "Enter amount: "] \/
  t = prompts ->
  stderr_lines t = [] /\ requests t = [].
Proof. intros [ -> | [ -> | -> ] ]; now split. Qed.

Lemma run_path_no_stderr (ParseFloat : string -> Z -> float64 * error)
    (TrimSpace : string -> string) (w : World) (t : list Event)
    (err : error) :
  run_path ParseFloat TrimSpace w t err -> stderr_lines t = [].
Proof.
  destruct 1; rewrite ?stderr_lines_app;
    try match goal with
      | H : poll_run _ _ _ _ _ _ _ |- _ =>
          rewrite (poll_run_no_stderr _ _ _ _ _ _ _ H)
      end;
    try reflexivity.
  now apply prompts_prefix_quiet.
Qed.

(** X17.  [main] always ends, with exit status 0 or 1.  It is 0 exactly
    when [run] returns no error, and then nothing is written to standard
    error; it is 1 exactly when [run] returns an error, and then the one
    line on standard error is "Error: " followed by the error's message. *)
Theorem main_exit_status (ParseFloat : string -> Z -> float64 * error)
    (TrimSpace : string -> string) (w : World) :
  let t := events_during (main ParseFloat TrimSpace) w in
  (fst (main ParseFloat TrimSpace w) = Some 0 /\
   fst (run ParseFloat TrimSpace w) = Some None /\
   stderr_lines t = []) \/
  (exists err,
     fst (main ParseFloat TrimSpace w) = Some 1 /\
     fst (run ParseFloat TrimSpace w) = Some (Some err) /\
     stderr_lines t = ["Error: " ++ Error err ++ LF]).
Proof.
  destruct (run_follows_path ParseFloat TrimSpace w)
    as (t & err & Hres & Htrace & Hpath).
  pose proof (run_path_no_stderr _ _ _ _ _ Hpath) as Hquiet.
  cbv zeta.
  destruct (run ParseFloat TrimSpace w) as [r w'] eqn:Hrun.
  cbn [fst snd] in Hres, Htrace. subst r.
  destruct err as [err|].
  - right. exists err.
    assert (Hmain : main ParseFloat TrimSpace w
                    = (Some 1,
                       log (Stderr ("Error: " ++ Error err ++ LF)) w'))
      by (unfold main, bind; now rewrite Hrun).
    assert (Hev : events_during (main ParseFloat TrimSpace) w
                  = (t ++ [Stderr ("Error: " ++ Error err ++ LF)])%list).
    { apply events_during_trace. rewrite Hmain.
      cbn [snd log trace]. now rewrite Htrace, app_assoc. }
    rewrite Hev, Hmain, stderr_lines_app, Hquiet. now repeat split.
  - left.
    assert (Hmain : main ParseFloat TrimSpace w = (Some 0, w'))
      by (unfold main, bind; now rewrite Hrun).
    assert (Hev : events_during (main ParseFloat TrimSpace) w = t)
      by (apply events_during_trace; now rewrite Hmain).
    rewrite Hev, Hmain. now repeat split.
Qed.

(** X18.  The requests of a run of [run]: either none at all, or, once the
    configuration is loaded, the input read and the request validated, the
    POST of the payment request first and only once, followed by at most 40
    status checks, all of them for the reference of the answer to the POST
    and none when the answer is refused.  So [run] makes 41 network calls at
    most. *)
Theorem run_requests (ParseFloat : string -> Z -> float64 * error)
    (TrimSpace : string -> string) (w : World) :
  let t := events_during (run ParseFloat TrimSpace) w in
  (requests t = [] \/
   exists cfg req n,
     fst (loadConfig w) = (Some cfg, None) /\
     fst (getUserInput TrimSpace (snd (loadConfig w))) = (Some req, None) /\
     validatePaymentRequest ParseFloat req = None /\
     let c := NewCampayClient cfg in
     let answer := reference_of (gateway w (exchanges (trace w))
                                   (collect_request c req)) in
     requests t
     = collect_request c req :: repeat (status_request c (fst answer)) n /\
     (n <= 40)%nat /\
     (snd answer <> None -> n = 0%nat)) /\
  (calls_during (run ParseFloat TrimSpace) w <= 41)%nat.
Proof.
  destruct (run_follows_path ParseFloat TrimSpace w)
    as (t & err & Hres & Htrace & Hpath).
  rewrite (events_during_trace _ _ _ Htrace),
          (calls_during_trace _ _ _ Htrace), (exchanges_requests t).
  cbv zeta.
  assert (Hmax : forall cfg, fst (loadConfig w) = (Some cfg, None) ->
                             MaxPollAttempts cfg = 40).
  { intros cfg Hcfg.
    destruct (loadConfig_shape w) as [(cfg' & H' & _ & _ & _ & Hm)|(e & H')];
      rewrite Hcfg in H'; [injection H' as <-; exact Hm|discriminate]. }
  destruct Hpath as [err Hcfg|cfg err t Hcfg Hin Ht|cfg req err Hcfg Hin Hval
                     |cfg req reference err Hcfg Hin Hval Href
                     |cfg req reference tp status err Hcfg Hin Hval Href Hrun
                     |cfg req reference tp status Hcfg Hin Hval Href Hrun].
  - split; [now left|cbn; lia].
  - destruct (prompts_prefix_quiet _ Ht) as [_ ->]. split; [now left|cbn; lia].
  - split; [now left|cbn; lia].
  - rewrite !requests_app. cbn [requests prompts details app List.length].
    split; [|lia].
    right. exists cfg, req, 0%nat. rewrite Href. cbn [fst snd repeat].
    repeat split; auto; lia.
  - destruct (poll_run_effects _ _ _ _ _ _ _ Hrun) as (_ & _ & _ & Hreq & _).
    pose proof (poll_run_calls _ _ _ _ _ _ _ Hrun) as Hcalls.
    cbn [config NewCampayClient] in Hcalls.
    rewrite (Hmax _ Hcfg) in Hcalls.
    rewrite !requests_app, Hreq.
    cbn [requests prompts details waiting app List.length].
    rewrite repeat_length. split; [|lia].
    right. exists cfg, req, (exchanges tp). rewrite Href. cbn [fst snd].
    repeat split; auto; try lia. intros H; now contradiction H.
  - destruct (poll_run_effects _ _ _ _ _ _ _ Hrun) as (_ & _ & _ & Hreq & _).
    pose proof (poll_run_calls _ _ _ _ _ _ _ Hrun) as Hcalls.
    cbn [config NewCampayClient] in Hcalls.
    rewrite (Hmax _ Hcfg) in Hcalls.
    rewrite !requests_app, Hreq.
    cbn [requests prompts details waiting final app List.length].
    rewrite app_nil_r, repeat_length. split; [|lia].
    right. exists cfg, req, (exchanges tp). rewrite Href. cbn [fst snd].
    repeat split; auto; try lia. intros H; now contradiction H.
Qed.

(** X19.  When the initiation fails (the request fails, the response is
    outside 200-299 or it holds no reference), [run] returns that error
    wrapped after exactly one network call, the POST: no status check is
    made and nothing is printed after "Sending payment request to
    Campay...". *)
Theorem run_initiation_failure
    (ParseFloat : string -> Z -> float64 * error)
    (TrimSpace : string -> string) (w : World)
    (cfg : Config) (req : PaymentRequest) (err : Err) :
  fst (loadConfig w) = (Some cfg, None) ->
  fst (getUserInput TrimSpace (snd (loadConfig w))) = (Some req, None) ->
  validatePaymentRequest ParseFloat req = None ->
  snd (reference_of (gateway w (exchanges (trace w))
                       (collect_request (NewCampayClient cfg) req)))
  = Some err ->
  fst (run ParseFloat TrimSpace w)
  = Some (Some (Errorf_w "failed to initiate payment: " err)) /\
  events_during (run ParseFloat TrimSpace) w
  = (prompts ++ details req
     ++ [Exchange (collect_request (NewCampayClient cfg) req)])%list /\
  calls_during (run ParseFloat TrimSpace) w = 1%nat.
Proof.
  intros Hcfg Hin Hval Herr.
  destruct (run_follows_path ParseFloat TrimSpace w)
    as (t & e & Hres & Htrace & Hpath).
  rewrite (events_during_trace _ _ _ Htrace),
          (calls_during_trace _ _ _ Htrace), Hres.
  destruct Hpath as [e' Hcfg'|cfg' e' t Hcfg' Hin' Ht|cfg' req' e' Hcfg' Hin' Hval'
                     |cfg' req' reference e' Hcfg' Hin' Hval' Href
                     |cfg' req' reference tp status e' Hcfg' Hin' Hval' Href Hrun
                     |cfg' req' reference tp status Hcfg' Hin' Hval' Href Hrun];
    try congruence.
  - assert (cfg' = cfg) by congruence. assert (req' = req) by congruence.
    subst cfg' req'. rewrite Href in Herr. cbn [snd] in Herr.
    injection Herr as ->.
    split; [reflexivity|]. split; [reflexivity|].
    unfold exchanges. rewrite !count_app. reflexivity.
  - assert (cfg' = cfg) by congruence. assert (req' = req) by congruence.
    subst cfg' req'. rewrite Href in Herr. discriminate.
  - assert (cfg' = cfg) by congruence. assert (req' = req) by congruence.
    subst cfg' req'. rewrite Href in Herr. discriminate.
Qed.

Lemma run_initiation_failure_witness :
  let w := example_world
             (String.concat LF ["677123456"; "500"; "Payment test"; ""])
             invalid_credentials in
  fst (run ParseFloat_digits TrimSpace_eol w)
  = Some (Some (Errorf_w "failed to initiate payment: "
                  (errorString "API error (status 400): "))) /\
  calls_during (run ParseFloat_digits TrimSpace_eol) w = 1%nat.
Proof.
  intros w.
  destruct (run_initiation_failure ParseFloat_digits TrimSpace_eol w
              {| BaseURL := defaultBaseURL; APIKey := "key";
                 PollInterval := pollInterval;
                 MaxPollAttempts := maxPollAttempts |}
              {| Amount := "500"; From := "677123456";
                 Description := "Payment test" |}
              (errorString "API error (status 400): "))
    as (Hres & _ & Hcalls); try reflexivity.
  split; [exact Hres|exact Hcalls].
Defined.

Lemma PollTransactionStatus_first_answer
    (c : CampayClient) (ctx : Context) (reference : string) (w : World)
    (k : nat) (status : string) (outcome : string * error) :
  Z.of_nat k < MaxPollAttempts (config c) ->
  (forall n, Done ctx n = false) ->
  (forall i, (i < k)%nat ->
     exists s,
       checkStatus w c reference (exchanges (trace w) + i) = (s, None) /\
       terminal s = None) ->
  checkStatus w c reference (exchanges (trace w) + k) = (status, None) ->
  terminal status = Some outcome ->
  exists t,
    PollTransactionStatus c ctx reference w = (Some outcome, extend t w) /\
    exchanges t = S k /\ stderr_lines t = [].
Proof.
  intros Hk Hctx Hpending Hst Hterm.
  destruct (PollTransactionStatus_run c ctx reference w)
    as (t0 & result & Heq0 & Hrun).
  destruct (poll_loop_pending k (Z.to_nat (MaxPollAttempts (config c)))
              c ctx reference 0 w Hctx Hpending) as (t & Heq & Hn); try lia.
  exists (t ++ [SelectDefault false; Exchange (status_request c reference)])%list.
  assert (Hpoll : PollTransactionStatus c ctx reference w
                  = (Some outcome,
                     extend (t ++ [SelectDefault false;
                                   Exchange (status_request c reference)])%list
                       w)).
  { unfold PollTransactionStatus. rewrite Heq.
    destruct (Z.to_nat (MaxPollAttempts (config c)) - k)%nat
      as [|fuel] eqn:Hfuel; [lia|].
    cbn [poll_loop].
    destruct (Z.ltb_spec (0 + Z.of_nat k) (MaxPollAttempts (config c)));
      [|lia].
    unfold bind. rewrite poll_body_eq, Hctx, exchanges_extend, Hn.
    change (checkStatus (extend t w)) with (checkStatus w).
    rewrite Hst, Hterm, extend_extend. reflexivity. }
  split; [exact Hpoll|]. split.
  - unfold exchanges in *. rewrite count_app, Hn. cbn. lia.
  - rewrite Heq0 in Hpoll. injection Hpoll as _ Ht.
    apply app_inv_head in Ht. rewrite <- Ht.
    exact (poll_run_no_stderr _ _ _ _ _ _ _ Hrun).
Qed.

(** Once the transaction is initiated, [run] is the poller followed by the
    report of its result. *)
Lemma run_polls (ParseFloat : string -> Z -> float64 * error)
    (TrimSpace : string -> string) (w : World)
    (cfg : Config) (req : PaymentRequest) (reference : string) :
  fst (loadConfig w) = (Some cfg, None) ->
  fst (getUserInput TrimSpace (snd (loadConfig w))) = (Some req, None) ->
  validatePaymentRequest ParseFloat req = None ->
  reference_of (gateway w (exchanges (trace w))
                  (collect_request (NewCampayClient cfg) req))
  = (reference, None) ->
  exists wp,
    run ParseFloat TrimSpace w
    = bind (PollTransactionStatus (NewCampayClient cfg) (poll_context w cfg)
              reference) report wp /\
    trace wp
    = (trace w ++ prompts ++ details req
       ++ [Exchange (collect_request (NewCampayClient cfg) req)]
       ++ waiting reference)%list /\
    gateway wp = gateway w.
Proof.
  intros Hcfg Hin Hval Href.
  destruct (loadConfig_world w) as (env & Hw1).
  assert (Hload : loadConfig w = ((Some cfg, None), with_environ env w))
    by (rewrite (surjective_pairing (loadConfig w)), Hcfg, Hw1; reflexivity).
  rewrite Hw1 in Hin.
  destruct (getUserInput_cases TrimSpace (with_environ env w))
    as [(req' & rest & Hg)|(e & t & rest & Hg & _)];
    rewrite Hg in Hin; cbn [fst] in Hin; [|discriminate].
  injection Hin as ->.
  eexists. split; [|split].
  - unfold run. unfold bind at 1. rewrite Hload.
    unfold bind at 1. rewrite Hg, Hval.
    unfold Println, Print, emit.
    do 4 unfold bind at 1. rewrite InitiatePayment_eq.
    match goal with
    | |- context [gateway ?x (exchanges (trace ?x)) _] =>
        assert (Hex : exchanges (trace x) = exchanges (trace w))
          by (cbn [trace log with_stdin extend with_environ];
              unfold exchanges; rewrite !count_app; cbn; lia);
        rewrite Hex; change (gateway x) with (gateway w)
    end.
    rewrite Href. unfold WithTimeout. do 3 unfold bind at 1.
    reflexivity.
  - cbn [trace log with_stdin extend with_environ].
    repeat rewrite <- app_assoc. reflexivity.
  - reflexivity.
Qed.

(** X20.  The whole run, end to end: with a configuration, a valid request
    read from the user, an initiation that returns a reference, a deadline
    that does not fire and status checks that answer [k] times with a
    status that is not terminal and then with SUCCESSFUL or FAILED, [main]
    makes [k + 2] network calls, prints the final status last and exits
    with status 0, for FAILED as for SUCCESSFUL, with nothing on standard
    error. *)
Theorem main_reports_terminal_status
    (ParseFloat : string -> Z -> float64 * error)
    (TrimSpace : string -> string) (w : World)
    (cfg : Config) (req : PaymentRequest) (reference : string)
    (k : nat) (status : string) :
  fst (loadConfig w) = (Some cfg, None) ->
  fst (getUserInput TrimSpace (snd (loadConfig w))) = (Some req, None) ->
  validatePaymentRequest ParseFloat req = None ->
  reference_of (gateway w (exchanges (trace w))
                  (collect_request (NewCampayClient cfg) req))
  = (reference, None) ->
  (forall n, timer w (MaxPollAttempts cfg * PollInterval cfg) n = false) ->
  (k < 40)%nat ->
  (forall i, (i < k)%nat ->
     exists s,
       checkStatus w (NewCampayClient cfg) reference
         (exchanges (trace w) + 1 + i) = (s, None) /\
       s <> "SUCCESSFUL" /\ s <> "FAILED") ->
  checkStatus w (NewCampayClient cfg) reference (exchanges (trace w) + 1 + k)
  = (status, None) ->
  status = "SUCCESSFUL" \/ status = "FAILED" ->
  let t := events_during (main ParseFloat TrimSpace) w in
  fst (main ParseFloat TrimSpace w) = Some 0 /\
  calls_during (main ParseFloat TrimSpace) w = (k + 2)%nat /\
  stderr_lines t = [] /\
  exists lines,
    stdout_lines t
    = (lines ++ [(LF ++ "=== FINAL TRANSACTION STATUS ===" ++ LF)%string;
                 ((if String.eqb status "SUCCESSFUL"
                   then "✓ Transaction Successful"
                   else "✗ Transaction Failed") ++ LF)%string])%list.
Proof.
  intros Hcfg Hin Hval Href Htimer Hk Hpending Hlast Hstatus t. subst t.
  destruct (run_polls ParseFloat TrimSpace w cfg req reference
              Hcfg Hin Hval Href) as (wp & Hrun & Htr & Hgw).
  assert (Hmax : MaxPollAttempts cfg = 40).
  { destruct (loadConfig_shape w) as [(cfg' & H' & _ & _ & _ & Hm)|(e & H')];
      rewrite Hcfg in H'; [injection H' as <-; exact Hm|discriminate]. }
  assert (Hex : exchanges (trace wp) = (exchanges (trace w) + 1)%nat).
  { rewrite Htr. unfold exchanges. rewrite !count_app. reflexivity. }
  set (message := if String.eqb status "SUCCESSFUL"
                  then "✓ Transaction Successful"
                  else "✗ Transaction Failed").
  assert (Hterm : terminal status = Some (message, None)).
  { subst message. now destruct Hstatus as [ -> | -> ]. }
  destruct (PollTransactionStatus_first_answer
              (NewCampayClient cfg) (poll_context w cfg) reference wp
              k status (message, None))
    as (tp & Hpoll & Hcalls & Hquiet).
  { cbn [config NewCampayClient]. lia. }
  { exact Htimer. }
  { intros i Hi. destruct (Hpending i Hi) as (s & Hs & H1 & H2).
    exists s. split; [|now apply terminal_none].
    unfold checkStatus in *. now rewrite Hgw, Hex. }
  { unfold checkStatus in *. now rewrite Hgw, Hex. }
  { exact Hterm. }
  assert (Hmain : main ParseFloat TrimSpace w
                  = (Some 0,
                     log (Stdout (message ++ LF))
                       (log (Stdout ((LF ++ "=== FINAL TRANSACTION STATUS ===")
                                     ++ LF))
                          (extend tp wp)))).
  { unfold main. unfold bind at 1. rewrite Hrun.
    unfold bind at 1. rewrite Hpoll. reflexivity. }
  assert (Htrace : trace (snd (main ParseFloat TrimSpace w))
                   = (trace w
                      ++ (prompts ++ details req
                          ++ [Exchange (collect_request (NewCampayClient cfg)
                                          req)]
                          ++ waiting reference)
                      ++ tp ++ final message)%list).
  { rewrite Hmain. cbn [snd trace log extend]. rewrite Htr.
    repeat rewrite <- app_assoc. reflexivity. }
  rewrite (events_during_trace _ _ _ Htrace),
          (calls_during_trace _ _ _ Htrace), Hmain.
  split; [reflexivity|]. split; [|split].
  - unfold exchanges in *. rewrite !count_app, Hcalls. cbn. lia.
  - rewrite !stderr_lines_app, Hquiet. reflexivity.
  - rewrite app_assoc, stdout_lines_app. now eexists.
Qed.

Lemma main_reports_terminal_status_witness :
  let w := example_world
             (String.concat LF ["677123456"; "500"; "Payment test"; ""])
             scenario_gateway in
  let t := events_during (main ParseFloat_digits TrimSpace_eol) w in
  fst (main ParseFloat_digits TrimSpace_eol w) = Some 0 /\
  calls_during (main ParseFloat_digits TrimSpace_eol) w = 3%nat /\
  stderr_lines t = [] /\
  exists lines,
    stdout_lines t
    = (lines ++ [(LF ++ "=== FINAL TRANSACTION STATUS ===" ++ LF)%string;
                 ("✓ Transaction Successful" ++ LF)%string])%list.
Proof.
  intros w t.
  refine (main_reports_terminal_status ParseFloat_digits TrimSpace_eol w
            {| BaseURL := defaultBaseURL; APIKey := "key";
               PollInterval := pollInterval;
               MaxPollAttempts := maxPollAttempts |}
            {| Amount := "500"; From := "677123456";
               Description := "Payment test" |}
            "abc123" 1 "SUCCESSFUL" _ _ _ _ _ _ _ _ _).
  - reflexivity.
  - reflexivity.
  - reflexivity.
  - reflexivity.
  - intros n. reflexivity.
  - lia.
  - intros i Hi. exists "PENDING". destruct i as [|i]; [|lia].
    split; [reflexivity|split; discriminate].
  - reflexivity.
  - now left.
Defined.

(** * Properties of the first version *)

Lemma Legacy_not_terminal (fs : list (string * string))
    (statusResp : StatusResponse) :
  Legacy.find "status" fs <> Some "SUCCESSFUL" ->
  Legacy.find "status" fs <> Some "FAILED" ->
  StatusOf statusResp <> "SUCCESSFUL" ->
  StatusOf statusResp <> "FAILED" ->
  StatusOf (Legacy.unmarshal_status fs statusResp) <> "SUCCESSFUL" /\
  StatusOf (Legacy.unmarshal_status fs statusResp) <> "FAILED".
Proof.
  unfold Legacy.unmarshal_status. intros H1 H2 H3 H4.
  destruct (Legacy.find "status" fs) as [v|]; cbn [StatusOf];
    split; congruence.
Qed.

Lemma Legacy_poll_loop_pending (fuel : nat) :
  forall (client : Resty.Client) (apiKey ref : string)
         (statusResp : StatusResponse) (w : World),
    (forall n req,
       exists resp,
         gateway w n req = inr resp /\
         Legacy.find "status" (Resty.Result resp) <> Some "SUCCESSFUL" /\
         Legacy.find "status" (Resty.Result resp) <> Some "FAILED") ->
    StatusOf statusResp <> "SUCCESSFUL" ->
    StatusOf statusResp <> "FAILED" ->
    exists t,
      Legacy.poll_loop fuel client apiKey ref statusResp w
      = (None, extend t w) /\
      exchanges t = fuel.
Proof.
  induction fuel as [|fuel IH]; intros client apiKey ref statusResp w Hgw H1 H2.
  - exists []. cbn [Legacy.poll_loop]. unfold ret. now rewrite extend_nil.
  - cbn [Legacy.poll_loop].
    unfold bind at 1. unfold Legacy.Execute, Resty.Execute.
    match goal with
    | |- context [gateway w (exchanges (trace w)) ?req] =>
        destruct (Hgw (exchanges (trace w)) req) as (resp & -> & Hs & Hf);
          set (rq := req)
    end.
    destruct (Legacy_not_terminal _ _ Hs Hf H1 H2) as [H1' H2'].
    destruct (String.eqb_spec
                (StatusOf (Legacy.unmarshal_status (Resty.Result resp)
                             statusResp)) "SUCCESSFUL"); [contradiction|].
    destruct (String.eqb_spec
                (StatusOf (Legacy.unmarshal_status (Resty.Result resp)
                             statusResp)) "FAILED"); [contradiction|].
    unfold Println, emit, Legacy.Sleep. do 2 unfold bind at 1. unfold ret at 1.
    match goal with
    | |- context [Legacy.poll_loop fuel client apiKey ref ?s ?w1] =>
        destruct (IH client apiKey ref s w1) as (t & Heq & Hn);
          [exact Hgw|assumption|assumption|]; rewrite Heq
    end.
    eexists (Exchange rq :: Stdout _ :: t). split.
    + f_equal. unfold extend, log. cbn [environ dotenv stdin gateway timer trace].
      repeat rewrite <- app_assoc. reflexivity.
    + unfold exchanges, count in *. cbn [filter is_exchange List.length].
      now rewrite Hn.
Qed.

(** X21.  The first version's poller has no budget: as long as no status
    check fails in transport and none returns a SUCCESSFUL or FAILED status,
    it keeps polling, one request per turn, however many turns it is given.
    This holds in particular when every answer is an error response, such as
    HTTP 401: the status code is never looked at. *)
Theorem Legacy_poll_unbounded
    (client : Resty.Client) (apiKey ref : string) (w : World) (fuel : nat) :
  (forall n req,
     exists resp,
       gateway w n req = inr resp /\
       Legacy.find "status" (Resty.Result resp) <> Some "SUCCESSFUL" /\
       Legacy.find "status" (Resty.Result resp) <> Some "FAILED") ->
  fst (Legacy.pollTransactionStatus fuel client apiKey ref w) = None /\
  calls_during (Legacy.pollTransactionStatus fuel client apiKey ref) w = fuel.
Proof.
  intros Hgw.
  destruct (Legacy_poll_loop_pending fuel client apiKey ref
              {| StatusOf := "" |} w Hgw) as (t & Heq & Hn);
    try (cbn; discriminate).
  unfold Legacy.pollTransactionStatus.
  rewrite (calls_during_extend _ _ _ _ Heq), Heq. now split.
Qed.

Lemma Legacy_poll_unbounded_witness :
  let w := example_world "" (refusing 401) in
  fst (Legacy.pollTransactionStatus 1000 Resty.New "key" "abc123" w) = None /\
  calls_during (Legacy.pollTransactionStatus 1000 Resty.New "key" "abc123") w
  = 1000%nat.
Proof.
  intros w.
  apply (Legacy_poll_unbounded Resty.New "key" "abc123" w 1000).
  intros n req. eexists. split; [reflexivity|]. split; discriminate.
Defined.

Lemma Legacy_poll_loop_answer (k : nat) :
  forall (fuel : nat) (client : Resty.Client) (apiKey ref : string)
         (statusResp : StatusResponse) (w : World) (status message : string),
    (forall i req, (i < k)%nat ->
       exists resp,
         gateway w (exchanges (trace w) + i) req = inr resp /\
         Legacy.find "status" (Resty.Result resp) <> Some "SUCCESSFUL" /\
         Legacy.find "status" (Resty.Result resp) <> Some "FAILED") ->
    (forall req,
       exists resp,
         gateway w (exchanges (trace w) + k) req = inr resp /\
         Legacy.find "status" (Resty.Result resp) = Some status) ->
    (status = "SUCCESSFUL" /\ message = "Transaction Successful ✓" \/
     status = "FAILED" /\ message = "Transaction Failed ✗") ->
    StatusOf statusResp <> "SUCCESSFUL" ->
    StatusOf statusResp <> "FAILED" ->
    (k < fuel)%nat ->
    exists t,
      Legacy.poll_loop fuel client apiKey ref statusResp w
      = (Some (message, None), extend t w) /\
      exchanges t = S k.
Proof.
  induction k as [|k IH];
    intros fuel client apiKey ref statusResp w status message
           Hpending Hlast Hstatus H1 H2 Hfuel;
    (destruct fuel as [|fuel]; [lia|]);
    cbn [Legacy.poll_loop];
    unfold bind at 1; unfold Legacy.Execute, Resty.Execute.
  - match goal with
    | |- context [gateway w (exchanges (trace w)) ?req] =>
        destruct (Hlast req) as (resp & Hgw & Hs);
          rewrite Nat.add_0_r in Hgw; rewrite Hgw; set (rq := req)
    end.
    unfold Legacy.unmarshal_status. rewrite Hs. cbn [StatusOf].
    exists [Exchange rq]. split; [|reflexivity].
    destruct Hstatus as [[-> ->]|[-> ->]]; reflexivity.
  - match goal with
    | |- context [gateway w (exchanges (trace w)) ?req] =>
        destruct (Hpending 0%nat req) as (resp & Hgw & Hs & Hf); [lia|];
          rewrite Nat.add_0_r in Hgw; rewrite Hgw; set (rq := req)
    end.
    destruct (Legacy_not_terminal _ _ Hs Hf H1 H2) as [H1' H2'].
    destruct (String.eqb_spec
                (StatusOf (Legacy.unmarshal_status (Resty.Result resp)
                             statusResp)) "SUCCESSFUL"); [contradiction|].
    destruct (String.eqb_spec
                (StatusOf (Legacy.unmarshal_status (Resty.Result resp)
                             statusResp)) "FAILED"); [contradiction|].
    unfold Println, emit, Legacy.Sleep. do 2 unfold bind at 1. unfold ret at 1.
    match goal with
    | |- context [Legacy.poll_loop fuel client apiKey ref ?s ?w1] =>
        assert (Hex : exchanges (trace w1) = S (exchanges (trace w)))
          by (cbn [trace log]; unfold exchanges; rewrite !count_app; cbn; lia);
        destruct (IH fuel client apiKey ref s w1 status message)
          as (t & Heq & Hn); try assumption; try lia;
          [| |rewrite Heq]
    end.
    + intros i req Hi. rewrite Hex.
      destruct (Hpending (S i) req) as (r & Hr & Hrs); [lia|].
      exists r. split; [|exact Hrs].
      cbn [gateway log]. rewrite <- Hr. f_equal. lia.
    + intros req. rewrite Hex.
      destruct (Hlast req) as (r & Hr & Hrs).
      exists r. split; [|exact Hrs].
      cbn [gateway log]. rewrite <- Hr. f_equal. lia.
    + eexists (Exchange rq :: Stdout _ :: t). split.
      * f_equal. unfold extend, log.
        cbn [environ dotenv stdin gateway timer trace].
        repeat rewrite <- app_assoc. reflexivity.
      * unfold exchanges, count in *. cbn [filter is_exchange List.length].
        now rewrite Hn.
Qed.

(** X22.  The first version's poller returns at the first status check
    whose answer holds the status SUCCESSFUL or FAILED, after any number [k]
    of checks that held another status: [k + 1] requests, however large [k]
    is. *)
Theorem Legacy_poll_returns_at_terminal
    (client : Resty.Client) (apiKey ref : string) (w : World)
    (k fuel : nat) (status message : string) :
  (forall i req, (i < k)%nat ->
     exists resp,
       gateway w (exchanges (trace w) + i) req = inr resp /\
       Legacy.find "status" (Resty.Result resp) <> Some "SUCCESSFUL" /\
       Legacy.find "status" (Resty.Result resp) <> Some "FAILED") ->
  (forall req,
     exists resp,
       gateway w (exchanges (trace w) + k) req = inr resp /\
       Legacy.find "status" (Resty.Result resp) = Some status) ->
  (status = "SUCCESSFUL" /\ message = "Transaction Successful ✓" \/
   status = "FAILED" /\ message = "Transaction Failed ✗") ->
  (k < fuel)%nat ->
  fst (Legacy.pollTransactionStatus fuel client apiKey ref w)
  = Some (message, None) /\
  calls_during (Legacy.pollTransactionStatus fuel client apiKey ref) w = S k.
Proof.
  intros Hpending Hlast Hstatus Hfuel.
  destruct (Legacy_poll_loop_answer k fuel client apiKey ref
              {| StatusOf := "" |} w status message Hpending Hlast Hstatus)
    as (t & Heq & Hn); try (cbn; discriminate); try assumption.
  unfold Legacy.pollTransactionStatus.
  rewrite (calls_during_extend _ _ _ _ Heq), Heq. now split.
Qed.

Lemma Legacy_poll_returns_at_terminal_witness :
  let w := example_world "" (pending_then_successful 100) in
  fst (Legacy.pollTransactionStatus 200 Resty.New "key" "abc123" w)
  = Some ("Transaction Successful ✓", None) /\
  calls_during (Legacy.pollTransactionStatus 200 Resty.New "key" "abc123") w
  = 101%nat.
Proof.
  intros w.
  apply (Legacy_poll_returns_at_terminal Resty.New "key" "abc123" w
           100 200 "SUCCESSFUL" "Transaction Successful ✓").
  - intros i req Hi. exists (json_response 200 "" [("status", "PENDING")]).
    split; [|split; discriminate].
    subst w. unfold example_world, pending_then_successful, exchanges, count.
    cbn [gateway trace filter List.length Nat.add].
    destruct (Nat.ltb_spec i 100); [reflexivity|lia].
  - intros req. eexists. split; [reflexivity|reflexivity].
  - left. now split.
  - lia.
Defined.

Lemma ReadString_reading (w w' : World) (l : string) (e : error) :
  ReadString (ascii_of_nat 10) w = ((l, e), w') ->
  trace w' = trace w /\
  l = fst (reading (stdin w)) /\
  stdin w' = snd (reading (stdin w)).
Proof.
  unfold ReadString, reading.
  destruct (split_after (ascii_of_nat 10) (stdin w)) as [[l0 r0]|];
    intros H; injection H as <- <- <-; cbn [trace with_stdin stdin fst snd];
    now repeat split.
Qed.

Lemma reading_line (l more : string) :
  line_feeds l = 0%nat -> reading (l ++ LF ++ more) = (l ++ LF, more).
Proof.
  intros H. unfold reading.
  now rewrite (split_after_line l more H : split_after (ascii_of_nat 10) _ = _).
Qed.

Lemma Legacy_poll_loop_trace (fuel : nat) :
  forall (client : Resty.Client) (apiKey ref : string)
         (statusResp : StatusResponse) (w : World),
    exists t,
      trace (snd (Legacy.poll_loop fuel client apiKey ref statusResp w))
      = (trace w ++ t)%list.
Proof.
  induction fuel as [|fuel IH]; intros client apiKey ref statusResp w.
  - exists []. cbn. now rewrite app_nil_r.
  - cbn [Legacy.poll_loop].
    unfold bind at 1. unfold Legacy.Execute, Resty.Execute.
    match goal with
    | |- context [gateway w (exchanges (trace w)) ?req] =>
        destruct (gateway w (exchanges (trace w)) req) as [err|resp];
          set (rq := req)
    end.
    { now exists [Exchange rq]. }
    destruct (String.eqb _ "SUCCESSFUL"); [now exists [Exchange rq]|].
    destruct (String.eqb _ "FAILED"); [now exists [Exchange rq]|].
    unfold Println, emit, Legacy.Sleep. do 2 unfold bind at 1. unfold ret at 1.
    match goal with
    | |- context [Legacy.poll_loop fuel client apiKey ref ?s ?w1] =>
        destruct (IH client apiKey ref s w1) as (t & ->)
    end.
    eexists (Exchange rq :: Stdout _ :: t). cbn [trace log].
    repeat rewrite <- app_assoc. reflexivity.
Qed.

(** X23.  The first version sends whatever it reads: with an API key in
    the environment it always makes the POST to [/collect/], whose fields
    are the three readings of standard input after [TrimSpace], the first
    as the number, the second as the amount, the third as the description.
    Nothing is validated and the errors of the reads are not looked at:
    three lines of input are sent as they are, whatever they hold. *)
Theorem Legacy_run_sends_unvalidated
    (TrimSpace : string -> string) (fuel : nat) (w : World) (key : string) :
  dotenv w = None ->
  environ w "API_KEY" = Some key ->
  key <> "" ->
  (let r1 := reading (stdin w) in
   let r2 := reading (snd r1) in
   let r3 := reading (snd r2) in
   exists rest,
     requests (events_during (Legacy.run TrimSpace fuel) w)
     = {| Method := "POST";
          URL := "https://demo.campay.net/api/collect/";
          Header := [("Authorization", "Token " ++ key);
                     ("Content-Type", "application/json")];
          Body := Some {| Amount := TrimSpace (fst r2);
                          From := TrimSpace (fst r1);
                          Description := TrimSpace (fst r3) |} |} :: rest) /\
  (forall l1 l2 l3 more,
     line_feeds l1 = 0%nat -> line_feeds l2 = 0%nat ->
     line_feeds l3 = 0%nat ->
     stdin w = l1 ++ LF ++ l2 ++ LF ++ l3 ++ LF ++ more ->
     exists rest,
       requests (events_during (Legacy.run TrimSpace fuel) w)
       = {| Method := "POST";
            URL := "https://demo.campay.net/api/collect/";
            Header := [("Authorization", "Token " ++ key);
                       ("Content-Type", "application/json")];
            Body := Some {| Amount := TrimSpace (l2 ++ LF);
                            From := TrimSpace (l1 ++ LF);
                            Description := TrimSpace (l3 ++ LF) |} |}
         :: rest).
Proof.
  intros Hd Hkey Hne.
  assert (Hrun : exists t,
             trace (snd (Legacy.run TrimSpace fuel w))
             = (trace w
                ++ [Stdout "Enter mobile money number: ";
                    Stdout "Enter amount: "; Stdout "Enter description: ";
                    Stdout ((LF ++ "Sending payment request to Campay...")
                            ++ LF);
                    Stdout ("Number: "
                            ++ TrimSpace (fst (reading (stdin w))) ++ LF
                            ++ "Amount: "
                            ++ TrimSpace
                                 (fst (reading (snd (reading (stdin w)))))
                            ++ LF
                            ++ "Description: "
                            ++ TrimSpace
                                 (fst (reading
                                         (snd (reading
                                                 (snd (reading (stdin w)))))))
                            ++ LF);
                    Exchange
                      {| Method := "POST";
                         URL := "https://demo.campay.net/api/collect/";
                         Header := [("Authorization",
                                     ("Token " ++ key)%string);
                                    ("Content-Type", "application/json")];
                         Body :=
                           Some {| Amount :=
                                     TrimSpace
                                       (fst (reading
                                               (snd (reading (stdin w)))));
                                   From :=
                                     TrimSpace (fst (reading (stdin w)));
                                   Description :=
                                     TrimSpace
                                       (fst (reading
                                               (snd (reading
                                                       (snd (reading
                                                               (stdin w)))))))
                                   |} |}]
                ++ t)%list).
  { unfold Legacy.run.
    unfold bind at 1. unfold Stat_dotenv at 1. rewrite Hd.
    unfold bind at 1. unfold ret at 1.
    unfold bind at 1. unfold Getenv at 1. rewrite Hkey.
    destruct (String.eqb_spec key ""); [contradiction|].
    unfold Print, Println, emit.
    unfold bind at 1. unfold bind at 1.
    destruct (ReadString (ascii_of_nat 10)
                (log (Stdout "Enter mobile money number: ") w))
      as [[l1 e1] w1] eqn:H1.
    destruct (ReadString_reading _ _ _ _ H1) as (Ht1 & Hl1 & Hs1).
    unfold bind at 1. unfold bind at 1.
    destruct (ReadString (ascii_of_nat 10) (log (Stdout "Enter amount: ") w1))
      as [[l2 e2] w2] eqn:H2.
    destruct (ReadString_reading _ _ _ _ H2) as (Ht2 & Hl2 & Hs2).
    unfold bind at 1. unfold bind at 1.
    destruct (ReadString (ascii_of_nat 10)
                (log (Stdout "Enter description: ") w2))
      as [[l3 e3] w3] eqn:H3.
    destruct (ReadString_reading _ _ _ _ H3) as (Ht3 & Hl3 & Hs3).
    cbn [trace log stdin] in Ht1, Ht2, Ht3, Hl1, Hl2, Hl3, Hs1, Hs2, Hs3.
    rewrite Hs2 in Hl3. rewrite Hs1 in Hl2, Hl3.
    rewrite <- Hl1, <- Hl2, <- Hl3. clear Hl1 Hl2 Hl3 Hs1 Hs2 Hs3.
    do 3 unfold bind at 1.
    unfold Legacy.Execute, Resty.Execute.
    match goal with
    | |- context [gateway ?x (exchanges (trace ?x)) ?req] =>
        destruct (gateway x (exchanges (trace x)) req) as [err|resp]
    end.
    { exists []. unfold ret. cbn [snd trace log].
      rewrite Ht3, Ht2, Ht1. repeat rewrite <- app_assoc. reflexivity. }
    destruct (String.eqb _ "").
    { exists []. unfold ret. cbn [snd trace log].
      rewrite Ht3, Ht2, Ht1. repeat rewrite <- app_assoc. reflexivity. }
    do 3 unfold bind at 1. unfold Legacy.pollTransactionStatus.
    match goal with
    | |- context [Legacy.poll_loop fuel ?c ?k ?r ?s ?x] =>
        destruct (Legacy_poll_loop_trace fuel c k r s x) as (tp & Htp);
        destruct (Legacy.poll_loop fuel c k r s x) as [[[status [err|]]|] w5]
    end; cbn [snd] in Htp.
    - eexists. unfold ret. cbn [snd]. rewrite Htp. cbn [trace log].
      rewrite Ht3, Ht2, Ht1. repeat rewrite <- app_assoc. reflexivity.
    - eexists. unfold bind, ret. cbn [snd trace log]. rewrite Htp.
      cbn [trace log].
      rewrite Ht3, Ht2, Ht1. repeat rewrite <- app_assoc. reflexivity.
    - eexists. unfold ret. cbn [snd]. rewrite Htp. cbn [trace log].
      rewrite Ht3, Ht2, Ht1. repeat rewrite <- app_assoc. reflexivity. }
  destruct Hrun as (t & Htrace).
  assert (Hgen : exists rest,
             requests (events_during (Legacy.run TrimSpace fuel) w)
             = {| Method := "POST";
                  URL := "https://demo.campay.net/api/collect/";
                  Header := [("Authorization", ("Token " ++ key)%string);
                             ("Content-Type", "application/json")];
                  Body :=
                    Some {| Amount :=
                              TrimSpace
                                (fst (reading (snd (reading (stdin w)))));
                            From := TrimSpace (fst (reading (stdin w)));
                            Description :=
                              TrimSpace
                                (fst (reading
                                        (snd (reading
                                                (snd (reading
                                                        (stdin w))))))) |} |}
               :: rest).
  { exists (requests t).
    rewrite (events_during_trace _ _ _ Htrace), requests_app. reflexivity. }
  split; [exact Hgen|].
  intros l1 l2 l3 more H1 H2 H3 Hin.
  rewrite Hin in Hgen.
  rewrite (reading_line l1 _ H1) in Hgen. cbn [fst snd] in Hgen.
  rewrite (reading_line l2 _ H2) in Hgen. cbn [fst snd] in Hgen.
  rewrite (reading_line l3 _ H3) in Hgen. cbn [fst snd] in Hgen.
  exact Hgen.
Qed.

Lemma Legacy_run_sends_unvalidated_witness :
  let w := example_world (String.concat LF ["abc"; "-5"; ""; ""])
             (refusing 401) in
  exists rest,
    requests (events_during (Legacy.run TrimSpace_eol 5) w)
    = {| Method := "POST";
         URL := "https://demo.campay.net/api/collect/";
         Header := [("Authorization", "Token key");
                    ("Content-Type", "application/json")];
         Body := Some {| Amount := "-5"; From := "abc";
                         Description := "" |} |} :: rest.
Proof.
  intros w.
  refine (proj2 (Legacy_run_sends_unvalidated TrimSpace_eol 5 w "key" _ _ _)
            "abc" "-5" "" "" _ _ _ _).
  - reflexivity.
  - reflexivity.
  - discriminate.
  - reflexivity.
  - reflexivity.
  - reflexivity.
  - reflexivity.
Defined.

(** * Edge cases *)

(** X24.  [validateAmount] lets through every value that is not <= 0 in
    the IEEE comparison, and that includes the values that are no amounts:
    when [strconv.ParseFloat] returns NaN or positive infinity without an
    error, as it does for the strings "NaN" and "Inf", the amount is
    accepted. *)
Theorem validateAmount_accepts_nan_and_infinity
    (ParseFloat : string -> Z -> float64 * error) (amount : string) :
  amount <> "" ->
  ParseFloat amount 64 = (S754_nan, None) \/
  ParseFloat amount 64 = (S754_infinity false, None) ->
  validateAmount ParseFloat amount = None.
Proof.
  intros Hne H. apply validateAmount_accepts.
  split; [exact Hne|].
  destruct H as [-> | ->]; now split.
Qed.

Lemma validateAmount_accepts_nan_and_infinity_witness :
  validateAmount ParseFloat_special "NaN" = None.
Proof.
  apply validateAmount_accepts_nan_and_infinity.
  - discriminate.
  - left. reflexivity.
Defined.

(** X25.  With a [MaxPollAttempts] of zero or less the poller reports
    "transaction timeout after N attempts" at once: it makes no status
    check and does not even look at the context. *)
Theorem PollTransactionStatus_without_budget
    (c : CampayClient) (ctx : Context) (reference : string) (w : World) :
  MaxPollAttempts (config c) <= 0 ->
  fst (PollTransactionStatus c ctx reference w)
  = Some ("", Some (errorString
                      ("transaction timeout after "
                       ++ itoa (MaxPollAttempts (config c)) ++ " attempts"))) /\
  events_during (PollTransactionStatus c ctx reference) w = [].
Proof.
  intros Hmax.
  assert (Heq : PollTransactionStatus c ctx reference w
                = (Some (attempts_timeout c), extend [] w)).
  { unfold PollTransactionStatus.
    replace (Z.to_nat (MaxPollAttempts (config c))) with 0%nat by lia.
    cbn [poll_loop].
    destruct (Z.ltb_spec 0 (MaxPollAttempts (config c))); [lia|].
    now rewrite extend_nil. }
  rewrite (events_during_extend _ _ _ _ Heq), Heq. now split.
Qed.

Lemma PollTransactionStatus_without_budget_witness :
  let c := NewCampayClient (example_config 0) in
  let w := example_world "" (answering "SUCCESSFUL") in
  fst (PollTransactionStatus c never "abc123" w)
  = Some ("", Some (errorString "transaction timeout after 0 attempts")) /\
  events_during (PollTransactionStatus c never "abc123") w = [].
Proof.
  intros c w.
  apply (PollTransactionStatus_without_budget c never "abc123" w).
  cbn. lia.
Defined.

(** X26.  When the configuration cannot be loaded [run] stops before it
    asks anything: it has no effect at all, not a prompt and not a request,
    and returns the error wrapped; [main] then prints it on standard error
    and exits with status 1. *)
Theorem run_configuration_error
    (ParseFloat : string -> Z -> float64 * error)
    (TrimSpace : string -> string) (w : World) (err : Err) :
  fst (loadConfig w) = (None, Some err) ->
  fst (run ParseFloat TrimSpace w)
  = Some (Some (Errorf_w "failed to load configuration: " err)) /\
  events_during (run ParseFloat TrimSpace) w = [] /\
  fst (main ParseFloat TrimSpace w) = Some 1 /\
  events_during (main ParseFloat TrimSpace) w
  = [Stderr ("Error: failed to load configuration: " ++ Error err ++ LF)].
Proof.
  intros Hcfg.
  destruct (run_follows_path ParseFloat TrimSpace w)
    as (t & e & Hres & Htrace & Hpath).
  assert (Hte : t = [] /\
                e = Some (Errorf_w "failed to load configuration: " err)).
  { destruct Hpath; try congruence.
    split; [reflexivity|]. congruence. }
  destruct Hte as [-> ->].
  destruct (run ParseFloat TrimSpace w) as [r w'] eqn:Hrun.
  cbn [fst snd] in Hres, Htrace. subst r.
  assert (Hmain : main ParseFloat TrimSpace w
                  = (Some 1,
                     log (Stderr ("Error: failed to load configuration: "
                                  ++ Error err ++ LF)) w')).
  { unfold main, bind. rewrite Hrun. reflexivity. }
  split; [reflexivity|]. split; [|split].
  - apply events_during_trace. now rewrite Hrun.
  - now rewrite Hmain.
  - apply events_during_trace. rewrite Hmain. cbn [snd log trace].
    rewrite Htrace, app_nil_r. reflexivity.
Qed.

Lemma run_configuration_error_witness :
  let w := {| environ := fun _ => None; dotenv := None; stdin := "";
              gateway := always_pending; timer := fun _ _ => false;
              trace := [] |} in
  fst (main ParseFloat_digits TrimSpace_eol w) = Some 1 /\
  events_during (main ParseFloat_digits TrimSpace_eol) w
  = [Stderr ("Error: failed to load configuration: "
             ++ "API_KEY environment variable is required" ++ LF)].
Proof.
  intros w.
  destruct (run_configuration_error ParseFloat_digits TrimSpace_eol w
              (errorString "API_KEY environment variable is required"))
    as (_ & _ & Hmain & Hev).
  - reflexivity.
  - split; [exact Hmain|exact Hev].
Defined.

(** While the context is not done at the [select]s of [k] turns and the
    gateway answers with statuses that are not terminal, the loop goes
    through these [k] turns, with one status check and two [select]s
    each. *)
Lemma poll_loop_turns (k : nat) :
  forall (fuel : nat) (c : CampayClient) (ctx : Context)
         (reference : string) (attempts : Z) (w : World),
    (forall n, (n < 2 * k)%nat ->
       Done ctx (selects (trace w) + n) = false) ->
    (forall i, (i < k)%nat ->
       exists status,
         checkStatus w c reference (exchanges (trace w) + i)
         = (status, None) /\ terminal status = None) ->
    attempts + Z.of_nat k <= MaxPollAttempts (config c) ->
    (k <= fuel)%nat ->
    exists t,
      poll_loop fuel c ctx reference attempts w
      = poll_loop (fuel - k) c ctx reference (attempts + Z.of_nat k)
          (extend t w) /\
      exchanges t = k /\ selects t = (2 * k)%nat.
Proof.
  induction k as [|k IH];
    intros fuel c ctx reference attempts w Hctx Hgw Hmax Hfuel.
  - exists []. rewrite extend_nil, Nat.sub_0_r, Z.add_0_r. now repeat split.
  - destruct fuel as [|fuel]; [lia|].
    cbn [poll_loop Nat.sub].
    destruct (Z.ltb_spec attempts (MaxPollAttempts (config c))) as [Hlt|Hge];
      [|lia].
    unfold bind. rewrite poll_body_eq.
    pose proof (Hctx 0%nat ltac:(lia)) as Hd0. rewrite Nat.add_0_r in Hd0.
    pose proof (Hctx 1%nat ltac:(lia)) as Hd1. rewrite Nat.add_1_r in Hd1.
    rewrite Hd0, Hd1.
    destruct (Hgw 0%nat) as (status & Hst & Hterm); [lia|].
    rewrite Nat.add_0_r in Hst. rewrite Hst, Hterm.
    match goal with
    | |- context [poll_loop fuel c ctx reference ?a (extend ?t1 w)] =>
        destruct (IH fuel c ctx reference a (extend t1 w))
          as (t & Heq & Hn & Hs); [| |lia|lia|];
          [| |exists (t1 ++ t)%list; rewrite Heq, extend_extend;
              split; [f_equal; lia|]]
    end.
    + intros n Hn. rewrite selects_extend.
      replace (selects (trace w) + _ + n)%nat
        with (selects (trace w) + (2 + n))%nat
        by (unfold selects, count; cbn; lia).
      apply Hctx. lia.
    + intros i Hi. rewrite exchanges_extend.
      destruct (Hgw (S i)) as (s & Hs' & Ht); [lia|].
      exists s. split; [|assumption].
      change (checkStatus (extend ?t w)) with (checkStatus w).
      rewrite <- Hs'. f_equal. unfold exchanges, count. cbn. lia.
    + unfold exchanges, selects in *. rewrite !count_app, Hn, Hs.
      split; cbn; lia.
Qed.

(** The poller under a deadline that is found fired at the head of turn
    [k] ([during_wait = false]) or during the wait of turn [k]
    ([during_wait = true]), the status checks before that answering with
    statuses that are not terminal. *)
Lemma PollTransactionStatus_deadline
    (c : CampayClient) (ctx : Context) (reference : string) (w : World)
    (k : nat) (during_wait : bool) :
  Z.of_nat k < MaxPollAttempts (config c) ->
  (forall n, (n < 2 * k + (if during_wait then 1 else 0))%nat ->
     Done ctx (selects (trace w) + n) = false) ->
  Done ctx (selects (trace w) + (2 * k + (if during_wait then 1 else 0)))
  = true ->
  (forall i, (i < k + (if during_wait then 1 else 0))%nat ->
     exists status,
       checkStatus w c reference (exchanges (trace w) + i) = (status, None) /\
       terminal status = None) ->
  exists t,
    PollTransactionStatus c ctx reference w
    = (Some (if during_wait then wait_timeout ctx else cancelled ctx),
       extend t w) /\
    exchanges t = (k + (if during_wait then 1 else 0))%nat /\
    stderr_lines t = [] /\
    (forall line, In line (stdout_lines t) ->
                  exists i, line = progress c (Z.of_nat i)).
Proof.
  intros Hk Hnot Hdone Hgw.
  destruct (poll_loop_turns k (Z.to_nat (MaxPollAttempts (config c)))
              c ctx reference 0 w) as (t1 & Heq & Hn & Hs).
  { intros n Hlt. apply Hnot. lia. }
  { intros i Hi. apply Hgw. lia. }
  { lia. }
  { lia. }
  assert (Hpoll : exists t,
             PollTransactionStatus c ctx reference w
             = (Some (if during_wait then wait_timeout ctx
                      else cancelled ctx), extend t w) /\
             exchanges t = (k + (if during_wait then 1 else 0))%nat).
  { unfold PollTransactionStatus. rewrite Heq.
    destruct (Z.to_nat (MaxPollAttempts (config c)) - k)%nat
      as [|fuel] eqn:Hfuel; [lia|].
    cbn [poll_loop].
    destruct (Z.ltb_spec (0 + Z.of_nat k) (MaxPollAttempts (config c)));
      [|lia].
    unfold bind. rewrite poll_body_eq, selects_extend, exchanges_extend, Hn, Hs.
    change (checkStatus (extend t1 w)) with (checkStatus w).
    destruct during_wait.
    - rewrite (Hnot (2 * k)%nat) by lia.
      destruct (Hgw k) as (status & Hst & Hterm); [lia|].
      rewrite Hst, Hterm.
      replace (S (selects (trace w) + 2 * k))
        with (selects (trace w) + (2 * k + 1))%nat by lia.
      rewrite Hdone, extend_extend.
      eexists. split; [reflexivity|].
      unfold exchanges in *. rewrite count_app, Hn. cbn. lia.
    - rewrite Nat.add_0_r in Hdone. rewrite Hdone, extend_extend.
      eexists. split; [reflexivity|].
      unfold exchanges in *. rewrite count_app, Hn. cbn. lia. }
  destruct Hpoll as (t & Hpoll & Hcalls).
  exists t. split; [exact Hpoll|]. split; [exact Hcalls|].
  destruct (PollTransactionStatus_run c ctx reference w)
    as (t0 & result & Heq0 & Hrun).
  rewrite Heq0 in Hpoll. injection Hpoll as _ Ht.
  apply app_inv_head in Ht. subst t0.
  split; [exact (poll_run_no_stderr _ _ _ _ _ _ _ Hrun)|].
  destruct (poll_run_effects _ _ _ _ _ _ _ Hrun) as (_ & _ & _ & _ & Hout).
  intros line Hin. rewrite Hout in Hin.
  apply in_map_iff in Hin. destruct Hin as (i & <- & _).
  exists i. f_equal.
Qed.

(** X27.  The whole run when the payment is never confirmed, under the
    deadline that [run] sets: with a configuration, a valid request, an
    initiation that returns a reference, status checks that answer with a
    status that is not terminal, and the deadline found fired at the head of
    turn [k] or during the wait of turn [k] (for the budget of 40 waits: in
    the 40th wait at the latest, [k] = 39), [main] has made the POST and
    one status check for each turn begun, prints no final status, writes
    "Error: failed to get transaction status: " followed by "transaction
    status check cancelled: context deadline exceeded" (at the head of a
    turn) or "transaction timeout: context deadline exceeded" (during a
    wait) on standard error and exits with status 1. *)
Theorem main_deadline_exceeded
    (ParseFloat : string -> Z -> float64 * error)
    (TrimSpace : string -> string) (w : World)
    (cfg : Config) (req : PaymentRequest) (reference : string)
    (k : nat) (during_wait : bool) :
  fst (loadConfig w) = (Some cfg, None) ->
  fst (getUserInput TrimSpace (snd (loadConfig w))) = (Some req, None) ->
  validatePaymentRequest ParseFloat req = None ->
  reference_of (gateway w (exchanges (trace w))
                  (collect_request (NewCampayClient cfg) req))
  = (reference, None) ->
  (k < 40)%nat ->
  (forall n, (n < 2 * k + (if during_wait then 1 else 0))%nat ->
     timer w (MaxPollAttempts cfg * PollInterval cfg)
       (selects (trace w) + n) = false) ->
  timer w (MaxPollAttempts cfg * PollInterval cfg)
    (selects (trace w) + (2 * k + (if during_wait then 1 else 0))) = true ->
  (forall i, (i < k + (if during_wait then 1 else 0))%nat ->
     exists s,
       checkStatus w (NewCampayClient cfg) reference
         (exchanges (trace w) + 1 + i) = (s, None) /\
       s <> "SUCCESSFUL" /\ s <> "FAILED") ->
  let t := events_during (main ParseFloat TrimSpace) w in
  fst (main ParseFloat TrimSpace w) = Some 1 /\
  calls_during (main ParseFloat TrimSpace) w
  = (1 + k + (if during_wait then 1 else 0))%nat /\
  stderr_lines t
  = ["Error: failed to get transaction status: "
     ++ (if during_wait then "transaction timeout: "
         else "transaction status check cancelled: ")
     ++ "context deadline exceeded" ++ LF] /\
  ~ In (LF ++ "=== FINAL TRANSACTION STATUS ===" ++ LF) (stdout_lines t).
Proof.
  intros Hcfg Hin Hval Href Hk Hnot Hdone Hpending t. subst t.
  destruct (run_polls ParseFloat TrimSpace w cfg req reference
              Hcfg Hin Hval Href) as (wp & Hrun & Htr & Hgw).
  assert (Hmax : MaxPollAttempts cfg = 40).
  { destruct (loadConfig_shape w) as [(cfg' & H' & _ & _ & _ & Hm)|(e & H')];
      rewrite Hcfg in H'; [injection H' as <-; exact Hm|discriminate]. }
  assert (Hex : exchanges (trace wp) = (exchanges (trace w) + 1)%nat).
  { rewrite Htr. unfold exchanges. rewrite !count_app. reflexivity. }
  assert (Hsel : selects (trace wp) = selects (trace w)).
  { rewrite Htr. unfold selects. rewrite !count_app. cbn. lia. }
  destruct (PollTransactionStatus_deadline
              (NewCampayClient cfg) (poll_context w cfg) reference wp
              k during_wait)
    as (tp & Hpoll & Hcalls & Hquiet & Hout).
  { cbn [config NewCampayClient]. lia. }
  { intros n Hn. rewrite Hsel. now apply Hnot. }
  { rewrite Hsel. exact Hdone. }
  { intros i Hi. destruct (Hpending i Hi) as (s & Hs & H1 & H2).
    exists s. split; [|now apply terminal_none].
    unfold checkStatus in *. now rewrite Hgw, Hex. }
  set (message := "Error: failed to get transaction status: "
                  ++ (if during_wait then "transaction timeout: "
                      else "transaction status check cancelled: ")
                  ++ "context deadline exceeded" ++ LF).
  assert (Hmain : main ParseFloat TrimSpace w
                  = (Some 1, log (Stderr message) (extend tp wp))).
  { unfold main. unfold bind at 1. rewrite Hrun.
    unfold bind at 1. rewrite Hpoll. subst message.
    now destruct during_wait. }
  assert (Htrace : trace (snd (main ParseFloat TrimSpace w))
                   = (trace w
                      ++ (prompts ++ details req
                          ++ [Exchange (collect_request (NewCampayClient cfg)
                                          req)]
                          ++ waiting reference)
                      ++ tp ++ [Stderr message])%list).
  { rewrite Hmain. cbn [snd trace log extend]. rewrite Htr.
    repeat rewrite <- app_assoc. reflexivity. }
  rewrite (events_during_trace _ _ _ Htrace),
          (calls_during_trace _ _ _ Htrace), Hmain.
  split; [reflexivity|]. split; [|split].
  - unfold exchanges in *. rewrite !count_app, Hcalls. cbn. lia.
  - rewrite !stderr_lines_app, Hquiet. reflexivity.
  - rewrite !stdout_lines_app. cbn [stdout_lines app].
    rewrite app_nil_r. intros H.
    apply in_app_or in H. destruct H as [H|H].
    + unfold prompts, details, waiting, LF in H.
      cbn [stdout_lines app In append] in H.
      repeat (destruct H as [H|H]; [discriminate H|]). exact H.
    + destruct (Hout _ H) as (i & Hi).
      unfold progress, LF in Hi. cbn [append] in Hi. discriminate Hi.
Qed.

Lemma main_deadline_exceeded_witness :
  let w := deadline_world
             (String.concat LF ["677123456"; "500"; "Payment test"; ""])
             never_confirmed 79 in
  let t := events_during (main ParseFloat_digits TrimSpace_eol) w in
  fst (main ParseFloat_digits TrimSpace_eol w) = Some 1 /\
  calls_during (main ParseFloat_digits TrimSpace_eol) w = 41%nat /\
  stderr_lines t
  = ["Error: failed to get transaction status: "
     ++ "transaction timeout: " ++ "context deadline exceeded" ++ LF].
Proof.
  intros w t.
  destruct (main_deadline_exceeded ParseFloat_digits TrimSpace_eol w
              {| BaseURL := defaultBaseURL; APIKey := "key";
                 PollInterval := pollInterval;
                 MaxPollAttempts := maxPollAttempts |}
              {| Amount := "500"; From := "677123456";
                 Description := "Payment test" |}
              "abc123" 39 true)
    as (Hexit & Hcalls & Herr & _).
  - reflexivity.
  - reflexivity.
  - reflexivity.
  - reflexivity.
  - lia.
  - intros n Hn. apply Nat.leb_gt. exact Hn.
  - reflexivity.
  - intros i Hi. exists "PENDING".
    split; [reflexivity|split; discriminate].
  - split; [exact Hexit|]. split; [exact Hcalls|exact Herr].
Defined.
